(** * Energy and progression accounting of the game engine

    A shallow embedding of the resource and progression core of the engine:
    [EnergyManager] (regeneration, overflow, boosts), [ExperienceCalculator]
    (level curve, event and catch-up multipliers) and the parts of
    [UserService] that orchestrate them (consumeEnergy, regenerateEnergy,
    addExperience, processMilestoneRewards, prestigeUser,
    getCurrentXpMultipliers).

    Conventions of the embedding.
    - A TypeScript [number] that can be fractional (energies, multipliers,
      the average level) is a rational [Q]; IEEE rounding is idealised as
      exact arithmetic, [Math.floor] and [Math.ceil] are [Qfloor] and
      [Qceiling].  Equalities on such values are stated with [==], or with
      [=] where both sides are the same fraction.
    - Levels, experience points and counters are [Z].
    - A [Date] is its [getTime()] value, a [Z] number of milliseconds.  Every
      [new Date()] / [Date.now()] read inside one call is the explicit
      parameter [now] of that call.
    - A [throw] is the [Err] branch of [result]; the constructors of [error]
      are named after the thrown messages.
    - The database is a record of tables; the Prisma calls used by the code
      ([findUnique], [findMany], [update], [create]) are functions on it. *)

From Stdlib Require Import ZArith QArith Qround Qminmax Qpower Lqa.
From Stdlib Require Import List String Bool Lia DecimalString.
Import ListNotations.
Open Scope Z_scope.
Open Scope Q_scope.

(** ** Results and errors

    The specification's [InvalidAmount] covers [AmountMustBePositive] and
    [AmountCannotBeNegative]; the three state checks of [EnergyManager] throw
    on values the data model excludes. *)

Inductive error : Type :=
| AmountMustBePositive        (* "Amount must be positive"  /  "Boost amount must be positive" *)
| AmountCannotBeNegative      (* "Amount cannot be negative" *)
| UserNotFound                (* "User with id ... not found" *)
| InsufficientEnergy          (* "Insufficient energy" *)
| CurrentEnergyNegative       (* "Current energy cannot be negative" *)
| MaxEnergyNotPositive        (* "Maximum energy must be positive" *)
| RegenMultiplierNegative     (* "Regeneration multiplier cannot be negative" *)
| OverflowDurationNegative    (* "Overflow duration cannot be negative" *)
| UniqueConstraintViolation   (* Prisma: create with an existing primary key *)
| BelowMinimumLevel.          (* "You must be at least level 50 to prestige. ..." *)

Inductive result (A : Type) : Type :=
| Ok (a : A)
| Err (e : error).
Arguments Ok {A} a.
Arguments Err {A} e.

Definition bind {A B : Type} (r : result A) (k : A -> result B) : result B :=
  match r with
  | Ok a => k a
  | Err e => Err e
  end.

Notation "x <- r ;; k" := (bind r (fun x => k))
  (at level 61, r at next level, right associativity).

(** ** Comparisons of JavaScript numbers *)

Definition Qleb (x y : Q) : bool := Qle_bool x y.
Definition Qltb (x y : Q) : bool := negb (Qle_bool y x).

(** ** EnergyManager (models/ZoneConfig.ts) *)

Module EnergyManager.

Definition baseRegenerationRate : Q := 1.
Definition baseMaxEnergy : Q := 100.
Definition energyPerLevel : Q := 5.
Definition maxOverflowPercentage : Q := 1 # 2.
Definition defaultOverflowDuration : Z := 60.
Definition recoveryZoneMultiplier : Q := 5 # 2.

(** [getEffectiveEnergyCap(currentEnergy, maxEnergy, overflowExpiry = null)] *)
Definition getEffectiveEnergyCap
    (currentEnergy maxEnergy : Q) (overflowExpiry : option Z) (now : Z)
  : result Q :=
  if Qleb maxEnergy 0 then Err MaxEnergyNotPositive
  else
    match overflowExpiry with
    | None => Ok (Qmax currentEnergy maxEnergy)
    | Some expiry =>
        if (expiry <? now)%Z then Ok (Qmax currentEnergy maxEnergy)
        else
          let overflowCap := maxEnergy * (1 + maxOverflowPercentage) in
          Ok (Qmax currentEnergy overflowCap)
    end.

(** [calculateRegeneratedEnergy(currentEnergy, maxEnergy, lastEnergyUpdate,
    regenMultiplier = 1.0, inRecoveryZone = false)].  The function has no
    overflow-expiry parameter: it calls [getEffectiveEnergyCap] with two
    arguments, so the third takes its default [null].  The check that
    [lastEnergyUpdate] is a [Date] object holds of every [Z]. *)
Definition calculateRegeneratedEnergy
    (currentEnergy maxEnergy : Q) (lastEnergyUpdate : Z)
    (regenMultiplier : Q) (inRecoveryZone : bool) (now : Z) : result Q :=
  if Qltb currentEnergy 0 then Err CurrentEnergyNegative
  else if Qleb maxEnergy 0 then Err MaxEnergyNotPositive
  else if Qltb regenMultiplier 0 then Err RegenMultiplierNegative
  else
    effectiveCap <- getEffectiveEnergyCap currentEnergy maxEnergy None now ;;
    if Qleb effectiveCap currentEnergy then Ok currentEnergy
    else
      let minutesPassed :=
        Qmax 0 (inject_Z (now - lastEnergyUpdate) / inject_Z (1000 * 60)) in
      let effectiveMultiplier :=
        if inRecoveryZone then regenMultiplier * recoveryZoneMultiplier
        else regenMultiplier in
      let energyGained :=
        Qfloor (minutesPassed * baseRegenerationRate * effectiveMultiplier) in
      let newEnergy :=
        Qmin (currentEnergy + inject_Z energyGained) effectiveCap in
      Ok newEnergy.

Record BoostResult : Type := mkBoostResult {
  energy : Q;
  overflowExpiry : option Z
}.

(** [applyEnergyBoost(currentEnergy, maxEnergy, boostAmount,
    allowOverflow = true, overflowDuration = 60)]; [overflowDuration] is a
    whole number of minutes, added to the clock by [setMinutes]. *)
Definition applyEnergyBoost
    (currentEnergy maxEnergy boostAmount : Q) (allowOverflow : bool)
    (overflowDuration : Z) (now : Z) : result BoostResult :=
  if Qltb currentEnergy 0 then Err CurrentEnergyNegative
  else if Qleb maxEnergy 0 then Err MaxEnergyNotPositive
  else if Qleb boostAmount 0 then Err AmountMustBePositive
  else if (overflowDuration <? 0)%Z then Err OverflowDurationNegative
  else
    let maxPossibleEnergy :=
      if allowOverflow then maxEnergy * (1 + maxOverflowPercentage)
      else maxEnergy in
    let newEnergy := Qmin (currentEnergy + boostAmount) maxPossibleEnergy in
    let expiry :=
      if Qltb maxEnergy newEnergy
      then Some (now + overflowDuration * (60 * 1000))%Z
      else None in
    Ok (mkBoostResult newEnergy expiry).

End EnergyManager.

(** ** ExperienceCalculator (utils/ExperienceCalculator.ts) *)

(** A number that may be [Infinity] (the requirement at the level cap). *)
Inductive xnum : Type :=
| Fin (z : Z)
| Infinity.

Definition xadd (a b : xnum) : xnum :=
  match a, b with
  | Fin x, Fin y => Fin (x + y)
  | _, _ => Infinity
  end.

(** [z >= x] for a finite [z]. *)
Definition xgeb (z : Z) (x : xnum) : bool :=
  match x with
  | Fin y => (y <=? z)%Z
  | Infinity => false
  end.

(** [XpMultiplierEvent]: [userIds] / [zoneIds] are optional arrays. *)
Record XpMultiplierEvent : Type := mkEvent {
  event_id : string;
  event_multiplier : Q;
  event_startTime : Z;
  event_endTime : Z;
  event_userIds : option (list string);
  event_zoneIds : option (list string)
}.

Module ExperienceCalculator.

Definition baseXP : Z := 100.
Definition xpScalingFactor : Q := 12 # 10.
Definition maxLevel : Z := 100.
Definition milestones : list Z := [10; 25; 50; 75; 100]%Z.
Definition catchupThreshold : Q := 5.
Definition maxCatchupMultiplier : Q := 15 # 10.

(** [getXpRequiredForNextLevel(currentLevel)] *)
Definition getXpRequiredForNextLevel (currentLevel : Z) : xnum :=
  if (maxLevel <=? currentLevel)%Z then Infinity
  else Fin (Qfloor (inject_Z baseXP * Qpower xpScalingFactor (currentLevel - 1))).

(** The [for (let i = 1; i < level; i++) totalXp += ...] loop of
    [getXpForLevel], with [n] iterations left. *)
Fixpoint getXpForLevel_loop (n : nat) (i : Z) (totalXp : xnum) : xnum :=
  match n with
  | O => totalXp
  | S n' =>
      getXpForLevel_loop n' (i + 1)%Z (xadd totalXp (getXpRequiredForNextLevel i))
  end.

(** [getXpForLevel(level)]; the final [Math.floor] acts on a sum of
    integers. *)
Definition getXpForLevel (level : Z) : xnum :=
  if (level <=? 1)%Z then Fin 0
  else
    let level := if (maxLevel <? level)%Z then maxLevel else level in
    getXpForLevel_loop (Z.to_nat (level - 1)) 1%Z (Fin 0).

(** The [while (xp >= totalXpNeeded && level < maxLevel)] loop of
    [getLevelFromXp].  [level] grows by one per iteration and the loop
    stops at [maxLevel], so [maxLevel] units of fuel are never used up. *)
Fixpoint getLevelFromXp_loop (fuel : nat) (xp level : Z) (totalXpNeeded : xnum) : Z :=
  match fuel with
  | O => level
  | S fuel' =>
      if xgeb xp totalXpNeeded && (level <? maxLevel)%Z then
        let level := (level + 1)%Z in
        let xpForNextLevel := getXpRequiredForNextLevel level in
        getLevelFromXp_loop fuel' xp level (xadd totalXpNeeded xpForNextLevel)
      else level
  end.

(** [getLevelFromXp(xp)] *)
Definition getLevelFromXp (xp : Z) : Z :=
  if (xp <=? 0)%Z then 1%Z
  else
    getLevelFromXp_loop (Z.to_nat maxLevel) xp 1%Z (getXpRequiredForNextLevel 1).

(** [getRemainingXp(totalXp)]: the fields read by [UserService]
    ([currentXp], [xpNeededForNextLevel] and [progressPercent] are display
    values derived from the same two). *)
Record RemainingXp : Type := mkRemainingXp {
  currentLevel : Z;
  nextLevelXp : xnum
}.

Definition getRemainingXp (totalXp : Z) : RemainingXp :=
  let currentLevel := getLevelFromXp totalXp in
  let xpRequiredForNextLevel := getXpRequiredForNextLevel currentLevel in
  mkRemainingXp currentLevel xpRequiredForNextLevel.

(** The [activeMultipliers] getter: events whose [endTime] is still ahead. *)
Definition activeMultipliers (events : list XpMultiplierEvent) (now : Z)
  : list XpMultiplierEvent :=
  filter (fun event => (now <? event_endTime event)%Z) events.

Definition includes (ids : list string) (x : string) : bool :=
  existsb (String.eqb x) ids.

(** The scope test inside the loop of [getActiveXpMultiplier]:
    [(userId === undefined || appliesToUser) &&
     (zoneId === undefined || appliesToZone)]. *)
Definition appliesTo (event : XpMultiplierEvent) (userId zoneId : option string) : bool :=
  let appliesToUser :=
    match userId with
    | None => true
    | Some u =>
        match event_userIds event with
        | None => true
        | Some ids => includes ids u
        end
    end in
  let appliesToZone :=
    match zoneId with
    | None => true
    | Some z =>
        match event_zoneIds event with
        | None => true
        | Some ids => includes ids z
        end
    end in
  appliesToUser && appliesToZone.

(** [getActiveXpMultiplier(userId?, zoneId?)]: relevant multipliers are
    multiplied together. *)
Definition getActiveXpMultiplier
    (events : list XpMultiplierEvent) (now : Z) (userId zoneId : option string) : Q :=
  let activeEvents := activeMultipliers events now in
  match activeEvents with
  | [] => 1
  | _ =>
      fold_left
        (fun multiplier event =>
           if appliesTo event userId zoneId
           then multiplier * event_multiplier event
           else multiplier)
        activeEvents 1
  end.

(** [getCatchupMultiplier(userLevel)], reading [_averageUserLevel]. *)
Definition getCatchupMultiplier (averageUserLevel : Q) (userLevel : Z) : Q :=
  if Qleb averageUserLevel (inject_Z userLevel) then 1
  else
    let levelDifference :=
      Qmin (averageUserLevel - inject_Z userLevel) catchupThreshold in
    let catchupBonus :=
      (levelDifference / catchupThreshold) * (maxCatchupMultiplier - 1) in
    1 + catchupBonus.

End ExperienceCalculator.

(** ** UserService (services/UserService.ts) *)

Inductive RewardType : Type :=
| CURRENCY | ITEM | ENERGY | MAX_ENERGY | TITLE | BADGE | SPECIAL.

(** The [MilestoneReward] interface of ExperienceCalculator.ts. *)
Record MilestoneReward : Type := mkReward {
  reward_id : string;
  reward_rewardType : RewardType;
  reward_description : string;
  reward_amount : option Z;
  reward_itemId : option string;
  reward_titleId : option string;
  reward_badgeId : option string
}.

(** A row of the [MilestoneReward] table (primary key [id]; [userId] and
    [level] are only indexed, not unique). *)
Record MilestoneRewardRow : Type := mkRow {
  row_id : string;
  row_userId : string;
  row_level : Z;
  row_rewardType : RewardType;
  row_description : string;
  row_amount : option Z;
  row_itemId : option string;
  row_titleId : option string;
  row_badgeId : option string;
  row_claimed : bool;
  row_claimedAt : option Z
}.

(** A row of the [User] table: the columns the energy and progression code
    reads or writes. *)
Record User : Type := mkUser {
  user_id : string;
  user_level : Z;
  user_experience : Z;
  user_currentEnergy : Q;
  user_maxEnergy : Q;
  user_prestigeLevel : Z;
  user_prestigePoints : Z;
  user_totalLifetimeExperience : Z;
  user_updatedAt : Z
}.

(** The tables used by the modelled methods.  [averageUserLevel] is the value
    [getAverageUserLevel()] returns (the cached [GameStats] row, else the
    recomputed average, else 1). *)
Record Db : Type := mkDb {
  users : list User;
  milestoneRewards : list MilestoneRewardRow;
  xpMultiplierEvents : list XpMultiplierEvent;
  averageUserLevel : Q
}.

Module UserService.

(** [getUserById(id)] = [db.user.findUnique({ where: { id } })] *)
Definition getUserById (db : Db) (id : string) : option User :=
  find (fun u => String.eqb (user_id u) id) (users db).

Definition set_updatedAt (now : Z) (u : User) : User :=
  mkUser (user_id u) (user_level u) (user_experience u) (user_currentEnergy u)
         (user_maxEnergy u) (user_prestigeLevel u) (user_prestigePoints u)
         (user_totalLifetimeExperience u) now.

Definition set_currentEnergy (e : Q) (u : User) : User :=
  mkUser (user_id u) (user_level u) (user_experience u) e
         (user_maxEnergy u) (user_prestigeLevel u) (user_prestigePoints u)
         (user_totalLifetimeExperience u) (user_updatedAt u).

(** [db.user.update({ where: { id }, data })].  The Prisma schema (kept with
    the add_user_progression_features migration) declares
    [updatedAt DateTime @updatedAt] on [User], and the migrations create the
    column as [DATETIME NOT NULL] without a default: the update applies
    [data] to the row and sets its [updatedAt] to the time of the write.  It
    returns the updated row and throws when no row has this id. *)
Definition user_update (db : Db) (id : string) (data : User -> User) (now : Z)
  : Db * result User :=
  match getUserById db id with
  | None => (db, Err UserNotFound)
  | Some u =>
      let u' := set_updatedAt now (data u) in
      (mkDb (map (fun x => if String.eqb (user_id x) id then set_updatedAt now (data x) else x)
                 (users db))
            (milestoneRewards db) (xpMultiplierEvents db) (averageUserLevel db),
       Ok u')
  end.

(** [consumeEnergy(userId, amount)] *)
Definition consumeEnergy (userId : string) (amount : Q) (now : Z) (db : Db)
  : Db * result User :=
  if Qleb amount 0 then (db, Err AmountMustBePositive)
  else
    match getUserById db userId with
    | None => (db, Err UserNotFound)
    | Some user =>
        match EnergyManager.calculateRegeneratedEnergy
                (user_currentEnergy user) (user_maxEnergy user)
                (user_updatedAt user) 1 false now with
        | Err e => (db, Err e)
        | Ok currentEnergy =>
            if Qltb currentEnergy amount then (db, Err InsufficientEnergy)
            else user_update db userId (set_currentEnergy (currentEnergy - amount)) now
        end
    end.

(** [regenerateEnergy(userId, amount)] *)
Definition regenerateEnergy (userId : string) (amount : Q) (now : Z) (db : Db)
  : Db * result User :=
  if Qltb amount 0 then (db, Err AmountCannotBeNegative)
  else
    match getUserById db userId with
    | None => (db, Err UserNotFound)
    | Some user =>
        match EnergyManager.calculateRegeneratedEnergy
                (user_currentEnergy user) (user_maxEnergy user)
                (user_updatedAt user) 1 false now with
        | Err e => (db, Err e)
        | Ok currentEnergy =>
            let newEnergy := Qmin (currentEnergy + amount) (user_maxEnergy user) in
            user_update db userId (set_currentEnergy newEnergy) now
        end
    end.

Record XpMultipliers : Type := mkXpMultipliers {
  eventMultiplier : Q;
  catchupMultiplier : Q;
  totalMultiplier : Q
}.

(** The rows [db.xpMultiplierEvent.findMany] returns for
    [startTime <= now <= endTime]. *)
Definition findActiveEvents (db : Db) (now : Z) : list XpMultiplierEvent :=
  filter (fun e => (event_startTime e <=? now)%Z && (now <=? event_endTime e)%Z)
         (xpMultiplierEvents db).

(** [activeEvents.length > 0 ? Math.max(...multipliers) : 1.0] *)
Definition highestMultiplier (activeEvents : list XpMultiplierEvent) : Q :=
  match map event_multiplier activeEvents with
  | [] => 1
  | m :: ms => fold_left Qmax ms m
  end.

(** The catch-up part of [getCurrentXpMultipliers], for a found user. *)
Definition catchupFor (avgLevel : Q) (level : Z) : Q :=
  let levelDifference := avgLevel - inject_Z level in
  if Qltb 5 levelDifference
  then Qmin (1 + levelDifference * (5 # 100)) (15 # 10)
  else 1.

(** [getCurrentXpMultipliers(userId)] *)
Definition getCurrentXpMultipliers (db : Db) (userId : string) (now : Z) : XpMultipliers :=
  let activeEvents := findActiveEvents db now in
  let eventMultiplier := highestMultiplier activeEvents in
  let avgLevel := averageUserLevel db in
  let catchupMultiplier :=
    match getUserById db userId with
    | Some user => catchupFor avgLevel (user_level user)
    | None => 1
    end in
  let totalMultiplier := eventMultiplier * catchupMultiplier in
  mkXpMultipliers eventMultiplier catchupMultiplier totalMultiplier.

(** The [milestones] table of [processMilestoneRewards]. *)
Definition milestones (userId : string) (level : Z) : list MilestoneReward :=
  if (level =? 5)%Z then
    [ mkReward ("level-5-currency-" ++ userId) CURRENCY
        "Level 5 achievement: 500 currency bonus" (Some 500%Z) None None None ]
  else if (level =? 10)%Z then
    [ mkReward ("level-10-energy-" ++ userId) MAX_ENERGY
        "Level 10 achievement: +10 maximum energy" (Some 10%Z) None None None ]
  else if (level =? 25)%Z then
    [ mkReward ("level-25-title-" ++ userId) TITLE
        "Level 25 achievement: 'Adventurer' title" (Some 0%Z) None
        (Some "title_adventurer"%string) None ]
  else if (level =? 50)%Z then
    [ mkReward ("level-50-currency-" ++ userId) CURRENCY
        "Level 50 achievement: 5000 currency bonus" (Some 5000%Z) None None None;
      mkReward ("level-50-energy-" ++ userId) MAX_ENERGY
        "Level 50 achievement: +20 maximum energy" (Some 20%Z) None None None;
      mkReward ("level-50-title-" ++ userId) TITLE
        "Level 50 achievement: 'Veteran' title" (Some 0%Z) None
        (Some "title_veteran"%string) None ]
  else [].

(** The [where: { userId, level, claimed: false }] filter. *)
Definition isUnclaimedFor (userId : string) (level : Z) (r : MilestoneRewardRow) : bool :=
  String.eqb (row_userId r) userId && (row_level r =? level)%Z && negb (row_claimed r).

(** [reward => ({ id, rewardType, description, amount: reward.amount || 0,
    itemId: reward.itemId || undefined })] *)
Definition rewardOfRow (r : MilestoneRewardRow) : MilestoneReward :=
  mkReward (row_id r) (row_rewardType r) (row_description r)
           (Some (match row_amount r with Some a => a | None => 0%Z end))
           (row_itemId r) None None.

(** [db.milestoneReward.create({ data })]: the primary key [id] must be new. *)
Definition milestoneReward_create (db : Db) (row : MilestoneRewardRow) : Db * result unit :=
  if existsb (fun r => String.eqb (row_id r) (row_id row)) (milestoneRewards db)
  then (db, Err UniqueConstraintViolation)
  else (mkDb (users db) (milestoneRewards db ++ [row])
             (xpMultiplierEvents db) (averageUserLevel db),
        Ok tt).

Definition rowOfReward (userId : string) (level : Z) (reward : MilestoneReward)
  : MilestoneRewardRow :=
  mkRow (reward_id reward) userId level (reward_rewardType reward)
        (reward_description reward) (reward_amount reward) (reward_itemId reward)
        (reward_titleId reward) (reward_badgeId reward) false None.

(** The [for (const reward of rewards) await create(...)] loop; a failing
    [create] aborts it, keeping the rows already written. *)
Fixpoint storeRewards (db : Db) (userId : string) (level : Z)
    (rewards : list MilestoneReward) : Db * result unit :=
  match rewards with
  | [] => (db, Ok tt)
  | reward :: rest =>
      match milestoneReward_create db (rowOfReward userId level reward) with
      | (db', Ok _) => storeRewards db' userId level rest
      | (db', Err e) => (db', Err e)
      end
  end.

(** [processMilestoneRewards(userId, level)] *)
Definition processMilestoneRewards (userId : string) (level : Z) (db : Db)
  : Db * result (list MilestoneReward) :=
  let existingRewards := filter (isUnclaimedFor userId level) (milestoneRewards db) in
  match existingRewards with
  | _ :: _ => (db, Ok (map rewardOfRow existingRewards))
  | [] =>
      let rewards := milestones userId level in
      match storeRewards db userId level rewards with
      | (db', Ok _) => (db', Ok rewards)
      | (db', Err e) => (db', Err e)
      end
  end.

(** The [while (newExperience >= getRemainingXp(newExperience).nextLevelXp)]
    loop of [addExperience].  Every iteration removes a finite, positive
    requirement, so [Z.to_nat newExperience] units of fuel are enough. *)
Fixpoint levelUpLoop (fuel : nat) (newExperience newLevel : Z) (leveledUp : bool)
  : Z * Z * bool :=
  match fuel with
  | O => (newExperience, newLevel, leveledUp)
  | S fuel' =>
      let next := ExperienceCalculator.nextLevelXp
                    (ExperienceCalculator.getRemainingXp newExperience) in
      if xgeb newExperience next then
        match next with
        | Fin required =>
            levelUpLoop fuel' (newExperience - required)%Z (newLevel + 1)%Z true
        | Infinity => (newExperience, newLevel, leveledUp)
        end
      else (newExperience, newLevel, leveledUp)
  end.

Record ExperienceGainResult : Type := mkGain {
  gain_user : User;
  gain_leveledUp : bool;
  gain_oldLevel : Z;
  gain_newLevel : Z;
  gain_baseXp : Q;
  gain_actualXp : Z;
  gain_multipliers : XpMultipliers;
  gain_milestoneRewards : list MilestoneReward
}.

Definition set_progress (level experience total : Z) (u : User) : User :=
  mkUser (user_id u) level experience (user_currentEnergy u)
         (user_maxEnergy u) (user_prestigeLevel u) (user_prestigePoints u)
         total (user_updatedAt u).

(** [addExperience(userId, baseAmount, zoneId?)]; [zoneId] is not read. *)
Definition addExperience (userId : string) (baseAmount : Q) (zoneId : option string)
    (now : Z) (db : Db) : Db * result ExperienceGainResult :=
  match getUserById db userId with
  | None => (db, Err UserNotFound)
  | Some user =>
      let multipliers := getCurrentXpMultipliers db userId now in
      let actualXp := Qceiling (baseAmount * totalMultiplier multipliers) in
      let oldLevel := user_level user in
      let start := (user_experience user + actualXp)%Z in
      let '(newExperience, newLevel, leveledUp) :=
        levelUpLoop (Z.to_nat start) start oldLevel false in
      match user_update db userId
              (set_progress newLevel newExperience
                 (user_totalLifetimeExperience user + actualXp)%Z) now with
      | (db1, Err e) => (db1, Err e)
      | (db1, Ok updatedUser) =>
          match (if leveledUp then processMilestoneRewards userId newLevel db1
                 else (db1, Ok [])) with
          | (db2, Err e) => (db2, Err e)
          | (db2, Ok milestoneRewards) =>
              (db2, Ok (mkGain updatedUser leveledUp oldLevel newLevel baseAmount
                               actualXp multipliers milestoneRewards))
          end
      end
  end.

Definition MIN_PRESTIGE_LEVEL : Z := 50.

Definition set_prestige (prestigeLevel prestigePoints : Z) (u : User) : User :=
  mkUser (user_id u) 1%Z 0%Z (user_currentEnergy u)
         (user_maxEnergy u) prestigeLevel prestigePoints
         (user_totalLifetimeExperience u) (user_updatedAt u).

Definition string_of_Z (z : Z) : string :=
  DecimalString.NilZero.string_of_int (Z.to_int z).

(** [prestigeUser(userId)].  A [PrestigeResult] with [success: false] is the
    [Err] branch; with [success: true] it carries the updated user.  After
    the user row and the prestige milestone row the method writes the tables
    userSkillNode, userEnergyState and userTitle, which the claims do not
    read and [Db] does not hold. *)
Definition prestigeUser (userId : string) (now : Z) (db : Db) : Db * result User :=
  match getUserById db userId with
  | None => (db, Err UserNotFound)
  | Some user =>
      if (user_level user <? MIN_PRESTIGE_LEVEL)%Z then (db, Err BelowMinimumLevel)
      else
        let newPrestigePoints := (user_level user / 10)%Z in
        match user_update db userId
                (set_prestige (user_prestigeLevel user + 1)%Z
                              (user_prestigePoints user + newPrestigePoints)%Z) now with
        | (db1, Err e) => (db1, Err e)
        | (db1, Ok updatedUser) =>
            let row :=
              mkRow ("prestige-" ++ string_of_Z (user_prestigeLevel user + 1) ++ "-" ++ userId)
                    userId 0%Z SPECIAL
                    ("Prestige " ++ string_of_Z (user_prestigeLevel user + 1)
                       ++ " reward - Energy cap increased by 10%")
                    None None None None true (Some now) in
            match milestoneReward_create db1 row with
            | (db2, Err e) => (db2, Err e)
            | (db2, Ok _) => (db2, Ok updatedUser)
            end
        end
  end.

End UserService.

(** ** The specification's own formulations

    Definitions that follow the words of the specification, used to compare
    it with the code above. *)

Module Spec.

Definition overflowPct : Q := 50 # 100.

(** Section 4.1, [Reconcile(state, now)], steps 1 to 6, over the fields
    [current], [max], [lastUpdate], [regenMultiplier], the recovery flag and
    [overflowExpiry]. *)
Definition Reconcile (current max : Q) (lastUpdate : Z) (regenMultiplier : Q)
    (inRecoveryZone : bool) (overflowExpiry : option Z) (now : Z) : Q :=
  let effectiveCap :=
    match overflowExpiry with
    | None => Qmax current max
    | Some expiry =>
        if (expiry <? now)%Z then Qmax current max
        else Qmax current (max * (1 + overflowPct))
    end in
  if Qleb effectiveCap current then current
  else
    let elapsedMinutes :=
      Qmax 0 (inject_Z (now - lastUpdate) / inject_Z 60000) in
    let effectiveMultiplier :=
      regenMultiplier * (if inRecoveryZone then 25 # 10 else 1) in
    let gained := Qfloor (elapsedMinutes * 1 * effectiveMultiplier) in
    Qmin (current + inject_Z gained) effectiveCap.

(** Section 4.2: [CumulativeXpForLevel] and [LevelFromCumulativeXp] are the
    level curve of [ExperienceCalculator]. *)
Definition CumulativeXpForLevel (level : Z) : Z :=
  match ExperienceCalculator.getXpForLevel level with
  | Fin x => x
  | Infinity => 0%Z
  end.

Definition LevelFromCumulativeXp (xp : Z) : Z :=
  ExperienceCalculator.getLevelFromXp xp.

(** Section 4.2, [GrantExperience] step 2: the new level and within-level
    experience, re-derived from the cumulative figure. *)
Definition GrantExperience (level experience actualXp : Z) : Z * Z :=
  let cumulative := (CumulativeXpForLevel level + experience + actualXp)%Z in
  let newLevel := LevelFromCumulativeXp cumulative in
  (newLevel, (cumulative - CumulativeXpForLevel newLevel)%Z).

(** Section 4.2, [catchupMultiplier]: 1.0 at or above the average, else the
    linear interpolation from 1.0 to 1.5 over a deficit of 0 to 5 levels,
    capped at 1.5. *)
Definition catchupMultiplier (averageLevel : Q) (playerLevel : Z) : Q :=
  if Qleb averageLevel (inject_Z playerLevel) then 1
  else
    let deficit := averageLevel - inject_Z playerLevel in
    Qmin (1 + (deficit / 5) * ((15 # 10) - 1)) (15 # 10).

(** Section 3, [MultiplierEvent]: an event applies only while
    [startTime <= now <= endTime] and its scope, if present, contains the
    acting player and zone. *)
Definition applies (e : XpMultiplierEvent) (playerId : string) (zoneId : option string)
    (now : Z) : bool :=
  (event_startTime e <=? now)%Z && (now <=? event_endTime e)%Z
  && match event_userIds e with
     | None => true
     | Some ids => existsb (String.eqb playerId) ids
     end
  && match event_zoneIds e with
     | None => true
     | Some ids =>
         match zoneId with
         | Some z => existsb (String.eqb z) ids
         | None => false
         end
     end.

(** Section 4.3, [Resolve]: the event multiplier is the maximum over the
    events that apply, or 1.0 if none apply. *)
Definition eventMultiplier (events : list XpMultiplierEvent) (playerId : string)
    (zoneId : option string) (now : Z) : Q :=
  match map event_multiplier (filter (fun e => applies e playerId zoneId now) events) with
  | [] => 1
  | m :: ms => fold_left Qmax ms m
  end.

End Spec.

(** The [MilestoneReward] rows of one (player, level) pair. *)
Definition rowsFor (userId : string) (level : Z) (db : Db) : list MilestoneRewardRow :=
  filter (fun r => String.eqb (row_userId r) userId && (row_level r =? level)%Z)
         (milestoneRewards db).

(** The product of the multipliers of a list of events. *)
Definition productOfMultipliers (events : list XpMultiplierEvent) : Q :=
  fold_right (fun e acc => event_multiplier e * acc) 1 events.

(** ** Example states *)

Module Examples.

(** A user at level 1 with 20 of 100 energy, last written at time 0. *)
Definition rested : User := mkUser "u" 1 0 20 100 0 0 0 0.

(** The same user holding 120 of 100 energy (overflow). *)
Definition overflowing : User := mkUser "u" 1 0 120 100 0 0 0 0.

Definition dbOf (u : User) : Db := mkDb [u] [] [] 1.

(** Ten minutes after time 0, in milliseconds. *)
Definition tenMinutes : Z := 600000.

(** Two overlapping global events, double and triple experience, active
    from time 0 to 1000000. *)
Definition doubleXp : XpMultiplierEvent := mkEvent "double" 2 0 1000000 None None.
Definition tripleXp : XpMultiplierEvent := mkEvent "triple" 3 0 1000000 None None.
Definition dbWithEvents : Db := mkDb [rested] [] [doubleXp; tripleXp] 1.

(** A triple-experience event whose [userIds] name player "v" only, active
    from time 0 to 1000000, in the database of player "u". *)
Definition vipTriple : XpMultiplierEvent :=
  mkEvent "vip" 3 0 1000000 (Some ["v"%string]) None.
Definition dbWithScopedEvent : Db := mkDb [rested] [] [vipTriple] 1.

(** A level-1 player on a server whose average level is 6, 8 or 11. *)
Definition dbWithAverage (avg : Q) : Db := mkDb [rested] [] [] avg.

(** Players one experience grant away from level 5 and from level 50. *)
Definition level4 : User := mkUser "u" 4 0 100 100 0 0 0 0.
Definition level49 : User := mkUser "u" 49 0 100 100 0 0 0 0.

(** A level-57 player with 2 prestige points and 9000 lifetime experience. *)
Definition veteran : User := mkUser "u" 57 30 100 100 0 2 9000 0.

(** The end of an overflow window still open for thirty minutes at
    [tenMinutes]. *)
Definition openWindow : Z := tenMinutes + 30 * 60000.

End Examples.

(** ** The remaining helpers of EnergyManager, ExperienceCalculator and
    the recovery zones of ZoneService *)

(** The messages thrown outside the methods above; [Core] embeds the
    earlier ones. *)
Inductive failure : Type :=
| Core (e : error)
| LevelMustBeAtLeastOne            (* "Level must be at least 1" *)
| PassiveBonusNegative             (* "Passive bonus cannot be negative" *)
| EffectiveMultiplierNotPositive   (* "Effective regeneration multiplier must be positive" *)
| BaseCostNotPositive              (* "Base energy cost must be positive" *)
| EfficiencyBonusNegative          (* "Efficiency bonus cannot be negative" *)
| ZoneNotFound                     (* "Zone not found" *)
| ZoneUserNotFound                 (* "User not found" *)
| ZoneLevelTooLow                  (* "This zone requires level ... You are level ..." *)
| NotARecoveryZone                 (* "This is not a recovery zone" *)
| EnergyStateNotFound              (* "User energy state not found" *)
| NotInRecoveryZone                (* "User is not currently in a recovery zone" *)
| RecoveryZoneNotFound             (* "Recovery zone not found" *)
| CannotAccessZone.                (* "Cannot access this zone" *)

Inductive outcome (A : Type) : Type :=
| Done (a : A)
| Fail (f : failure).
Arguments Done {A} a.
Arguments Fail {A} f.

Definition lift {A : Type} (r : result A) : outcome A :=
  match r with
  | Ok a => Done a
  | Err e => Fail (Core e)
  end.

Module EnergyManagerExt.

(** [getMaxEnergyForLevel(level, passiveBonus = 0)] *)
Definition getMaxEnergyForLevel (level : Z) (passiveBonus : Q) : outcome Z :=
  if (level <? 1)%Z then Fail LevelMustBeAtLeastOne
  else if Qltb passiveBonus 0 then Fail PassiveBonusNegative
  else
    let baseEnergy :=
      EnergyManager.baseMaxEnergy
      + inject_Z (level - 1) * EnergyManager.energyPerLevel in
    Done (Qfloor (baseEnergy * (1 + passiveBonus))).

(** [calculateTimeUntilFullEnergy(currentEnergy, maxEnergy,
    regenMultiplier = 1.0, inRecoveryZone = false)].  The quotient is taken
    exactly; the code rounds it to a double before [Math.ceil], which can
    move the answer by one minute when the multiplier is not a binary
    fraction (0.7, say).  The tests, the throws and the sign of the result
    are those of the code for every input. *)
Definition calculateTimeUntilFullEnergy
    (currentEnergy maxEnergy regenMultiplier : Q) (inRecoveryZone : bool) : outcome Z :=
  if Qltb currentEnergy 0 then Fail (Core CurrentEnergyNegative)
  else if Qleb maxEnergy 0 then Fail (Core MaxEnergyNotPositive)
  else if Qleb maxEnergy currentEnergy then Done 0%Z
  else
    let effectiveMultiplier :=
      if inRecoveryZone then regenMultiplier * EnergyManager.recoveryZoneMultiplier
      else regenMultiplier in
    if Qleb effectiveMultiplier 0 then Fail EffectiveMultiplierNotPositive
    else
      let energyNeeded := maxEnergy - currentEnergy in
      let minutesNeeded :=
        energyNeeded / (EnergyManager.baseRegenerationRate * effectiveMultiplier) in
      Done (Qceiling minutesNeeded).

(** [getFormattedTimeUntilFullEnergy(...)]: ["Full"], ["<h>h <m>m"] or
    ["<m>m"], the numbers printed in decimal (as JavaScript does below
    1e21). *)
Definition getFormattedTimeUntilFullEnergy
    (currentEnergy maxEnergy regenMultiplier : Q) (inRecoveryZone : bool)
  : outcome string :=
  match calculateTimeUntilFullEnergy currentEnergy maxEnergy regenMultiplier
          inRecoveryZone with
  | Fail f => Fail f
  | Done minutes =>
      if (minutes <=? 0)%Z then Done "Full"%string
      else
        let hours := (minutes / 60)%Z in
        let remainingMinutes := (minutes mod 60)%Z in
        if (0 <? hours)%Z then
          Done (UserService.string_of_Z hours ++ "h "
                ++ UserService.string_of_Z remainingMinutes ++ "m")%string
        else Done (UserService.string_of_Z remainingMinutes ++ "m")%string
  end.

(** [getEnergyProgress(currentEnergy, maxEnergy)] *)
Definition getEnergyProgress (currentEnergy maxEnergy : Q) : outcome Q :=
  if Qleb maxEnergy 0 then Fail (Core MaxEnergyNotPositive)
  else Done (Qmin 1 (Qmax 0 currentEnergy / maxEnergy)).

(** [getDailyEnergyIncome(regenMultiplier = 1.0, inRecoveryZone = false)] *)
Definition getDailyEnergyIncome (regenMultiplier : Q) (inRecoveryZone : bool) : outcome Z :=
  if Qltb regenMultiplier 0 then Fail (Core RegenMultiplierNegative)
  else
    let effectiveMultiplier :=
      if inRecoveryZone then regenMultiplier * EnergyManager.recoveryZoneMultiplier
      else regenMultiplier in
    let minutesPerDay := inject_Z (24 * 60) in
    Done (Qfloor (minutesPerDay * EnergyManager.baseRegenerationRate * effectiveMultiplier)).

(** [calculateEnergyEfficiency(baseEnergyCost, efficiencyBonus = 0)].  The
    product is taken exactly; the code rounds [1 - efficiencyBonus] and the
    product to doubles before [Math.floor], which can lower the cost by one
    where the exact product is a whole number (100 at a bonus of 0.9 costs 9
    in the code, 10 here).  The throws, the cut at 0.9 and the order of the
    costs are those of the code. *)
Definition calculateEnergyEfficiency (baseEnergyCost efficiencyBonus : Q) : outcome Z :=
  if Qleb baseEnergyCost 0 then Fail BaseCostNotPositive
  else if Qltb efficiencyBonus 0 then Fail EfficiencyBonusNegative
  else
    let efficiencyBonus :=
      if Qltb (9 # 10) efficiencyBonus then 9 # 10 else efficiencyBonus in
    Done (Z.max 1 (Qfloor (baseEnergyCost * (1 - efficiencyBonus)))).

(** [isInOverflowState(currentEnergy, maxEnergy)] *)
Definition isInOverflowState (currentEnergy maxEnergy : Q) : outcome bool :=
  if Qleb maxEnergy 0 then Fail (Core MaxEnergyNotPositive)
  else Done (Qltb maxEnergy currentEnergy).

(** [getOverflowAmount(currentEnergy, maxEnergy)] *)
Definition getOverflowAmount (currentEnergy maxEnergy : Q) : outcome Q :=
  if Qleb maxEnergy 0 then Fail (Core MaxEnergyNotPositive)
  else Done (Qmax 0 (currentEnergy - maxEnergy)).

End EnergyManagerExt.

Module ExperienceCalculatorExt.

(** [getXpRemainingForNextLevel(totalXp)] *)
Definition getXpRemainingForNextLevel (totalXp : Z) : xnum :=
  let currentLevel := ExperienceCalculator.getLevelFromXp totalXp in
  if (ExperienceCalculator.maxLevel <=? currentLevel)%Z then Fin 0
  else
    match ExperienceCalculator.getXpForLevel (currentLevel + 1) with
    | Fin xpForNextLevel => Fin (xpForNextLevel - totalXp)
    | Infinity => Infinity
    end.

(** [addXpMultiplierEvent(event)] on the list [_activeMultipliers]. *)
Definition addXpMultiplierEvent (event : XpMultiplierEvent) (now : Z)
    (activeMultipliers : list XpMultiplierEvent) : list XpMultiplierEvent :=
  if (event_endTime event <=? now)%Z then activeMultipliers
  else activeMultipliers ++ [event].

(** [removeXpMultiplierEvent(eventId)]: the new list and the returned flag. *)
Definition removeXpMultiplierEvent (eventId : string)
    (activeMultipliers : list XpMultiplierEvent) : list XpMultiplierEvent * bool :=
  let initialLength := List.length activeMultipliers in
  let remaining :=
    filter (fun event => negb (String.eqb (event_id event) eventId)) activeMultipliers in
  (remaining, (List.length remaining <? initialLength)%nat).

End ExperienceCalculatorExt.

(** ** ZoneService (services/ZoneService.ts): recovery zones *)

(** A row of the [Zone] table. *)
Record Zone : Type := mkZone {
  zone_id : string;
  zone_name : string;
  zone_requiredLevel : Z
}.

(** A row of the [UserEnergyState] table (unique on [userId]). *)
Record UserEnergyState : Type := mkEnergyState {
  es_userId : string;
  es_currentEnergy : Q;
  es_maxEnergy : Q;
  es_lastEnergyUpdate : Z;
  es_regenRateMultiplier : Q;
  es_regenBoostExpiry : option Z;
  es_overflowExpiry : option Z;
  es_currentRecoveryZoneId : option string;
  es_recoveryZoneEntryTime : option Z;
  es_passiveMaxEnergyBonus : Q;
  es_passiveEfficiencyBonus : Q
}.

(** What the zone methods see: the database of [UserService] with the Zone
    and UserEnergyState tables, and the in-memory set [recoveryZones] of the
    service.  The read-through zone cache holds rows of the Zone table, which
    these methods never change, and is not modelled. *)
Record World : Type := mkWorld {
  world_db : Db;
  world_zones : list Zone;
  world_energyStates : list UserEnergyState;
  world_recoveryZones : list string
}.

Module ZoneService.

(** [getZoneById(zoneId)] *)
Definition getZoneById (w : World) (zoneId : string) : option Zone :=
  find (fun z => String.eqb (zone_id z) zoneId) (world_zones w).

Record AccessCheck : Type := mkAccess {
  canAccess : bool;
  reason : option failure
}.

(** [userCanAccessZone(userId, zoneId)] *)
Definition userCanAccessZone (w : World) (userId zoneId : string) : AccessCheck :=
  match getZoneById w zoneId with
  | None => mkAccess false (Some ZoneNotFound)
  | Some zone =>
      match UserService.getUserById (world_db w) userId with
      | None => mkAccess false (Some ZoneUserNotFound)
      | Some user =>
          if (user_level user <? zone_requiredLevel zone)%Z
          then mkAccess false (Some ZoneLevelTooLow)
          else mkAccess true None
      end
  end.

(** [isRecoveryZone(zoneId)] = [recoveryZones.has(zoneId)] *)
Definition isRecoveryZone (w : World) (zoneId : string) : bool :=
  existsb (String.eqb zoneId) (world_recoveryZones w).

(** [db.userEnergyState.findUnique({ where: { userId } })] *)
Definition findEnergyState (w : World) (userId : string) : option UserEnergyState :=
  find (fun st => String.eqb (es_userId st) userId) (world_energyStates w).

(** The [data] written by both zone methods: energy, clock, zone and entry
    time. *)
Definition set_recovery (currentEnergy : Q) (now : Z) (zoneId : option string)
    (entryTime : option Z) (st : UserEnergyState) : UserEnergyState :=
  mkEnergyState (es_userId st) currentEnergy (es_maxEnergy st) now
                (es_regenRateMultiplier st) (es_regenBoostExpiry st)
                (es_overflowExpiry st) zoneId entryTime
                (es_passiveMaxEnergyBonus st) (es_passiveEfficiencyBonus st).

(** [db.userEnergyState.update({ where: { userId }, data })] *)
Definition energyState_update (w : World) (userId : string)
    (data : UserEnergyState -> UserEnergyState) : World :=
  mkWorld (world_db w) (world_zones w)
          (map (fun st => if String.eqb (es_userId st) userId then data st else st)
               (world_energyStates w))
          (world_recoveryZones w).

(** [enterRecoveryZone(userId, zoneId)] *)
Definition enterRecoveryZone (userId zoneId : string) (now : Z) (w : World)
  : World * outcome UserEnergyState :=
  let accessCheck := userCanAccessZone w userId zoneId in
  if negb (canAccess accessCheck) then
    (w, Fail (match reason accessCheck with Some r => r | None => CannotAccessZone end))
  else if negb (isRecoveryZone w zoneId) then (w, Fail NotARecoveryZone)
  else
    match findEnergyState w userId with
    | None => (w, Fail EnergyStateNotFound)
    | Some userEnergyState =>
        match UserService.getUserById (world_db w) userId with
        | None => (w, Fail ZoneUserNotFound)
        | Some user =>
            match EnergyManagerExt.getMaxEnergyForLevel (user_level user)
                    (es_passiveMaxEnergyBonus userEnergyState) with
            | Fail f => (w, Fail f)
            | Done maxEnergy =>
                match EnergyManager.calculateRegeneratedEnergy
                        (es_currentEnergy userEnergyState) (inject_Z maxEnergy)
                        (es_lastEnergyUpdate userEnergyState)
                        (es_regenRateMultiplier userEnergyState) false now with
                | Err e => (w, Fail (Core e))
                | Ok currentEnergy =>
                    let data := set_recovery currentEnergy now (Some zoneId) (Some now) in
                    (energyState_update w userId data, Done (data userEnergyState))
                end
            end
        end
    end.

(** [leaveRecoveryZone(userId)]; [!currentRecoveryZoneId] holds of [null]
    and of the empty string. *)
Definition leaveRecoveryZone (userId : string) (now : Z) (w : World)
  : World * outcome UserEnergyState :=
  match findEnergyState w userId with
  | None => (w, Fail NotInRecoveryZone)
  | Some userEnergyState =>
      match es_currentRecoveryZoneId userEnergyState with
      | None => (w, Fail NotInRecoveryZone)
      | Some recoveryZoneId =>
          if String.eqb recoveryZoneId "" then (w, Fail NotInRecoveryZone)
          else
          match getZoneById w recoveryZoneId with
          | None => (w, Fail RecoveryZoneNotFound)
          | Some zone =>
              match UserService.getUserById (world_db w) userId with
              | None => (w, Fail ZoneUserNotFound)
              | Some user =>
                  match EnergyManagerExt.getMaxEnergyForLevel (user_level user)
                          (es_passiveMaxEnergyBonus userEnergyState) with
                  | Fail f => (w, Fail f)
                  | Done maxEnergy =>
                      match EnergyManager.calculateRegeneratedEnergy
                              (es_currentEnergy userEnergyState) (inject_Z maxEnergy)
                              (es_lastEnergyUpdate userEnergyState)
                              (es_regenRateMultiplier userEnergyState) true now with
                      | Err e => (w, Fail (Core e))
                      | Ok currentEnergy =>
                          let data := set_recovery currentEnergy now None None in
                          (energyState_update w userId data, Done (data userEnergyState))
                      end
                  end
              end
          end
      end
  end.

End ZoneService.

(** ** Vocabulary of the proofs *)

(** The [energyGained] of [calculateRegeneratedEnergy]. *)
Definition energyGained (lastEnergyUpdate : Z) (regenMultiplier : Q)
    (inRecoveryZone : bool) (now : Z) : Z :=
  Qfloor (Qmax 0 (inject_Z (now - lastEnergyUpdate) / inject_Z (1000 * 60))
          * EnergyManager.baseRegenerationRate
          * (if inRecoveryZone
             then regenMultiplier * EnergyManager.recoveryZoneMultiplier
             else regenMultiplier)).

(** [getXpForLevel] as an integer ([getXpForLevel] is never [Infinity]). *)
Definition cumulativeXp (level : Z) : Z :=
  match ExperienceCalculator.getXpForLevel level with
  | Fin x => x
  | Infinity => 0%Z
  end.

(** [getXpRequiredForNextLevel] below the cap, as an integer. *)
Definition requiredXp (level : Z) : Z :=
  match ExperienceCalculator.getXpRequiredForNextLevel level with
  | Fin x => x
  | Infinity => 0%Z
  end.

Module MoreExamples.

(** Two players in one database. *)
Definition other : User := mkUser "v" 7 40 55 130 0 0 1200 0.
Definition twoUsers : Db := mkDb [Examples.rested; other] [] [] 1.

(** A recovery zone open from level 1, and a player resting nowhere with 20
    of 100 energy, last updated at time 0. *)
Definition spa : Zone := mkZone "spa" "Spa" 1.
Definition idle : UserEnergyState :=
  mkEnergyState "u" 20 100 0 1 None None None None 0 0.
Definition world : World :=
  mkWorld (Examples.dbOf Examples.rested) [spa] [idle] ["spa"%string].

End MoreExamples.

(** * Proofs *)

(** ** Boolean tests on rationals *)

Lemma Qleb_true (x y : Q) : Qleb x y = true <-> x <= y.
Proof. apply Qle_bool_iff. Qed.

Lemma Qleb_false (x y : Q) : Qleb x y = false <-> y < x.
Proof.
  unfold Qleb. rewrite <- not_true_iff_false, Qle_bool_iff.
  split; [apply Qnot_le_lt | apply Qlt_not_le].
Qed.

Lemma Qltb_true (x y : Q) : Qltb x y = true <-> x < y.
Proof.
  unfold Qltb. rewrite negb_true_iff. apply Qleb_false.
Qed.

Lemma Qltb_false (x y : Q) : Qltb x y = false <-> y <= x.
Proof.
  unfold Qltb. rewrite negb_false_iff. apply Qleb_true.
Qed.

(** Case analysis on the first rational test of the goal, turning the
    boolean equation into an order fact. *)
Ltac qcase :=
  match goal with
  | |- context [Qleb ?a ?b] =>
      let E := fresh "E" in
      destruct (Qleb a b) eqn:E;
      [apply Qleb_true in E | apply Qleb_false in E]
  | |- context [Qltb ?a ?b] =>
      let E := fresh "E" in
      destruct (Qltb a b) eqn:E;
      [apply Qltb_true in E | apply Qltb_false in E]
  end.

(** Closed comparisons of rationals, by evaluation. *)
Ltac qeval :=
  first [ reflexivity | vm_compute; reflexivity | vm_compute; discriminate ].

(** ** The User table *)

Lemma find_map_update (id : string) (f : User -> User) (l : list User) (u : User) :
  find (fun x => String.eqb (user_id x) id) l = Some u ->
  user_id (f u) = user_id u ->
  find (fun x => String.eqb (user_id x) id)
       (map (fun x => if String.eqb (user_id x) id then f x else x) l) = Some (f u).
Proof.
  intros Hfind Hid. induction l as [|x l IH]; simpl in *; [discriminate|].
  destruct (String.eqb (user_id x) id) eqn:Ex.
  - injection Hfind as ->. simpl. rewrite Hid, Ex. reflexivity.
  - simpl. rewrite Ex. auto.
Qed.

Lemma user_update_found (db : Db) (id : string) (data : User -> User) (now : Z) (u : User) :
  UserService.getUserById db id = Some u ->
  user_id (data u) = user_id u ->
  exists db',
    UserService.user_update db id data now
      = (db', Ok (UserService.set_updatedAt now (data u)))
    /\ UserService.getUserById db' id = Some (UserService.set_updatedAt now (data u))
    /\ milestoneRewards db' = milestoneRewards db
    /\ xpMultiplierEvents db' = xpMultiplierEvents db
    /\ averageUserLevel db' = averageUserLevel db.
Proof.
  intros Hfind Hid. unfold UserService.user_update. rewrite Hfind.
  eexists. split; [reflexivity|]. split; [|auto].
  unfold UserService.getUserById in *. simpl.
  apply (find_map_update id (fun x => UserService.set_updatedAt now (data x)));
    [assumption | simpl; assumption].
Qed.

(** ** Reconciliation *)

(** On a well-formed state the reconciliation returns a value between the
    stored energy and the lazy cap [max(current, max)]. *)
Lemma calculateRegeneratedEnergy_ok (c m : Q) (last : Z) (mult : Q) (zone : bool) (now : Z) :
  0 <= c -> 0 < m -> 0 <= mult ->
  exists r,
    EnergyManager.calculateRegeneratedEnergy c m last mult zone now = Ok r
    /\ c <= r /\ r <= Qmax c m.
Proof.
  intros Hc Hm Hmult. unfold EnergyManager.calculateRegeneratedEnergy.
  qcase; [lra|]. qcase; [lra|]. qcase; [lra|].
  unfold EnergyManager.getEffectiveEnergyCap.
  qcase; [lra|]. cbn [bind].
  qcase.
  - exists c. repeat split; try lra. apply Q.le_max_l.
  - eexists. split; [reflexivity|].
    set (g := Qfloor _).
    assert (Hg : (0 <= g)%Z).
    { subst g. rewrite <- (Qfloor_Z 0). apply Qfloor_resp_le.
      unfold EnergyManager.baseRegenerationRate.
      assert (H0 : 0 <= Qmax 0 (inject_Z (now - last) / inject_Z (1000 * 60)))
        by apply Q.le_max_l.
      assert (Hz : 0 <= (if zone then mult * EnergyManager.recoveryZoneMultiplier else mult)).
      { destruct zone; [|assumption].
        apply Qmult_le_0_compat; [assumption|]. unfold EnergyManager.recoveryZoneMultiplier. lra. }
      apply Qmult_le_0_compat; [|assumption].
      apply Qmult_le_0_compat; [assumption|lra]. }
    assert (Hg' : 0 <= inject_Z g).
    { change 0 with (inject_Z 0). rewrite <- Zle_Qle. assumption. }
    split.
    + apply Q.min_glb; [lra | apply Q.le_max_l].
    + apply Q.le_min_r.
Qed.

(** The reconciliation [consumeEnergy] and [regenerateEnergy] run on a user
    row: default multiplier, no recovery zone, clock of the row's last write. *)
Lemma user_reconcile_ok (user : User) (now : Z) :
  0 <= user_currentEnergy user -> 0 < user_maxEnergy user ->
  exists reconciled,
    EnergyManager.calculateRegeneratedEnergy
      (user_currentEnergy user) (user_maxEnergy user) (user_updatedAt user) 1 false now
    = Ok reconciled
    /\ user_currentEnergy user <= reconciled.
Proof.
  intros Hc Hm.
  assert (H1 : 0 <= 1) by lra.
  destruct (calculateRegeneratedEnergy_ok (user_currentEnergy user) (user_maxEnergy user)
              (user_updatedAt user) 1 false now Hc Hm H1) as (r & Hr & Hle & _).
  exists r. split; assumption.
Qed.

(** ** Claim C5 *)

(** C5. For every well-formed energy state of a stored user, every amount and
    every [now]: [consumeEnergy] fails with the invalid-amount error when
    [amount <= 0]; otherwise it reconciles first, fails with
    [InsufficientEnergy] and an unchanged database when the reconciled value
    is strictly less than [amount], and otherwise stores and returns a user
    whose current energy is the reconciled value minus [amount], stamped with
    [updatedAt = now], every other column unchanged. *)
Theorem consumeEnergy_contract (db : Db) (userId : string) (user : User) (amount : Q) (now : Z) :
  UserService.getUserById db userId = Some user ->
  0 <= user_currentEnergy user ->
  0 < user_maxEnergy user ->
  (amount <= 0 ->
     UserService.consumeEnergy userId amount now db = (db, Err AmountMustBePositive))
  /\
  (0 < amount ->
     exists reconciled,
       EnergyManager.calculateRegeneratedEnergy
         (user_currentEnergy user) (user_maxEnergy user) (user_updatedAt user) 1 false now
       = Ok reconciled
       /\ (reconciled < amount ->
             UserService.consumeEnergy userId amount now db = (db, Err InsufficientEnergy))
       /\ (amount <= reconciled ->
             exists db' user',
               UserService.consumeEnergy userId amount now db = (db', Ok user')
               /\ UserService.getUserById db' userId = Some user'
               /\ user_currentEnergy user' = reconciled - amount
               /\ user_updatedAt user' = now
               /\ user_maxEnergy user' = user_maxEnergy user
               /\ user_level user' = user_level user
               /\ user_experience user' = user_experience user)).
Proof.
  intros Hfind Hc Hm. split.
  - intros Hamount. unfold UserService.consumeEnergy.
    qcase; [reflexivity | lra].
  - intros Hamount.
    destruct (user_reconcile_ok user now Hc Hm) as (r & Hr & _).
    exists r. split; [assumption|].
    unfold UserService.consumeEnergy.
    qcase; [lra|]. rewrite Hfind, Hr. split.
    + intros Hlt. qcase; [reflexivity | lra].
    + intros Hge. qcase; [lra|].
      destruct (user_update_found db userId (UserService.set_currentEnergy (r - amount))
                  now user Hfind eq_refl) as (db' & Hupd & Hget & _).
      exists db', (UserService.set_updatedAt now
                     (UserService.set_currentEnergy (r - amount) user)).
      repeat split; assumption.
Qed.

(** ** Claim C10 *)

(** C10. For every stored user whose reconciled energy exceeds [maxEnergy],
    [regenerateEnergy] with any amount [>= 0], zero included, stores a
    current energy equal to [maxEnergy], strictly below the reconciled value:
    the overflow is discarded. *)
Theorem regenerateEnergy_discards_overflow
    (db : Db) (userId : string) (user : User) (amount : Q) (now : Z) (reconciled : Q) :
  UserService.getUserById db userId = Some user ->
  EnergyManager.calculateRegeneratedEnergy
    (user_currentEnergy user) (user_maxEnergy user) (user_updatedAt user) 1 false now
  = Ok reconciled ->
  user_maxEnergy user < reconciled ->
  0 <= amount ->
  exists db' user',
    UserService.regenerateEnergy userId amount now db = (db', Ok user')
    /\ UserService.getUserById db' userId = Some user'
    /\ user_currentEnergy user' == user_maxEnergy user
    /\ user_currentEnergy user' < reconciled.
Proof.
  intros Hfind Hr Hover Hamount. unfold UserService.regenerateEnergy.
  qcase; [lra|]. rewrite Hfind, Hr.
  set (newEnergy := Qmin (reconciled + amount) (user_maxEnergy user)).
  destruct (user_update_found db userId (UserService.set_currentEnergy newEnergy)
              now user Hfind eq_refl) as (db' & Hupd & Hget & _).
  exists db', (UserService.set_updatedAt now (UserService.set_currentEnergy newEnergy user)).
  assert (Hmin : newEnergy == user_maxEnergy user).
  { subst newEnergy. apply Q.min_r. lra. }
  split; [assumption|]. split; [assumption|]. simpl. split.
  - assumption.
  - rewrite Hmin. assumption.
Qed.

(** ** Witnesses for C5 and C10 *)

Lemma consumeEnergy_contract_witness :
  exists db' user',
    UserService.consumeEnergy "u" 5 Examples.tenMinutes (Examples.dbOf Examples.rested)
      = (db', Ok user')
    /\ UserService.getUserById db' "u" = Some user'
    /\ user_currentEnergy user' == 25
    /\ user_updatedAt user' = Examples.tenMinutes.
Proof.
  assert (Hc : 0 <= user_currentEnergy Examples.rested) by (simpl; lra).
  assert (Hm : 0 < user_maxEnergy Examples.rested) by (simpl; lra).
  destruct (consumeEnergy_contract (Examples.dbOf Examples.rested) "u" Examples.rested
              5 Examples.tenMinutes eq_refl Hc Hm) as [_ Hpos].
  assert (H5 : 0 < 5) by lra.
  destruct (Hpos H5) as (r & Hr & _ & Hok).
  vm_compute in Hr. injection Hr as <-.
  assert (Hle : 5 <= 30) by lra.
  destruct (Hok Hle) as (db' & user' & Hrun & Hget & Hcur & Hat & _).
  exists db', user'. repeat split; try assumption.
  rewrite Hcur. reflexivity.
Defined.

Lemma regenerateEnergy_discards_overflow_witness :
  exists db' user',
    UserService.regenerateEnergy "u" 0 Examples.tenMinutes (Examples.dbOf Examples.overflowing)
      = (db', Ok user')
    /\ UserService.getUserById db' "u" = Some user'
    /\ user_currentEnergy user' == 100
    /\ user_currentEnergy user' < 120.
Proof.
  assert (Hover : user_maxEnergy Examples.overflowing < 120) by (simpl; lra).
  assert (H0 : 0 <= 0) by lra.
  exact (regenerateEnergy_discards_overflow (Examples.dbOf Examples.overflowing) "u"
           Examples.overflowing 0 Examples.tenMinutes 120 eq_refl eq_refl Hover H0).
Defined.

(** ** Claim C7 *)

(** A successful reconciliation was run on a well-formed state. *)
Lemma calculateRegeneratedEnergy_valid (c m : Q) (last : Z) (mult : Q) (zone : bool)
    (now : Z) (r : Q) :
  EnergyManager.calculateRegeneratedEnergy c m last mult zone now = Ok r ->
  0 <= c /\ 0 < m /\ 0 <= mult.
Proof.
  unfold EnergyManager.calculateRegeneratedEnergy. intros H.
  destruct (Qltb c 0) eqn:Ec; [discriminate|].
  destruct (Qleb m 0) eqn:Em; [discriminate|].
  destruct (Qltb mult 0) eqn:Emult; [discriminate|].
  apply Qltb_false in Ec. apply Qleb_false in Em. apply Qltb_false in Emult.
  auto.
Qed.

(** No time elapsed, no energy gained. *)
Lemma energyGained_no_elapsed (now : Z) (effectiveMultiplier : Q) :
  Qfloor (Qmax 0 (inject_Z (now - now) / inject_Z (1000 * 60))
          * EnergyManager.baseRegenerationRate * effectiveMultiplier) = 0%Z.
Proof.
  rewrite Z.sub_diag.
  assert (H : Qmax 0 (inject_Z 0 / inject_Z (1000 * 60))
              * EnergyManager.baseRegenerationRate * effectiveMultiplier == 0).
  { assert (Hm : Qmax 0 (inject_Z 0 / inject_Z (1000 * 60)) == 0)
      by (apply Q.max_l; vm_compute; discriminate).
    rewrite Hm. ring. }
  rewrite H. reflexivity.
Qed.

(** C7. For every energy state and every fixed [now]: when the first
    reconciliation yields [r], the state it produces is the reconciled energy
    together with a last-update time of [now] (what every writer of the
    source persists), and reconciling that state at the same [now] yields [r]
    again; elapsed time is not counted twice. *)
Theorem reconcile_idempotent (c m : Q) (last : Z) (mult : Q) (zone : bool) (now : Z) (r : Q) :
  EnergyManager.calculateRegeneratedEnergy c m last mult zone now = Ok r ->
  exists r',
    EnergyManager.calculateRegeneratedEnergy r m now mult zone now = Ok r'
    /\ r' == r.
Proof.
  intros H.
  destruct (calculateRegeneratedEnergy_valid _ _ _ _ _ _ _ H) as (Hc & Hm & Hmult).
  destruct (calculateRegeneratedEnergy_ok c m last mult zone now Hc Hm Hmult)
    as (r0 & Hr0 & Hle & _).
  rewrite H in Hr0. injection Hr0 as <-.
  unfold EnergyManager.calculateRegeneratedEnergy.
  qcase; [lra|]. qcase; [lra|]. qcase; [lra|].
  unfold EnergyManager.getEffectiveEnergyCap.
  qcase; [lra|]. cbn [bind].
  qcase.
  - exists r. split; reflexivity.
  - eexists. split; [reflexivity|].
    rewrite energyGained_no_elapsed.
    assert (Hcap : r <= Qmax r m) by apply Q.le_max_l.
    rewrite Q.min_l; [change (inject_Z 0) with 0; ring|].
    change (inject_Z 0) with 0. lra.
Qed.

Lemma reconcile_idempotent_witness :
  EnergyManager.calculateRegeneratedEnergy 20 100 0 1 false Examples.tenMinutes = Ok 30
  /\ exists r',
       EnergyManager.calculateRegeneratedEnergy 30 100 Examples.tenMinutes 1 false
         Examples.tenMinutes = Ok r'
       /\ r' == 30.
Proof.
  split; [reflexivity|].
  exact (reconcile_idempotent 20 100 0 1 false Examples.tenMinutes 30 eq_refl).
Defined.

(** ** Claim C9 *)

(** C9. For every well-formed energy state and positive boost,
    [applyEnergyBoost] returns [min(current + amount, cap)] where [cap] is
    [max * (1 + 0.50)] when [allowOverflow] holds and [max] otherwise, and
    whenever that result exceeds [max] the overflow expiry it returns is
    [now] plus the boost's own duration, whatever window existed before
    (none when the result does not exceed [max]). *)
Theorem applyEnergyBoost_contract
    (c m b : Q) (allowOverflow : bool) (duration now : Z) :
  0 <= c -> 0 < m -> 0 < b -> (0 <= duration)%Z ->
  exists r,
    EnergyManager.applyEnergyBoost c m b allowOverflow duration now = Ok r
    /\ EnergyManager.energy r
       = Qmin (c + b) (if allowOverflow then m * (1 + (1 # 2)) else m)
    /\ EnergyManager.energy r <= (if allowOverflow then m * (1 + (1 # 2)) else m)
    /\ (m < EnergyManager.energy r ->
          EnergyManager.overflowExpiry r = Some (now + duration * 60000)%Z)
    /\ (EnergyManager.energy r <= m -> EnergyManager.overflowExpiry r = None).
Proof.
  intros Hc Hm Hb Hd. unfold EnergyManager.applyEnergyBoost.
  qcase; [lra|]. qcase; [lra|]. qcase; [lra|].
  destruct (duration <? 0)%Z eqn:Ed; [apply Z.ltb_lt in Ed; lia|].
  eexists. split; [reflexivity|]. cbn [EnergyManager.energy EnergyManager.overflowExpiry].
  unfold EnergyManager.maxOverflowPercentage.
  split; [reflexivity|]. split; [apply Q.le_min_r|].
  qcase; split; intros H; try reflexivity; lra.
Qed.

(** The example of the specification: 50 of 100 energy, a boost of 80 with
    overflow allowed for 60 minutes. *)
Lemma applyEnergyBoost_contract_witness :
  exists r,
    EnergyManager.applyEnergyBoost 50 100 80 true 60 0 = Ok r
    /\ EnergyManager.energy r == 130
    /\ EnergyManager.overflowExpiry r = Some (60 * 60000)%Z.
Proof.
  assert (Hc : 0 <= 50) by lra.
  assert (Hm : 0 < 100) by lra.
  assert (Hb : 0 < 80) by lra.
  assert (Hd : (0 <= 60)%Z) by lia.
  destruct (applyEnergyBoost_contract 50 100 80 true 60 0 Hc Hm Hb Hd)
    as (r & Hrun & Henergy & _ & Hexp & _).
  exists r. split; [assumption|].
  assert (He : EnergyManager.energy r == 130) by (rewrite Henergy; reflexivity).
  split; [assumption|].
  apply Hexp. rewrite He. lra.
Defined.

(** The same example at an arbitrary clock value. *)
Lemma applyEnergyBoost_example (now : Z) :
  EnergyManager.applyEnergyBoost 50 100 80 true 60 now
  = Ok (EnergyManager.mkBoostResult 130 (Some (now + 60 * 60000)%Z)).
Proof. reflexivity. Qed.

(** ** Claim C2 *)

(** Above the plain maximum the reconciliation never adds energy: its cap is
    always the lazy one, [max(current, max)]. *)
Lemma calculateRegeneratedEnergy_above_max
    (c m : Q) (last : Z) (mult : Q) (zone : bool) (now : Z) :
  0 < m -> m <= c -> 0 <= mult ->
  EnergyManager.calculateRegeneratedEnergy c m last mult zone now = Ok c.
Proof.
  intros Hm Hc Hmult. unfold EnergyManager.calculateRegeneratedEnergy.
  qcase; [lra|]. qcase; [lra|]. qcase; [lra|].
  unfold EnergyManager.getEffectiveEnergyCap.
  qcase; [lra|]. cbn [bind].
  qcase; [reflexivity|].
  assert (Hmax : Qmax c m == c) by (apply Q.max_l; assumption).
  lra.
Qed.

(** C2 (the code departs from the claim). A player holds 120 of 100 energy,
    last updated ten minutes ago, with an overflow window open for another
    thirty minutes.  [getEffectiveEnergyCap] given that window yields the
    overflow cap 150, and the specification's [Reconcile] regenerates to 130;
    [calculateRegeneratedEnergy] never passes the window on, caps at 120 and
    returns 120. *)
Theorem reconcile_ignores_overflow_window :
  (exists cap,
     EnergyManager.getEffectiveEnergyCap 120 100 (Some Examples.openWindow)
       Examples.tenMinutes = Ok cap
     /\ cap == 150)
  /\ EnergyManager.calculateRegeneratedEnergy 120 100 0 1 false Examples.tenMinutes
     = Ok 120
  /\ Spec.Reconcile 120 100 0 1 false (Some Examples.openWindow) Examples.tenMinutes
     == 130.
Proof.
  split; [|split].
  - eexists. split; reflexivity.
  - reflexivity.
  - reflexivity.
Qed.

(** ** Claim C3 *)

(** C3 (the code departs from the claim). A level-1 player with no
    experience is granted 100 points, the requirement of level 1.  The
    specification's derivation gives level 2 with 0 points into the level;
    [addExperience] feeds the within-level figure to [getRemainingXp], which
    reads it as a total, compares 100 with the requirement of level 2 (120)
    and leaves the player at level 1 with 100 points. *)
Theorem addExperience_misses_level_up :
  exists db' gain,
    UserService.addExperience "u" 100 None 0 (Examples.dbOf Examples.rested)
      = (db', Ok gain)
    /\ UserService.gain_actualXp gain = 100%Z
    /\ UserService.gain_leveledUp gain = false
    /\ UserService.gain_newLevel gain = 1%Z
    /\ user_experience (UserService.gain_user gain) = 100%Z
    /\ Spec.GrantExperience 1 0 100 = (2, 0)%Z.
Proof.
  eexists. eexists. split; [vm_compute; reflexivity|].
  repeat split.
Qed.

(** ** Claim C1 *)

Lemma Qmax_cases (a b : Q) : Qmax a b = a \/ Qmax a b = b.
Proof.
  unfold Qmax, GenericMinMax.gmax. destruct (a ?= b); auto.
Qed.

(** [Math.max] over a non-empty list returns one of its elements. *)
Lemma fold_max_In (ms : list Q) : forall m, In (fold_left Qmax ms m) (m :: ms).
Proof.
  induction ms as [|x ms IH]; intros m; simpl; [auto|].
  destruct (IH (Qmax m x)) as [H | H].
  - rewrite <- H. destruct (Qmax_cases m x) as [E | E]; rewrite E; auto.
  - auto.
Qed.

(** ... and that element bounds all the others. *)
Lemma fold_max_upper (ms : list Q) :
  forall m x, In x (m :: ms) -> x <= fold_left Qmax ms m.
Proof.
  induction ms as [|y ms IH]; intros m x Hin; simpl.
  - destruct Hin as [<- | []]. apply Qle_refl.
  - destruct Hin as [<- | [<- | Hin]].
    + apply Qle_trans with (Qmax m y); [apply Q.le_max_l | apply IH; left; reflexivity].
    + apply Qle_trans with (Qmax m y); [apply Q.le_max_r | apply IH; left; reflexivity].
    + apply IH. right. assumption.
Qed.

Lemma filter_all {A : Type} (f : A -> bool) (l : list A) :
  (forall x, In x l -> f x = true) -> filter f l = l.
Proof.
  induction l as [|a l IH]; intros H; simpl; [reflexivity|].
  rewrite (H a (or_introl eq_refl)). f_equal. apply IH.
  intros x Hx. apply H. right. assumption.
Qed.

(** Multipliers above 1: the product bounds each factor. *)
Lemma product_lower (l : list XpMultiplierEvent) :
  (forall e, In e l -> 1 < event_multiplier e) ->
  1 <= productOfMultipliers l
  /\ forall e, In e l -> event_multiplier e <= productOfMultipliers l.
Proof.
  induction l as [|a l IH]; intros Hall; simpl.
  - split; [lra | intros e []].
  - destruct IH as [H1 Hle]; [intros e He; apply Hall; right; assumption|].
    assert (Ha : 1 < event_multiplier a) by (apply Hall; left; reflexivity).
    split; [nra|].
    intros e [<- | He]; [nra|].
    specialize (Hle e He).
    assert (He1 : 1 < event_multiplier e) by (apply Hall; right; assumption).
    nra.
Qed.

(** With two or more multipliers above 1 the product exceeds every factor. *)
Lemma product_strict (e1 e2 : XpMultiplierEvent) (rest : list XpMultiplierEvent) :
  (forall e, In e (e1 :: e2 :: rest) -> 1 < event_multiplier e) ->
  forall e, In e (e1 :: e2 :: rest) -> event_multiplier e < productOfMultipliers (e1 :: e2 :: rest).
Proof.
  intros Hall e He.
  assert (H1 : 1 < event_multiplier e1) by (apply Hall; left; reflexivity).
  assert (H2 : 1 < event_multiplier e2) by (apply Hall; right; left; reflexivity).
  destruct (product_lower (e2 :: rest)) as [Hp Hle];
    [intros x Hx; apply Hall; right; assumption|].
  assert (Hp2 : event_multiplier e2 <= productOfMultipliers (e2 :: rest))
    by (apply Hle; left; reflexivity).
  change (productOfMultipliers (e1 :: e2 :: rest))
    with (event_multiplier e1 * productOfMultipliers (e2 :: rest)).
  destruct He as [<- | He].
  - nra.
  - specialize (Hle e He). nra.
Qed.

(** [Math.max] over the fetched events: 1 when there is none, otherwise the
    multiplier of one of them that bounds all the others.  It is not the
    product: with two or more multipliers above 1 it is strictly smaller. *)
Lemma highestMultiplier_spec (events : list XpMultiplierEvent) :
  let m := UserService.highestMultiplier events in
  (events = [] -> m = 1)
  /\ (events <> [] -> exists e, In e events /\ m = event_multiplier e)
  /\ (forall e, In e events -> event_multiplier e <= m)
  /\ (forall e1 e2 rest,
        events = e1 :: e2 :: rest ->
        (forall e, In e events -> 1 < event_multiplier e) ->
        m < productOfMultipliers events).
Proof.
  intros m. subst m. unfold UserService.highestMultiplier.
  destruct events as [|a l].
  - simpl. repeat split; try congruence; intros; try contradiction; discriminate.
  - cbn [map].
    assert (Hin : exists e, In e (a :: l)
                            /\ fold_left Qmax (map event_multiplier l) (event_multiplier a)
                               = event_multiplier e).
    { pose proof (fold_max_In (map event_multiplier l) (event_multiplier a)) as H.
      change (event_multiplier a :: map event_multiplier l)
        with (map event_multiplier (a :: l)) in H.
      apply in_map_iff in H. destruct H as (e & He & Hine).
      exists e. split; [assumption | symmetry; assumption]. }
    assert (Hup : forall e, In e (a :: l) ->
                  event_multiplier e
                  <= fold_left Qmax (map event_multiplier l) (event_multiplier a)).
    { intros e He. apply fold_max_upper.
      change (event_multiplier a :: map event_multiplier l)
        with (map event_multiplier (a :: l)).
      apply in_map. assumption. }
    split; [discriminate|]. split; [intros _; assumption|]. split; [assumption|].
    intros e1 e2 rest Hshape Hall.
    destruct Hin as (e & He & ->).
    rewrite Hshape in *. apply product_strict; assumption.
Qed.

(** The event multiplier of [getCurrentXpMultipliers] is [Math.max] over
    every row whose window contains [now], whoever the player is: neither
    [userIds] nor [zoneIds] is read, and [addExperience] does not pass its
    [zoneId] on. *)
Lemma eventMultiplier_same_for_every_player (db : Db) (u v : string) (now : Z) :
  UserService.eventMultiplier (UserService.getCurrentXpMultipliers db u now)
  = UserService.eventMultiplier (UserService.getCurrentXpMultipliers db v now)
  /\ UserService.eventMultiplier (UserService.getCurrentXpMultipliers db u now)
     = UserService.highestMultiplier
         (filter (fun e => (event_startTime e <=? now)%Z && (now <=? event_endTime e)%Z)
                 (xpMultiplierEvents db)).
Proof. split; reflexivity. Qed.

(** The two overlapping global events of the specification's example give 3,
    below their product 6. *)
Lemma eventMultiplier_overlapping_global :
  UserService.eventMultiplier
    (UserService.getCurrentXpMultipliers Examples.dbWithEvents "u" 0) = 3
  /\ productOfMultipliers (UserService.findActiveEvents Examples.dbWithEvents 0) == 6.
Proof. split; reflexivity. Qed.

(** C1 (the code departs from the claim). The only active event is a triple
    multiplier whose [userIds] name player "v".  For player "u" it is out of
    scope: the scope test of [ExperienceCalculator] rejects it and the
    specification's event multiplier is 1.0, none applying.
    [getCurrentXpMultipliers] fetches the rows by their time window alone and
    takes their maximum, so player "u" gets an event multiplier of 3 and a
    grant of 100 points is stored as 300. *)
Theorem eventMultiplier_ignores_scope :
  UserService.findActiveEvents Examples.dbWithScopedEvent 0 = [Examples.vipTriple]
  /\ ExperienceCalculator.appliesTo Examples.vipTriple (Some "u"%string) None = false
  /\ Spec.eventMultiplier (xpMultiplierEvents Examples.dbWithScopedEvent) "u" None 0 = 1
  /\ UserService.eventMultiplier
       (UserService.getCurrentXpMultipliers Examples.dbWithScopedEvent "u" 0) = 3
  /\ exists db' gain,
       UserService.addExperience "u" 100 None 0 Examples.dbWithScopedEvent
         = (db', Ok gain)
       /\ UserService.gain_actualXp gain = 300%Z.
Proof.
  split; [reflexivity|]. split; [reflexivity|]. split; [reflexivity|].
  split; [reflexivity|].
  eexists. eexists. split; [vm_compute; reflexivity|]. reflexivity.
Qed.

(** The unused sibling [ExperienceCalculator.getActiveXpMultiplier] does
    multiply the same two events. *)
Lemma getActiveXpMultiplier_stacks :
  ExperienceCalculator.getActiveXpMultiplier
    [Examples.doubleXp; Examples.tripleXp] 0 (Some "u"%string) None == 6.
Proof. reflexivity. Qed.

(** ** Claim C6 *)

(** The sibling [ExperienceCalculator.getCatchupMultiplier], which
    [addExperience] does not call, is the interpolation of the specification. *)
Lemma getCatchupMultiplier_matches_spec (averageLevel : Q) (playerLevel : Z) :
  ExperienceCalculator.getCatchupMultiplier averageLevel playerLevel
  == Spec.catchupMultiplier averageLevel playerLevel.
Proof.
  unfold ExperienceCalculator.getCatchupMultiplier, Spec.catchupMultiplier.
  unfold ExperienceCalculator.catchupThreshold, ExperienceCalculator.maxCatchupMultiplier.
  qcase; [reflexivity|].
  set (d := averageLevel - inject_Z playerLevel).
  unfold Qdiv. change (/ 5) with (1 # 5).
  destruct (Qlt_le_dec d 5) as [Hd | Hd].
  - rewrite (Q.min_l d 5) by lra.
    rewrite Q.min_l; [reflexivity | lra].
  - rewrite (Q.min_r d 5) by lra.
    rewrite Q.min_r; [reflexivity | lra].
Qed.

(** C6, as stated, fails: with a deficit of exactly 5 levels (player at
    level 1, average 6) the claim promises 1.5 and [addExperience] uses 1.0. *)
Lemma catchup_deficit_five_counterexample :
  UserService.catchupMultiplier
    (UserService.getCurrentXpMultipliers (Examples.dbWithAverage 6) "u" 0) == 1
  /\ Spec.catchupMultiplier 6 1 == 15 # 10
  /\ ~ UserService.catchupMultiplier
         (UserService.getCurrentXpMultipliers (Examples.dbWithAverage 6) "u" 0)
       == Spec.catchupMultiplier 6 1.
Proof.
  split; [reflexivity|]. split; [reflexivity|].
  vm_compute. discriminate.
Qed.

(** C6, amended. For every stored player, the catch-up multiplier
    [addExperience] uses is 1.0 while the deficit [averageLevel - level] is
    at most 5 (in particular at or above the average), and for a deficit
    above 5 it is [min(1 + 0.05 * deficit, 1.5)]: 5% per level, reaching
    exactly 1.5 from a deficit of 10 on. *)
Theorem catchupMultiplier_used
    (db : Db) (userId : string) (user : User) (now : Z) :
  UserService.getUserById db userId = Some user ->
  let deficit := averageUserLevel db - inject_Z (user_level user) in
  let m := UserService.catchupMultiplier (UserService.getCurrentXpMultipliers db userId now) in
  (deficit <= 5 -> m == 1)
  /\ (5 < deficit -> m == Qmin (1 + deficit * (5 # 100)) (15 # 10))
  /\ (5 < deficit -> deficit <= 10 -> m == 1 + deficit * (5 # 100))
  /\ (10 <= deficit -> m == 15 # 10).
Proof.
  intros Hfind deficit m. subst m.
  unfold UserService.getCurrentXpMultipliers. cbn [UserService.catchupMultiplier].
  rewrite Hfind. unfold UserService.catchupFor. fold deficit.
  qcase.
  - split; [lra|]. split; [reflexivity|]. split.
    + intros _ H10. apply Q.min_l. lra.
    + intros H10. apply Q.min_r. lra.
  - split; [reflexivity|]. repeat split; intros; lra.
Qed.

Lemma catchupMultiplier_used_witness :
  UserService.catchupMultiplier
    (UserService.getCurrentXpMultipliers (Examples.dbWithAverage 8) "u" 0) == 135 # 100
  /\ UserService.catchupMultiplier
       (UserService.getCurrentXpMultipliers (Examples.dbWithAverage 11) "u" 0) == 15 # 10.
Proof.
  split.
  - destruct (catchupMultiplier_used (Examples.dbWithAverage 8) "u" Examples.rested 0 eq_refl)
      as (_ & _ & H & _).
    rewrite H; [reflexivity | qeval | qeval].
  - destruct (catchupMultiplier_used (Examples.dbWithAverage 11) "u" Examples.rested 0 eq_refl)
      as (_ & _ & _ & H).
    apply H. qeval.
Defined.

(** ** Claim C8 *)

(** C8. For every stored user, [prestigeUser] fails with
    [BelowMinimumLevel], writing nothing, when the level is below 50; at
    level 50 or above the user row it writes has level 1 and experience 0,
    a prestige level one higher, [floor(oldLevel / 10)] more prestige points
    and the same total lifetime experience, and that row is what the call
    returns when the prestige milestone row can be created. *)
Theorem prestigeUser_contract (db : Db) (userId : string) (user : User) (now : Z) :
  UserService.getUserById db userId = Some user ->
  ((user_level user < 50)%Z ->
     UserService.prestigeUser userId now db = (db, Err BelowMinimumLevel))
  /\
  ((50 <= user_level user)%Z ->
     exists user',
       UserService.getUserById (fst (UserService.prestigeUser userId now db)) userId
         = Some user'
       /\ user_level user' = 1%Z
       /\ user_experience user' = 0%Z
       /\ user_prestigeLevel user' = (user_prestigeLevel user + 1)%Z
       /\ user_prestigePoints user' = (user_prestigePoints user + user_level user / 10)%Z
       /\ user_totalLifetimeExperience user' = user_totalLifetimeExperience user
       /\ (snd (UserService.prestigeUser userId now db) = Ok user'
           \/ snd (UserService.prestigeUser userId now db) = Err UniqueConstraintViolation)).
Proof.
  intros Hfind. unfold UserService.prestigeUser, UserService.MIN_PRESTIGE_LEVEL.
  rewrite Hfind. split; intros Hlevel.
  - apply Z.ltb_lt in Hlevel. rewrite Hlevel. reflexivity.
  - apply Z.ltb_ge in Hlevel. rewrite Hlevel.
    set (data := UserService.set_prestige _ _).
    destruct (user_update_found db userId data now user Hfind eq_refl)
      as (db1 & Hupd & Hget & Hrows & _).
    rewrite Hupd.
    exists (UserService.set_updatedAt now (data user)).
    unfold UserService.milestoneReward_create.
    destruct (existsb _ (milestoneRewards db1)); cbn [fst snd].
    + repeat split; auto.
    + repeat split; auto.
Qed.

Lemma prestigeUser_contract_witness :
  exists user',
    UserService.getUserById
      (fst (UserService.prestigeUser "u" Examples.tenMinutes
              (Examples.dbOf Examples.veteran))) "u"
    = Some user'
    /\ user_level user' = 1%Z
    /\ user_experience user' = 0%Z
    /\ user_prestigeLevel user' = 1%Z
    /\ user_prestigePoints user' = 7%Z
    /\ user_totalLifetimeExperience user' = 9000%Z.
Proof.
  destruct (prestigeUser_contract (Examples.dbOf Examples.veteran) "u" Examples.veteran
              Examples.tenMinutes eq_refl) as [_ H].
  assert (Hlevel : (50 <= user_level Examples.veteran)%Z) by (simpl; lia).
  destruct (H Hlevel) as (user' & Hget & Hl & He & Hp & Hpts & Htot & _).
  exists user'. repeat split; assumption.
Defined.

(** ** Claim C4 *)

(** [processMilestoneRewards] reads and writes the MilestoneReward table
    only, and rows are only ever appended. *)
Lemma storeRewards_appends (userId : string) (level : Z) (rewards : list MilestoneReward) :
  forall db,
    exists extra,
      milestoneRewards (fst (UserService.storeRewards db userId level rewards))
      = milestoneRewards db ++ extra
      /\ (snd (UserService.storeRewards db userId level rewards) = Ok tt ->
          extra = map (UserService.rowOfReward userId level) rewards).
Proof.
  induction rewards as [|reward rest IH]; intros db; simpl.
  - exists []. split; [symmetry; apply app_nil_r | reflexivity].
  - unfold UserService.milestoneReward_create.
    destruct (existsb _ (milestoneRewards db)).
    + exists []. split; [symmetry; apply app_nil_r | discriminate].
    + match goal with |- context [UserService.storeRewards ?d _ _ _] =>
        destruct (IH d) as (extra & Hrows & Hok) end.
      exists (UserService.rowOfReward userId level reward :: extra). split.
      * rewrite Hrows. simpl. rewrite <- app_assoc. reflexivity.
      * intros H. rewrite (Hok H). reflexivity.
Qed.

Lemma storeRewards_table_only (userId : string) (level : Z) (rewards : list MilestoneReward) :
  forall dbA dbB,
    milestoneRewards dbA = milestoneRewards dbB ->
    milestoneRewards (fst (UserService.storeRewards dbA userId level rewards))
    = milestoneRewards (fst (UserService.storeRewards dbB userId level rewards))
    /\ snd (UserService.storeRewards dbA userId level rewards)
       = snd (UserService.storeRewards dbB userId level rewards).
Proof.
  induction rewards as [|reward rest IH]; intros dbA dbB Heq; simpl; [auto|].
  unfold UserService.milestoneReward_create. rewrite Heq.
  destruct (existsb _ (milestoneRewards dbB)); [auto|].
  apply IH. reflexivity.
Qed.

Lemma processMilestoneRewards_table_only (userId : string) (level : Z) (dbA dbB : Db) :
  milestoneRewards dbA = milestoneRewards dbB ->
  milestoneRewards (fst (UserService.processMilestoneRewards userId level dbA))
  = milestoneRewards (fst (UserService.processMilestoneRewards userId level dbB)).
Proof.
  intros Heq. unfold UserService.processMilestoneRewards. rewrite Heq.
  destruct (filter _ (milestoneRewards dbB)); [|assumption].
  destruct (storeRewards_table_only userId level (UserService.milestones userId level)
              dbA dbB Heq) as [Hrows Hres].
  destruct (UserService.storeRewards dbA userId level _) as [dA rA].
  destruct (UserService.storeRewards dbB userId level _) as [dB rB].
  simpl in *. subst rB. destruct rA; assumption.
Qed.

(** The store loop either writes nothing at all or leaves an unclaimed row
    of the (player, level) pair behind. *)
Lemma storeRewards_cases (userId : string) (level : Z) (rewards : list MilestoneReward)
    (db : Db) :
  fst (UserService.storeRewards db userId level rewards) = db
  \/ exists row rows',
       milestoneRewards (fst (UserService.storeRewards db userId level rewards))
       = milestoneRewards db ++ row :: rows'
       /\ UserService.isUnclaimedFor userId level row = true.
Proof.
  destruct rewards as [|reward rest]; simpl; [auto|].
  unfold UserService.milestoneReward_create.
  destruct (existsb _ (milestoneRewards db)); [auto|]. right.
  match goal with |- context [UserService.storeRewards ?d _ _ _] =>
    destruct (storeRewards_appends userId level rest d) as (extra & Hrows & _) end.
  exists (UserService.rowOfReward userId level reward), extra. split.
  - rewrite Hrows. simpl. rewrite <- app_assoc. reflexivity.
  - unfold UserService.isUnclaimedFor. simpl.
    rewrite String.eqb_refl, Z.eqb_refl. reflexivity.
Qed.

Lemma filter_app_hit {A : Type} (f : A -> bool) (l1 l2 : list A) (a : A) :
  f a = true -> filter f (l1 ++ a :: l2) <> [].
Proof.
  intros Ha. rewrite filter_app. simpl. rewrite Ha.
  destruct (filter f l1); discriminate.
Qed.

(** A second run for the same (player, level) leaves the database as the
    first run left it. *)
Lemma processMilestoneRewards_idempotent (userId : string) (level : Z) (db : Db) :
  fst (UserService.processMilestoneRewards userId level
         (fst (UserService.processMilestoneRewards userId level db)))
  = fst (UserService.processMilestoneRewards userId level db).
Proof.
  assert (Hkeep : forall d,
             filter (UserService.isUnclaimedFor userId level) (milestoneRewards d) <> [] ->
             fst (UserService.processMilestoneRewards userId level d) = d).
  { intros d Hd. unfold UserService.processMilestoneRewards.
    destruct (filter _ (milestoneRewards d)); [contradiction | reflexivity]. }
  destruct (filter (UserService.isUnclaimedFor userId level) (milestoneRewards db)) eqn:Ex.
  - assert (Hfirst : fst (UserService.processMilestoneRewards userId level db)
                     = fst (UserService.storeRewards db userId level
                              (UserService.milestones userId level))).
    { unfold UserService.processMilestoneRewards. rewrite Ex.
      destruct (UserService.storeRewards db userId level _) as [d r].
      destruct r; reflexivity. }
    destruct (storeRewards_cases userId level (UserService.milestones userId level) db)
      as [Hsame | (row & rows' & Hrows & Hrow)].
    + rewrite Hfirst, Hsame. rewrite Hfirst. exact Hsame.
    + rewrite Hfirst. apply Hkeep. rewrite Hrows. apply filter_app_hit. assumption.
  - rewrite (Hkeep db); [apply Hkeep|]; rewrite Ex; discriminate.
Qed.

(** After a successful [addExperience] the MilestoneReward table is the one
    [processMilestoneRewards] leaves for the new level when the player
    leveled up, and the old one otherwise. *)
Lemma addExperience_milestone_table
    (userId : string) (baseAmount : Q) (zoneId : option string) (now : Z)
    (db db' : Db) (gain : UserService.ExperienceGainResult) :
  UserService.addExperience userId baseAmount zoneId now db = (db', Ok gain) ->
  milestoneRewards db'
  = if UserService.gain_leveledUp gain
    then milestoneRewards
           (fst (UserService.processMilestoneRewards userId (UserService.gain_newLevel gain) db))
    else milestoneRewards db.
Proof.
  unfold UserService.addExperience.
  destruct (UserService.getUserById db userId) as [user|] eqn:Hfind; [|discriminate].
  destruct (UserService.levelUpLoop _ _ _ _) as [[newExperience newLevel] leveledUp].
  set (data := UserService.set_progress _ _ _).
  destruct (user_update_found db userId data now user Hfind eq_refl)
    as (db1 & Hupd & _ & Hrows & _).
  rewrite Hupd. destruct leveledUp.
  - pose proof (processMilestoneRewards_table_only userId newLevel db1 db Hrows) as Htable.
    destruct (UserService.processMilestoneRewards userId newLevel db1) as [db2 r].
    destruct r; [|discriminate].
    intros H. injection H as <- <-. simpl in *. assumption.
  - intros H. injection H as <- <-. simpl. assumption.
Qed.

(** C4, as stated, fails: one grant takes a player from level 49 to level
    50 and leaves three MilestoneReward rows for the pair (player, 50). *)
Lemma milestone_rows_counterexample :
  exists db' gain,
    UserService.addExperience "u" 120 None 0 (Examples.dbOf Examples.level49)
      = (db', Ok gain)
    /\ UserService.gain_oldLevel gain = 49%Z
    /\ UserService.gain_newLevel gain = 50%Z
    /\ List.length (rowsFor "u" 50 db') = 3%nat
    /\ ~ (List.length (rowsFor "u" 50 db') <= 1)%nat.
Proof.
  eexists. eexists. split; [vm_compute; reflexivity|].
  repeat split. vm_compute. lia.
Qed.

(** One grant can cross several levels; only the last one is processed.
    From level 4, 300 points lead to level 6 and level 5 gets no row. *)
Lemma addExperience_processes_new_level_only :
  exists db' gain,
    UserService.addExperience "u" 300 None 0 (Examples.dbOf Examples.level4)
      = (db', Ok gain)
    /\ UserService.gain_newLevel gain = 6%Z
    /\ rowsFor "u" 5 db' = [].
Proof.
  eexists. eexists. split; [vm_compute; reflexivity|].
  split; reflexivity.
Qed.

(** C4, amended. For every [addExperience] call that raises the level,
    the rows of the pair (player, new level) are those
    [processMilestoneRewards] leaves for the new level.  When the pair has no
    unclaimed row, a successful run appends one row per reward configured for
    the level: one at levels 5, 10 and 25, three at level 50, none at any
    other level.  A second run for the same pair leaves the database as the
    first run left it: a duplicated call adds no row. *)
Theorem milestone_trigger_contract :
  (forall userId baseAmount zoneId now db db' gain,
      UserService.addExperience userId baseAmount zoneId now db = (db', Ok gain) ->
      UserService.gain_leveledUp gain = true ->
      rowsFor userId (UserService.gain_newLevel gain) db'
      = rowsFor userId (UserService.gain_newLevel gain)
          (fst (UserService.processMilestoneRewards userId
                  (UserService.gain_newLevel gain) db)))
  /\ (forall userId level db,
        fst (UserService.processMilestoneRewards userId level
               (fst (UserService.processMilestoneRewards userId level db)))
        = fst (UserService.processMilestoneRewards userId level db))
  /\ (forall userId level db db' rewards,
        filter (UserService.isUnclaimedFor userId level) (milestoneRewards db) = [] ->
        UserService.processMilestoneRewards userId level db = (db', Ok rewards) ->
        rewards = UserService.milestones userId level
        /\ milestoneRewards db'
           = milestoneRewards db ++ map (UserService.rowOfReward userId level) rewards)
  /\ (forall userId level,
        List.length (UserService.milestones userId level)
        = if ((level =? 5) || (level =? 10) || (level =? 25))%Z then 1%nat
          else if (level =? 50)%Z then 3%nat else 0%nat).
Proof.
  split; [|split; [|split]].
  - intros userId baseAmount zoneId now db db' gain Hrun Hup.
    unfold rowsFor. rewrite (addExperience_milestone_table _ _ _ _ _ _ _ Hrun), Hup.
    reflexivity.
  - apply processMilestoneRewards_idempotent.
  - intros userId level db db' rewards Hnone.
    unfold UserService.processMilestoneRewards. rewrite Hnone.
    destruct (storeRewards_appends userId level (UserService.milestones userId level) db)
      as (extra & Hrows & Hok).
    destruct (UserService.storeRewards db userId level _) as [d r].
    destruct r as [[]|]; [|discriminate].
    intros H. injection H as <- <-. simpl in *.
    split; [reflexivity|]. rewrite Hrows, (Hok eq_refl). reflexivity.
  - intros userId level. unfold UserService.milestones.
    destruct (level =? 5)%Z; [reflexivity|].
    destruct (level =? 10)%Z; [reflexivity|].
    destruct (level =? 25)%Z; [reflexivity|].
    destruct (level =? 50)%Z; reflexivity.
Qed.

(** A grant of 120 points at level 49 reaches level 50 and stores three
    rows; running the trigger again for level 50 stores nothing more. *)
Lemma milestone_trigger_contract_witness :
  exists db' gain,
    UserService.addExperience "u" 120 None 0 (Examples.dbOf Examples.level49)
      = (db', Ok gain)
    /\ UserService.gain_leveledUp gain = true
    /\ List.length (rowsFor "u" 50 db') = 3%nat
    /\ List.length (rowsFor "u" 50
                 (fst (UserService.processMilestoneRewards "u" 50
                         (fst (UserService.processMilestoneRewards "u" 50
                                 (Examples.dbOf Examples.level49))))))
       = 3%nat.
Proof.
  destruct milestone_trigger_contract as (Hlink & Hidem & _ & _).
  destruct (UserService.addExperience "u" 120 None 0 (Examples.dbOf Examples.level49))
    as [db' r] eqn:Hrun.
  pose proof Hrun as Hvalue. vm_compute in Hvalue. injection Hvalue as <- <-.
  eexists. eexists. split; [reflexivity|].
  split; [reflexivity|]. split.
  - pose proof (Hlink _ _ _ _ _ _ _ Hrun eq_refl) as Hrows.
    cbn [UserService.gain_newLevel] in Hrows. rewrite Hrows. reflexivity.
  - rewrite Hidem. reflexivity.
Defined.

(** ** The loops leave through their conditions

    The fuel given to the two [while] loops is never what stops them: one
    more unit changes nothing. *)

Lemma getLevelFromXp_loop_step (fuel : nat) (xp level : Z) (total : xnum) :
  ExperienceCalculator.getLevelFromXp_loop (S fuel) xp level total
  = if xgeb xp total && (level <? ExperienceCalculator.maxLevel)%Z
    then ExperienceCalculator.getLevelFromXp_loop fuel xp (level + 1)%Z
           (xadd total (ExperienceCalculator.getXpRequiredForNextLevel (level + 1)%Z))
    else level.
Proof. reflexivity. Qed.

Lemma getLevelFromXp_loop_fuel (fuel : nat) :
  forall xp level total,
    (ExperienceCalculator.maxLevel - level <= Z.of_nat fuel)%Z ->
    ExperienceCalculator.getLevelFromXp_loop (S fuel) xp level total
    = ExperienceCalculator.getLevelFromXp_loop fuel xp level total.
Proof.
  induction fuel as [|fuel IH]; intros xp level total Hfuel.
  - rewrite getLevelFromXp_loop_step. simpl Z.of_nat in Hfuel.
    assert (Hcap : (level <? ExperienceCalculator.maxLevel)%Z = false)
      by (apply Z.ltb_ge; lia).
    rewrite Hcap, andb_false_r. reflexivity.
  - rewrite (getLevelFromXp_loop_step (S fuel) xp level total),
            (getLevelFromXp_loop_step fuel xp level total).
    destruct (xgeb xp total && (level <? ExperienceCalculator.maxLevel)%Z);
      [|reflexivity].
    apply IH. lia.
Qed.

Lemma getLevelFromXp_loop_range (fuel : nat) :
  forall xp level total,
    (level <= ExperienceCalculator.getLevelFromXp_loop fuel xp level total)%Z
    /\ (ExperienceCalculator.getLevelFromXp_loop fuel xp level total
        <= Z.max level ExperienceCalculator.maxLevel)%Z.
Proof.
  induction fuel as [|fuel IH]; intros xp level total.
  - simpl. lia.
  - rewrite getLevelFromXp_loop_step.
    destruct (xgeb xp total); cbn [andb]; [|lia].
    destruct (level <? ExperienceCalculator.maxLevel)%Z eqn:Hcap; [|lia].
    apply Z.ltb_lt in Hcap.
    specialize (IH xp (level + 1)%Z
                  (xadd total (ExperienceCalculator.getXpRequiredForNextLevel (level + 1)%Z))).
    lia.
Qed.

(** [getLevelFromXp] always answers a level between 1 and [maxLevel]. *)
Lemma getLevelFromXp_range (xp : Z) :
  (1 <= ExperienceCalculator.getLevelFromXp xp <= ExperienceCalculator.maxLevel)%Z.
Proof.
  unfold ExperienceCalculator.getLevelFromXp.
  destruct (xp <=? 0)%Z; [unfold ExperienceCalculator.maxLevel; lia|].
  pose proof (getLevelFromXp_loop_range (Z.to_nat ExperienceCalculator.maxLevel) xp 1%Z
                (ExperienceCalculator.getXpRequiredForNextLevel 1)) as H.
  unfold ExperienceCalculator.maxLevel in *. lia.
Qed.

(** Below the level cap every requirement is finite and at least [baseXP]. *)
Lemma getXpRequiredForNextLevel_finite (level : Z) :
  (1 <= level < ExperienceCalculator.maxLevel)%Z ->
  exists required,
    ExperienceCalculator.getXpRequiredForNextLevel level = Fin required
    /\ (100 <= required)%Z.
Proof.
  intros [Hlow Hhigh]. unfold ExperienceCalculator.getXpRequiredForNextLevel.
  assert (Hcap : (ExperienceCalculator.maxLevel <=? level)%Z = false)
    by (apply Z.leb_gt; assumption).
  rewrite Hcap. eexists. split; [reflexivity|].
  rewrite <- (Qfloor_Z 100). apply Qfloor_resp_le.
  assert (Hpow : 1 <= ExperienceCalculator.xpScalingFactor ^ (level - 1)).
  { apply Qpower_1_le; [unfold ExperienceCalculator.xpScalingFactor; lra | lia]. }
  unfold ExperienceCalculator.baseXP.
  change (inject_Z 100) with 100. nra.
Qed.

Lemma levelUpLoop_step (fuel : nat) (newExperience newLevel : Z) (leveledUp : bool) :
  UserService.levelUpLoop (S fuel) newExperience newLevel leveledUp
  = let next := ExperienceCalculator.nextLevelXp
                  (ExperienceCalculator.getRemainingXp newExperience) in
    if xgeb newExperience next then
      match next with
      | Fin required =>
          UserService.levelUpLoop fuel (newExperience - required)%Z (newLevel + 1)%Z true
      | Infinity => (newExperience, newLevel, leveledUp)
      end
    else (newExperience, newLevel, leveledUp).
Proof. reflexivity. Qed.

(** What the loop of [addExperience] compares with: the requirement of the
    level [getLevelFromXp] assigns to the within-level figure. *)
Lemma nextLevelXp_cases (newExperience : Z) :
  let next := ExperienceCalculator.nextLevelXp
                (ExperienceCalculator.getRemainingXp newExperience) in
  next = Infinity \/ exists required, next = Fin required /\ (100 <= required)%Z.
Proof.
  cbn [ExperienceCalculator.nextLevelXp ExperienceCalculator.getRemainingXp].
  pose proof (getLevelFromXp_range newExperience) as [Hlow Hhigh].
  destruct (Z.eq_dec (ExperienceCalculator.getLevelFromXp newExperience)
              ExperienceCalculator.maxLevel) as [Hcap | Hcap].
  - left. rewrite Hcap. reflexivity.
  - right. apply getXpRequiredForNextLevel_finite. lia.
Qed.

Lemma levelUpLoop_fuel (fuel : nat) :
  forall newExperience newLevel leveledUp,
    (newExperience <= Z.of_nat fuel)%Z ->
    UserService.levelUpLoop (S fuel) newExperience newLevel leveledUp
    = UserService.levelUpLoop fuel newExperience newLevel leveledUp.
Proof.
  induction fuel as [|fuel IH]; intros e l b Hfuel.
  - rewrite levelUpLoop_step. cbv zeta.
    destruct (nextLevelXp_cases e) as [-> | (required & -> & Hreq)]; [reflexivity|].
    simpl xgeb.
    assert (Hno : (required <=? e)%Z = false) by (apply Z.leb_gt; simpl Z.of_nat in Hfuel; lia).
    rewrite Hno. reflexivity.
  - rewrite (levelUpLoop_step (S fuel) e l b), (levelUpLoop_step fuel e l b). cbv zeta.
    destruct (nextLevelXp_cases e) as [-> | (required & -> & Hreq)]; [reflexivity|].
    destruct (xgeb e (Fin required)); [|reflexivity].
    apply IH. lia.
Qed.

(** * Further properties of the code *)

(** ** Regeneration *)

Lemma minutesPassed_nonneg (last now : Z) :
  0 <= Qmax 0 (inject_Z (now - last) / inject_Z (1000 * 60)).
Proof. apply Q.le_max_l. Qed.

Lemma effectiveMultiplier_nonneg (mult : Q) (zone : bool) :
  0 <= mult ->
  0 <= (if zone then mult * EnergyManager.recoveryZoneMultiplier else mult).
Proof.
  intros H. destruct zone; [|assumption].
  unfold EnergyManager.recoveryZoneMultiplier. nra.
Qed.

Lemma energyGained_nonneg (last : Z) (mult : Q) (zone : bool) (now : Z) :
  0 <= mult -> (0 <= energyGained last mult zone now)%Z.
Proof.
  intros Hmult. unfold energyGained.
  apply (Z.le_trans _ (Qfloor 0)); [vm_compute; discriminate|]. apply Qfloor_resp_le.
  pose proof (minutesPassed_nonneg last now) as Hmin.
  pose proof (effectiveMultiplier_nonneg mult zone Hmult) as Heff.
  unfold EnergyManager.baseRegenerationRate.
  generalize dependent (Qmax 0 (inject_Z (now - last) / inject_Z (1000 * 60))).
  generalize dependent (if zone then mult * EnergyManager.recoveryZoneMultiplier else mult).
  intros e He t Ht. nra.
Qed.

(** The value the reconciliation returns on a well-formed state. *)
Lemma calculateRegeneratedEnergy_formula
    (c m : Q) (last : Z) (mult : Q) (zone : bool) (now : Z) :
  0 <= c -> 0 < m -> 0 <= mult ->
  exists r,
    EnergyManager.calculateRegeneratedEnergy c m last mult zone now = Ok r
    /\ r == Qmin (c + inject_Z (energyGained last mult zone now)) (Qmax c m).
Proof.
  intros Hc Hm Hmult.
  pose proof (energyGained_nonneg last mult zone now Hmult) as Hg.
  assert (Hg' : 0 <= inject_Z (energyGained last mult zone now)).
  { change 0 with (inject_Z 0). rewrite <- Zle_Qle. assumption. }
  unfold EnergyManager.calculateRegeneratedEnergy.
  qcase; [lra|]. qcase; [lra|]. qcase; [lra|].
  unfold EnergyManager.getEffectiveEnergyCap.
  qcase; [lra|]. cbn [bind].
  qcase.
  - exists c. split; [reflexivity|].
    pose proof (Q.le_max_l c m) as Hl.
    assert (Hcap : Qmax c m == c) by (apply Qle_antisym; assumption).
    rewrite Hcap. symmetry. apply Q.min_r. lra.
  - eexists. split; reflexivity.
Qed.

Lemma minutesPassed_monotone (last now1 now2 : Z) :
  (now1 <= now2)%Z ->
  Qmax 0 (inject_Z (now1 - last) / inject_Z (1000 * 60))
  <= Qmax 0 (inject_Z (now2 - last) / inject_Z (1000 * 60)).
Proof.
  intros H. apply Q.max_le_compat_l.
  unfold Qdiv. apply Qmult_le_compat_r; [|vm_compute; discriminate].
  rewrite <- Zle_Qle. lia.
Qed.

Lemma energyGained_monotone (last : Z) (mult : Q) (zone : bool) (now1 now2 : Z) :
  0 <= mult -> (now1 <= now2)%Z ->
  (energyGained last mult zone now1 <= energyGained last mult zone now2)%Z.
Proof.
  intros Hmult H. unfold energyGained. apply Qfloor_resp_le.
  pose proof (minutesPassed_monotone last now1 now2 H) as Hmin.
  pose proof (minutesPassed_nonneg last now1) as H1.
  pose proof (effectiveMultiplier_nonneg mult zone Hmult) as Heff.
  unfold EnergyManager.baseRegenerationRate.
  generalize dependent (Qmax 0 (inject_Z (now1 - last) / inject_Z (1000 * 60))).
  generalize dependent (Qmax 0 (inject_Z (now2 - last) / inject_Z (1000 * 60))).
  generalize dependent (if zone then mult * EnergyManager.recoveryZoneMultiplier else mult).
  intros e He t2 t1 Ht Ht1. nra.
Qed.

Lemma energyGained_skew (last : Z) (mult : Q) (zone : bool) (now : Z) :
  (now <= last)%Z -> energyGained last mult zone now = 0%Z.
Proof.
  intros H. unfold energyGained.
  assert (Hmin : Qmax 0 (inject_Z (now - last) / inject_Z (1000 * 60)) == 0).
  { apply Q.max_l. unfold Qdiv.
    assert (Hneg : inject_Z (now - last) <= 0)
      by (change 0 with (inject_Z 0); rewrite <- Zle_Qle; lia).
    assert (Hinv : 0 <= / inject_Z (1000 * 60)) by (vm_compute; discriminate).
    nra. }
  rewrite Hmin.
  assert (Hz : 0 * EnergyManager.baseRegenerationRate
               * (if zone then mult * EnergyManager.recoveryZoneMultiplier else mult) == 0)
    by ring.
  rewrite Hz. reflexivity.
Qed.

(** X1. On a well-formed state the reconciled energy never drops below the
    stored energy and never exceeds the lazy cap [max(current, max)]; from
    an energy within the maximum it stays within the maximum; and when the
    clock is at or behind the last update nothing is gained. *)
Theorem reconcile_bounds (c m : Q) (last : Z) (mult : Q) (zone : bool) (now : Z) :
  0 <= c -> 0 < m -> 0 <= mult ->
  exists r,
    EnergyManager.calculateRegeneratedEnergy c m last mult zone now = Ok r
    /\ c <= r
    /\ r <= Qmax c m
    /\ (c <= m -> r <= m)
    /\ ((now <= last)%Z -> r == c).
Proof.
  intros Hc Hm Hmult.
  destruct (calculateRegeneratedEnergy_formula c m last mult zone now Hc Hm Hmult)
    as (r & Hr & Hval).
  pose proof (energyGained_nonneg last mult zone now Hmult) as Hg.
  assert (Hg' : 0 <= inject_Z (energyGained last mult zone now)).
  { change 0 with (inject_Z 0). rewrite <- Zle_Qle. assumption. }
  exists r. split; [assumption|]. rewrite Hval.
  pose proof (Q.le_max_l c m) as Hl.
  split; [apply Q.min_glb; lra|].
  split; [apply Q.le_min_r|].
  split.
  - intros Hcm. rewrite (Q.max_r c m Hcm). apply Q.le_min_r.
  - intros Hskew. rewrite (energyGained_skew last mult zone now Hskew).
    change (inject_Z 0) with 0. rewrite Q.min_l; lra.
Qed.

Lemma reconcile_bounds_witness :
  exists r,
    EnergyManager.calculateRegeneratedEnergy 20 100 0 1 false Examples.tenMinutes = Ok r
    /\ 20 <= r /\ r <= 100.
Proof.
  assert (Hc : 0 <= 20) by lra.
  assert (Hm : 0 < 100) by lra.
  assert (Hmult : 0 <= 1) by lra.
  destruct (reconcile_bounds 20 100 0 1 false Examples.tenMinutes Hc Hm Hmult)
    as (r & Hr & Hlow & _ & Hhigh & _).
  exists r. split; [assumption|]. split; [assumption|]. apply Hhigh. lra.
Defined.

(** X2. Waiting longer never yields less energy: the reconciled value is
    monotone in the clock. *)
Theorem reconcile_monotone_in_time
    (c m : Q) (last : Z) (mult : Q) (zone : bool) (now1 now2 : Z) (r1 r2 : Q) :
  (now1 <= now2)%Z ->
  EnergyManager.calculateRegeneratedEnergy c m last mult zone now1 = Ok r1 ->
  EnergyManager.calculateRegeneratedEnergy c m last mult zone now2 = Ok r2 ->
  r1 <= r2.
Proof.
  intros Hnow H1 H2.
  destruct (calculateRegeneratedEnergy_valid _ _ _ _ _ _ _ H1) as (Hc & Hm & Hmult).
  destruct (calculateRegeneratedEnergy_formula c m last mult zone now1 Hc Hm Hmult)
    as (a & Ha & Hva).
  destruct (calculateRegeneratedEnergy_formula c m last mult zone now2 Hc Hm Hmult)
    as (b & Hb & Hvb).
  rewrite H1 in Ha. injection Ha as <-. rewrite H2 in Hb. injection Hb as <-.
  rewrite Hva, Hvb. apply Q.min_le_compat_r.
  pose proof (energyGained_monotone last mult zone now1 now2 Hmult Hnow) as Hg.
  rewrite Zle_Qle in Hg. lra.
Qed.

Lemma reconcile_monotone_in_time_witness :
  EnergyManager.calculateRegeneratedEnergy 20 100 0 1 false 300000 = Ok 25
  /\ EnergyManager.calculateRegeneratedEnergy 20 100 0 1 false 600000 = Ok 30
  /\ 25 <= 30.
Proof.
  split; [reflexivity|]. split; [reflexivity|].
  assert (Hnow : (300000 <= 600000)%Z) by lia.
  exact (reconcile_monotone_in_time 20 100 0 1 false 300000 600000 25 30
           Hnow eq_refl eq_refl).
Defined.

(** X3. The reconciliation throws exactly on a negative energy, a
    non-positive maximum or a negative multiplier; on any other input it
    returns a value. *)
Theorem reconcile_fails_iff (c m : Q) (last : Z) (mult : Q) (zone : bool) (now : Z) :
  (exists e, EnergyManager.calculateRegeneratedEnergy c m last mult zone now = Err e)
  <-> (c < 0 \/ m <= 0 \/ mult < 0).
Proof.
  split.
  - intros [e He].
    destruct (Qlt_le_dec c 0) as [|Hc]; [auto|].
    destruct (Qlt_le_dec 0 m) as [Hm|]; [|auto].
    destruct (Qlt_le_dec mult 0) as [|Hmult]; [auto|].
    destruct (calculateRegeneratedEnergy_formula c m last mult zone now Hc Hm Hmult)
      as (r & Hr & _).
    rewrite Hr in He. discriminate.
  - intros H. unfold EnergyManager.calculateRegeneratedEnergy.
    destruct (Qltb c 0) eqn:Ec; [eauto|]. apply Qltb_false in Ec.
    destruct (Qleb m 0) eqn:Em; [eauto|]. apply Qleb_false in Em.
    destruct (Qltb mult 0) eqn:Emult; [eauto|]. apply Qltb_false in Emult.
    destruct H as [H | [H | H]]; lra.
Qed.

(** A whole number of minutes after the last update. *)
Lemma minutesPassed_exact (last k : Z) :
  (0 <= k)%Z ->
  Qmax 0 (inject_Z (last + k * 60000 - last) / inject_Z (1000 * 60)) == inject_Z k.
Proof.
  intros Hk.
  replace (last + k * 60000 - last)%Z with (k * 60000)%Z by lia.
  assert (Hdiv : inject_Z (k * 60000) / inject_Z (1000 * 60) == inject_Z k).
  { rewrite inject_Z_mult. change (inject_Z (1000 * 60)) with (inject_Z 60000).
    field. }
  rewrite Hdiv. apply Q.max_r.
  change 0 with (inject_Z 0). rewrite <- Zle_Qle. assumption.
Qed.

Lemma energyGained_after_minutes (last : Z) (mult : Q) (zone : bool) (k : Z) :
  (0 <= k)%Z ->
  energyGained last mult zone (last + k * 60000)
  = Qfloor (inject_Z k
            * (if zone then mult * EnergyManager.recoveryZoneMultiplier else mult)).
Proof.
  intros Hk. unfold energyGained. rewrite (minutesPassed_exact last k Hk).
  unfold EnergyManager.baseRegenerationRate.
  assert (H : inject_Z k * 1
              * (if zone then mult * EnergyManager.recoveryZoneMultiplier else mult)
              == inject_Z k
                 * (if zone then mult * EnergyManager.recoveryZoneMultiplier else mult))
    by ring.
  rewrite H. reflexivity.
Qed.

(** ** Time until full energy *)

(** X4. For whole-number energies below a maximum that fits the [Int]
    column, and a regeneration multiplier that is a whole number of quarters
    (1.0, 1.25, 1.5, ...), inside a recovery zone or not,
    [calculateTimeUntilFullEnergy] answers the least whole number of minutes
    after which the reconciliation reaches the maximum: after that many
    minutes the energy is full, and after any smaller whole number of minutes
    it is not.  On these inputs every product the two functions form is a
    multiple of 1/8 below 2^53, which a double holds exactly, and the
    one quotient is rounded by less than its distance to a whole number. *)
Theorem timeUntilFull_is_exact
    (current max quarters : Z) (zone : bool) (last minutes : Z) :
  (0 <= current < max)%Z -> (max < 2 ^ 31)%Z -> (1 <= quarters < 2 ^ 31)%Z ->
  EnergyManagerExt.calculateTimeUntilFullEnergy (inject_Z current) (inject_Z max)
    (quarters # 4) zone
  = Done minutes ->
  (1 <= minutes)%Z
  /\ (exists r,
        EnergyManager.calculateRegeneratedEnergy (inject_Z current) (inject_Z max)
          last (quarters # 4) zone (last + minutes * 60000) = Ok r
        /\ r == inject_Z max)
  /\ (forall earlier, (0 <= earlier < minutes)%Z ->
        exists r,
          EnergyManager.calculateRegeneratedEnergy (inject_Z current) (inject_Z max)
            last (quarters # 4) zone (last + earlier * 60000) = Ok r
          /\ r < inject_Z max).
Proof.
  intros [Hlow Hhigh] _ _ Hrun.
  set (mult := quarters # 4) in *. clearbody mult.
  assert (Hc : 0 <= inject_Z current)
    by (change 0 with (inject_Z 0); rewrite <- Zle_Qle; assumption).
  assert (Hcm : inject_Z current < inject_Z max) by (rewrite <- Zlt_Qlt; assumption).
  assert (Hm : 0 < inject_Z max) by lra.
  unfold EnergyManagerExt.calculateTimeUntilFullEnergy in Hrun.
  destruct (Qltb (inject_Z current) 0) eqn:E1; [discriminate|].
  destruct (Qleb (inject_Z max) 0) eqn:E2; [discriminate|].
  destruct (Qleb (inject_Z max) (inject_Z current)) eqn:E3;
    [apply Qleb_true in E3; lra|].
  set (eff := if zone then mult * EnergyManager.recoveryZoneMultiplier else mult) in *.
  destruct (Qleb eff 0) eqn:E4; [discriminate|]. apply Qleb_false in E4.
  injection Hrun as Hminutes.
  unfold EnergyManager.baseRegenerationRate in Hminutes.
  set (x := (inject_Z max - inject_Z current) / (1 * eff)) in *.
  assert (Hx : x * eff == inject_Z max - inject_Z current).
  { unfold x. field. lra. }
  assert (Hmult : 0 <= mult).
  { subst eff. destruct zone; [|lra].
    unfold EnergyManager.recoveryZoneMultiplier in E4. nra. }
  pose proof (Qle_ceiling x) as Hceil. pose proof (Qceiling_lt x) as Hbelow.
  rewrite Hminutes in Hceil, Hbelow.
  assert (Hxpos : 0 < x).
  { destruct (Qlt_le_dec 0 x) as [|Hneg]; [assumption|]. nra. }
  assert (Hone : (1 <= minutes)%Z).
  { destruct (Z_lt_le_dec minutes 1) as [Hlt|]; [|assumption].
    assert (Hq : inject_Z minutes <= 0)
      by (change 0 with (inject_Z 0); rewrite <- Zle_Qle; lia).
    lra. }
  assert (Hcap : Qmax (inject_Z current) (inject_Z max) == inject_Z max)
    by (apply Q.max_r; lra).
  split; [assumption|]. split.
  - destruct (calculateRegeneratedEnergy_formula (inject_Z current) (inject_Z max) last
                mult zone (last + minutes * 60000) Hc Hm Hmult) as (r & Hr & Hval).
    exists r. split; [assumption|]. rewrite Hval, Hcap.
    rewrite energyGained_after_minutes by lia. fold eff.
    apply Q.min_r.
    assert (Hfloor : (max - current <= Qfloor (inject_Z minutes * eff))%Z).
    { rewrite <- (Qfloor_Z (max - current)). apply Qfloor_resp_le.
      unfold Z.sub. rewrite inject_Z_plus, inject_Z_opp. nra. }
    rewrite Zle_Qle in Hfloor. unfold Z.sub in Hfloor.
    rewrite inject_Z_plus, inject_Z_opp in Hfloor. lra.
  - intros earlier [He0 He1].
    destruct (calculateRegeneratedEnergy_formula (inject_Z current) (inject_Z max) last
                mult zone (last + earlier * 60000) Hc Hm Hmult) as (r & Hr & Hval).
    exists r. split; [assumption|]. rewrite Hval, Hcap.
    rewrite energyGained_after_minutes by lia. fold eff.
    assert (Hearly : inject_Z earlier <= inject_Z (minutes - 1))
      by (rewrite <- Zle_Qle; lia).
    assert (Hlt : inject_Z earlier * eff < inject_Z (max - current)).
    { unfold Z.sub at 1. rewrite inject_Z_plus, inject_Z_opp. nra. }
    assert (Hfloor : (Qfloor (inject_Z earlier * eff) < max - current)%Z).
    { rewrite Zlt_Qlt. apply Qle_lt_trans with (inject_Z earlier * eff);
        [apply Qfloor_le | assumption]. }
    rewrite Zlt_Qlt in Hfloor. unfold Z.sub in Hfloor.
    rewrite inject_Z_plus, inject_Z_opp in Hfloor.
    apply Qle_lt_trans with (inject_Z current + inject_Z (Qfloor (inject_Z earlier * eff)));
      [apply Q.le_min_l | lra].
Qed.

(** From 20 of 100 energy at a multiplier of 1.5 (six quarters), outside a
    recovery zone: 80 / 1.5 = 53.3, so 54 minutes, and 53 are not enough. *)
Lemma timeUntilFull_is_exact_witness :
  EnergyManagerExt.calculateTimeUntilFullEnergy 20 100 (6 # 4) false = Done 54%Z
  /\ (exists r,
        EnergyManager.calculateRegeneratedEnergy 20 100 0 (6 # 4) false (0 + 54 * 60000)
          = Ok r
        /\ r == 100)
  /\ (exists r,
        EnergyManager.calculateRegeneratedEnergy 20 100 0 (6 # 4) false (0 + 53 * 60000)
          = Ok r
        /\ r < 100).
Proof.
  split; [reflexivity|].
  assert (Hrange : (0 <= 20 < 100)%Z) by lia.
  assert (Hmax : (100 < 2 ^ 31)%Z) by (vm_compute; reflexivity).
  assert (Hq : (1 <= 6 < 2 ^ 31)%Z) by (split; vm_compute; [discriminate | reflexivity]).
  destruct (timeUntilFull_is_exact 20 100 6 false 0 54 Hrange Hmax Hq eq_refl)
    as (_ & Hfull & Hearly).
  split; [exact Hfull|].
  apply (Hearly 53%Z). lia.
Defined.

(** ** Efficiency, capacity, progress *)

Lemma inject_Z_nonneg (z : Z) : (0 <= z)%Z -> 0 <= inject_Z z.
Proof. intros H. change 0 with (inject_Z 0). rewrite <- Zle_Qle. assumption. Qed.

(** X5. For a positive base cost and bonuses [0 <= b1 <= b2], the adjusted
    cost is at least 1 and never above the (floored) base cost, a larger
    bonus never costs more, no bonus leaves the floored base cost, and every
    bonus from 0.9 on costs the same.  A whole-number base cost is never cut
    below a tenth of itself by more than one point: ten times the cost plus
    one covers it. *)
Theorem energyEfficiency_bounds (baseCost b1 b2 : Q) :
  0 < baseCost -> 0 <= b1 -> b1 <= b2 ->
  exists cost1 cost2,
    EnergyManagerExt.calculateEnergyEfficiency baseCost b1 = Done cost1
    /\ EnergyManagerExt.calculateEnergyEfficiency baseCost b2 = Done cost2
    /\ (1 <= cost2)%Z
    /\ (cost2 <= cost1)%Z
    /\ (cost1 <= Z.max 1 (Qfloor baseCost))%Z
    /\ (b1 == 0 -> cost1 = Z.max 1 (Qfloor baseCost))
    /\ (9 # 10 <= b1 -> cost1 = cost2)
    /\ (forall n : Z, baseCost == inject_Z n -> (n < 2 ^ 31)%Z ->
        (n <= 10 * (cost2 + 1))%Z).
Proof.
  intros Hbase H1 H12.
  unfold EnergyManagerExt.calculateEnergyEfficiency.
  destruct (Qleb baseCost 0) eqn:E0; [apply Qleb_true in E0; lra|].
  destruct (Qltb b1 0) eqn:E1; [apply Qltb_true in E1; lra|].
  destruct (Qltb b2 0) eqn:E2; [apply Qltb_true in E2; lra|].
  set (e1 := if Qltb (9 # 10) b1 then 9 # 10 else b1).
  set (e2 := if Qltb (9 # 10) b2 then 9 # 10 else b2).
  assert (He1 : 0 <= e1 /\ e1 <= 9 # 10).
  { subst e1. destruct (Qltb (9 # 10) b1) eqn:E; [lra|]. apply Qltb_false in E. lra. }
  assert (He2 : e1 <= e2 /\ e2 <= 9 # 10).
  { subst e1 e2.
    destruct (Qltb (9 # 10) b1) eqn:Ea; destruct (Qltb (9 # 10) b2) eqn:Eb;
      try apply Qltb_true in Ea; try apply Qltb_false in Ea;
      try apply Qltb_true in Eb; try apply Qltb_false in Eb; lra. }
  assert (Hzero : b1 == 0 -> e1 == 0).
  { intros Hb. subst e1. destruct (Qltb (9 # 10) b1) eqn:E; [|assumption].
    apply Qltb_true in E. lra. }
  assert (Hcap : 9 # 10 <= b1 -> e1 == e2).
  { intros Hb. subst e1 e2.
    destruct (Qltb (9 # 10) b1) eqn:Ea; destruct (Qltb (9 # 10) b2) eqn:Eb;
      try apply Qltb_true in Ea; try apply Qltb_false in Ea;
      try apply Qltb_true in Eb; try apply Qltb_false in Eb; lra. }
  clearbody e1 e2.
  eexists. eexists. split; [reflexivity|]. split; [reflexivity|].
  assert (Hmono : (Qfloor (baseCost * (1 - e2)) <= Qfloor (baseCost * (1 - e1)))%Z)
    by (apply Qfloor_resp_le; nra).
  assert (Hup : (Qfloor (baseCost * (1 - e1)) <= Qfloor baseCost)%Z)
    by (apply Qfloor_resp_le; nra).
  pose proof (Qlt_floor (baseCost * (1 - e2))) as Hfloor.
  split; [lia|]. split; [lia|]. split; [lia|]. split; [|split].
  - intros Hb. specialize (Hzero Hb).
    assert (Hsame : baseCost * (1 - e1) == baseCost) by (rewrite Hzero; ring).
    rewrite (Qfloor_comp _ _ Hsame). reflexivity.
  - intros Hb. specialize (Hcap Hb).
    assert (Hsame : baseCost * (1 - e1) == baseCost * (1 - e2)) by (rewrite Hcap; ring).
    rewrite (Qfloor_comp _ _ Hsame). reflexivity.
  - intros n Hn _.
    set (f := Qfloor (baseCost * (1 - e2))) in *.
    assert (Hq : inject_Z n < inject_Z (10 * (f + 1))).
    { rewrite inject_Z_mult. change (inject_Z 10) with 10.
      generalize dependent (inject_Z (f + 1)). intros q Hq. nra. }
    rewrite <- Zlt_Qlt in Hq. lia.
Qed.

(** A base cost of 100: half price at a bonus of 0.5, a quarter of the price
    at 0.75. *)
Lemma energyEfficiency_bounds_witness :
  EnergyManagerExt.calculateEnergyEfficiency 100 (50 # 100) = Done 50%Z
  /\ EnergyManagerExt.calculateEnergyEfficiency 100 (75 # 100) = Done 25%Z
  /\ exists cost1 cost2,
       EnergyManagerExt.calculateEnergyEfficiency 100 (50 # 100) = Done cost1
       /\ EnergyManagerExt.calculateEnergyEfficiency 100 (75 # 100) = Done cost2
       /\ (1 <= cost2 <= cost1)%Z
       /\ (100 <= 10 * (cost2 + 1))%Z.
Proof.
  split; [reflexivity|]. split; [reflexivity|].
  assert (Hb : 0 < 100) by lra.
  assert (H1 : 0 <= 50 # 100) by lra.
  assert (H2 : 50 # 100 <= 75 # 100) by lra.
  destruct (energyEfficiency_bounds 100 (50 # 100) (75 # 100) Hb H1 H2)
    as (c1 & c2 & Hc1 & Hc2 & Hone & Hle & _ & _ & _ & Hlow).
  exists c1, c2. repeat split; try assumption.
  apply (Hlow 100%Z); [reflexivity | vm_compute; reflexivity].
Defined.

(** X6. For levels [1 <= l1 <= l2] and bonuses [0 <= b1 <= b2],
    [getMaxEnergyForLevel] is defined, is at least 100 and grows with the
    level and with the bonus; without a bonus it is [100 + 5 * (level - 1)]. *)
Theorem maxEnergyForLevel_monotone (l1 l2 : Z) (b1 b2 : Q) :
  (1 <= l1 <= l2)%Z -> 0 <= b1 -> b1 <= b2 ->
  exists e1 e2,
    EnergyManagerExt.getMaxEnergyForLevel l1 b1 = Done e1
    /\ EnergyManagerExt.getMaxEnergyForLevel l2 b2 = Done e2
    /\ (100 <= e1 <= e2)%Z
    /\ EnergyManagerExt.getMaxEnergyForLevel l1 0 = Done (100 + 5 * (l1 - 1))%Z.
Proof.
  intros [Hl1 Hl12] Hb1 Hb12.
  unfold EnergyManagerExt.getMaxEnergyForLevel.
  assert (E1 : (l1 <? 1)%Z = false) by (apply Z.ltb_ge; lia).
  assert (E2 : (l2 <? 1)%Z = false) by (apply Z.ltb_ge; lia).
  rewrite E1, E2.
  destruct (Qltb b1 0) eqn:Eb1; [apply Qltb_true in Eb1; lra|].
  destruct (Qltb b2 0) eqn:Eb2; [apply Qltb_true in Eb2; lra|].
  assert (Eb0 : Qltb 0 0 = false) by reflexivity. rewrite Eb0.
  unfold EnergyManager.baseMaxEnergy, EnergyManager.energyPerLevel.
  assert (Hq1 : 0 <= inject_Z (l1 - 1)) by (apply inject_Z_nonneg; lia).
  assert (Hq12 : inject_Z (l1 - 1) <= inject_Z (l2 - 1)) by (rewrite <- Zle_Qle; lia).
  eexists. eexists. split; [reflexivity|]. split; [reflexivity|].
  split; [split|].
  - apply (Z.le_trans _ (Qfloor 100)); [vm_compute; discriminate|].
    apply Qfloor_resp_le.
    generalize dependent (inject_Z (l1 - 1)). intros q1 Hq1 Hq12. nra.
  - apply Qfloor_resp_le.
    generalize dependent (inject_Z (l2 - 1)).
    generalize dependent (inject_Z (l1 - 1)). intros q1 Hq1 q2 Hq12. nra.
  - f_equal.
    assert (Heq : (100 + inject_Z (l1 - 1) * 5) * (1 + 0)
                  == inject_Z (100 + 5 * (l1 - 1))).
    { rewrite inject_Z_plus, inject_Z_mult.
      change (inject_Z 100) with 100. change (inject_Z 5) with 5. ring. }
    rewrite Heq. apply Qfloor_Z.
Qed.

Lemma maxEnergyForLevel_monotone_witness :
  exists e1 e2,
    EnergyManagerExt.getMaxEnergyForLevel 1 0 = Done e1
    /\ EnergyManagerExt.getMaxEnergyForLevel 10 (1 # 10) = Done e2
    /\ (100 <= e1 <= e2)%Z.
Proof.
  assert (Hl : (1 <= 1 <= 10)%Z) by lia.
  assert (Hb1 : 0 <= 0) by lra.
  assert (Hb2 : 0 <= 1 # 10) by lra.
  destruct (maxEnergyForLevel_monotone 1 10 0 (1 # 10) Hl Hb1 Hb2)
    as (e1 & e2 & H1 & H2 & H3 & _).
  exists e1, e2. auto.
Defined.

(** X7. For a positive maximum the energy progress is a fraction between 0
    and 1, and it is 1 exactly when the energy has reached the maximum. *)
Theorem energyProgress_range (c m : Q) :
  0 < m ->
  exists p,
    EnergyManagerExt.getEnergyProgress c m = Done p
    /\ 0 <= p /\ p <= 1
    /\ (p == 1 <-> m <= c).
Proof.
  intros Hm. unfold EnergyManagerExt.getEnergyProgress.
  destruct (Qleb m 0) eqn:E; [apply Qleb_true in E; lra|].
  eexists. split; [reflexivity|].
  set (a := Qmax 0 c).
  assert (Ha : 0 <= a) by apply Q.le_max_l.
  assert (Hinv : 0 < / m) by (apply Qinv_lt_0_compat; assumption).
  assert (Hdiv : a / m * m == a) by (field; lra).
  assert (Hq : 0 <= a / m) by (unfold Qdiv; nra).
  split; [apply Q.min_glb; lra|]. split; [apply Q.le_min_l|].
  clear Hinv.
  assert (Hac : m <= c <-> m <= a).
  { subst a. split; intros H.
    - apply Qle_trans with c; [assumption | apply Q.le_max_r].
    - destruct (Q.max_spec 0 c) as [[_ Heq] | [_ Heq]]; rewrite Heq in H; lra. }
  rewrite Hac. generalize dependent (a / m). intros q Hdiv Hq.
  split; intros H.
  - destruct (Q.min_spec 1 q) as [[Hlt Heq] | [Hle Heq]]; rewrite Heq in H; nra.
  - apply Q.min_l. nra.
Qed.

Lemma energyProgress_range_witness :
  exists p, EnergyManagerExt.getEnergyProgress 120 100 = Done p /\ p == 1.
Proof.
  assert (Hm : 0 < 100) by lra.
  destruct (energyProgress_range 120 100 Hm) as (p & Hp & _ & _ & Hfull).
  exists p. split; [assumption|]. apply Hfull. lra.
Defined.

(** ** Boosts and overflow *)

(** X8. After a boost on a well-formed state, the overflow amount of the new
    energy is at most half the maximum, it is zero when overflow is not
    allowed, and the boost returns an expiry exactly when the new energy is
    in the overflow state. *)
Theorem boost_overflow_bounded
    (c m b : Q) (allowOverflow : bool) (duration now : Z) :
  0 <= c -> 0 < m -> 0 < b -> (0 <= duration)%Z ->
  exists r amount,
    EnergyManager.applyEnergyBoost c m b allowOverflow duration now = Ok r
    /\ EnergyManagerExt.getOverflowAmount (EnergyManager.energy r) m = Done amount
    /\ 0 <= amount
    /\ amount <= m * (1 # 2)
    /\ (allowOverflow = false -> amount == 0)
    /\ EnergyManagerExt.isInOverflowState (EnergyManager.energy r) m
       = Done (match EnergyManager.overflowExpiry r with
               | Some _ => true
               | None => false
               end).
Proof.
  intros Hc Hm Hb Hd. unfold EnergyManager.applyEnergyBoost.
  destruct (Qltb c 0) eqn:E1; [apply Qltb_true in E1; lra|].
  destruct (Qleb m 0) eqn:E2; [apply Qleb_true in E2; lra|].
  destruct (Qleb b 0) eqn:E3; [apply Qleb_true in E3; lra|].
  destruct (duration <? 0)%Z eqn:E4; [apply Z.ltb_lt in E4; lia|].
  unfold EnergyManagerExt.getOverflowAmount, EnergyManagerExt.isInOverflowState.
  rewrite E2. cbn [EnergyManager.energy EnergyManager.overflowExpiry].
  set (cap := if allowOverflow then m * (1 + EnergyManager.maxOverflowPercentage) else m).
  set (e := Qmin (c + b) cap).
  assert (Hcap : cap <= m * (1 + (1 # 2))).
  { subst cap. unfold EnergyManager.maxOverflowPercentage. destruct allowOverflow; lra. }
  assert (He : e <= cap) by apply Q.le_min_r.
  assert (Hno : allowOverflow = false -> cap == m) by (intros ->; reflexivity).
  eexists. eexists. split; [reflexivity|]. split; [reflexivity|].
  split; [apply Q.le_max_l|].
  cbn [EnergyManager.energy EnergyManager.overflowExpiry]. clearbody e cap.
  split; [apply Q.max_lub; lra|].
  split.
  - intros Hoff. specialize (Hno Hoff). apply Q.max_l. lra.
  - destruct (Qltb m e); reflexivity.
Qed.

Lemma boost_overflow_bounded_witness :
  exists r amount,
    EnergyManager.applyEnergyBoost 50 100 80 true 60 0 = Ok r
    /\ EnergyManagerExt.getOverflowAmount (EnergyManager.energy r) 100 = Done amount
    /\ amount <= 100 * (1 # 2).
Proof.
  assert (Hc : 0 <= 50) by lra.
  assert (Hm : 0 < 100) by lra.
  assert (Hb : 0 < 80) by lra.
  assert (Hd : (0 <= 60)%Z) by lia.
  destruct (boost_overflow_bounded 50 100 80 true 60 0 Hc Hm Hb Hd)
    as (r & amount & Hr & Ha & _ & Hle & _).
  exists r, amount. auto.
Defined.

(** X9. A boost never lowers an energy that is within the cap it applies;
    an energy already above that cap is cut down to it. *)
Theorem boost_never_lowers_within_cap
    (c m b : Q) (allowOverflow : bool) (duration now : Z) :
  0 <= c -> 0 < m -> 0 < b -> (0 <= duration)%Z ->
  exists r,
    EnergyManager.applyEnergyBoost c m b allowOverflow duration now = Ok r
    /\ (c <= (if allowOverflow then m * (1 + (1 # 2)) else m) ->
        c <= EnergyManager.energy r)
    /\ ((if allowOverflow then m * (1 + (1 # 2)) else m) < c ->
        EnergyManager.energy r == (if allowOverflow then m * (1 + (1 # 2)) else m)
        /\ EnergyManager.energy r < c).
Proof.
  intros Hc Hm Hb Hd. unfold EnergyManager.applyEnergyBoost.
  destruct (Qltb c 0) eqn:E1; [apply Qltb_true in E1; lra|].
  destruct (Qleb m 0) eqn:E2; [apply Qleb_true in E2; lra|].
  destruct (Qleb b 0) eqn:E3; [apply Qleb_true in E3; lra|].
  destruct (duration <? 0)%Z eqn:E4; [apply Z.ltb_lt in E4; lia|].
  eexists. split; [reflexivity|]. cbn [EnergyManager.energy].
  unfold EnergyManager.maxOverflowPercentage.
  set (cap := if allowOverflow then m * (1 + (1 # 2)) else m). clearbody cap.
  split.
  - intros Hin. apply Q.min_glb; lra.
  - intros Hout. assert (Hmin : Qmin (c + b) cap == cap) by (apply Q.min_r; lra).
    rewrite Hmin. split; [reflexivity | assumption].
Qed.

Lemma boost_never_lowers_within_cap_witness :
  exists r,
    EnergyManager.applyEnergyBoost 120 100 10 false 60 0 = Ok r
    /\ EnergyManager.energy r == 100
    /\ EnergyManager.energy r < 120.
Proof.
  assert (Hc : 0 <= 120) by lra.
  assert (Hm : 0 < 100) by lra.
  assert (Hb : 0 < 10) by lra.
  assert (Hd : (0 <= 60)%Z) by lia.
  destruct (boost_never_lowers_within_cap 120 100 10 false 60 0 Hc Hm Hb Hd)
    as (r & Hr & _ & Hout).
  exists r. split; [assumption|]. apply Hout. lra.
Defined.

(** X10. The daily income is what a player with an empty energy bar and a
    large enough maximum regenerates in exactly 24 hours; with a smaller
    maximum the reconciliation stops at the maximum. *)
Theorem dailyIncome_is_one_day_of_regen (m : Q) (last : Z) (mult : Q) (zone : bool) :
  0 < m -> 0 <= mult ->
  exists income r,
    EnergyManagerExt.getDailyEnergyIncome mult zone = Done income
    /\ EnergyManager.calculateRegeneratedEnergy 0 m last mult zone
         (last + 1440 * 60000) = Ok r
    /\ r == Qmin (inject_Z income) m.
Proof.
  intros Hm Hmult. unfold EnergyManagerExt.getDailyEnergyIncome.
  destruct (Qltb mult 0) eqn:E; [apply Qltb_true in E; lra|].
  assert (H0 : 0 <= 0) by lra.
  destruct (calculateRegeneratedEnergy_formula 0 m last mult zone (last + 1440 * 60000)
              H0 Hm Hmult) as (r & Hr & Hval).
  eexists. exists r. split; [reflexivity|]. split; [assumption|].
  rewrite Hval. rewrite energyGained_after_minutes by lia.
  assert (Hcap : Qmax 0 m == m) by (apply Q.max_r; lra).
  rewrite Hcap.
  assert (Hsame : Qfloor (inject_Z (24 * 60) * EnergyManager.baseRegenerationRate
                          * (if zone then mult * EnergyManager.recoveryZoneMultiplier else mult))
                  = Qfloor (inject_Z 1440
                            * (if zone then mult * EnergyManager.recoveryZoneMultiplier
                               else mult))).
  { apply Qfloor_comp. unfold EnergyManager.baseRegenerationRate.
    change (inject_Z (24 * 60)) with (inject_Z 1440). ring. }
  rewrite Hsame. apply Q.min_compat; [ring | reflexivity].
Qed.

Lemma dailyIncome_is_one_day_of_regen_witness :
  exists income r,
    EnergyManagerExt.getDailyEnergyIncome 1 true = Done income
    /\ EnergyManager.calculateRegeneratedEnergy 0 5000 0 1 true (0 + 1440 * 60000) = Ok r
    /\ r == Qmin (inject_Z income) 5000.
Proof.
  assert (Hm : 0 < 5000) by lra.
  assert (Hmult : 0 <= 1) by lra.
  exact (dailyIncome_is_one_day_of_regen 5000 0 1 true Hm Hmult).
Defined.

(** ** Energy operations of UserService *)

Lemma find_map_other (id other : string) (f : User -> User) (l : list User) :
  String.eqb other id = false ->
  (forall u, user_id (f u) = user_id u) ->
  find (fun x => String.eqb (user_id x) other)
       (map (fun x => if String.eqb (user_id x) id then f x else x) l)
  = find (fun x => String.eqb (user_id x) other) l.
Proof.
  intros Hne Hid. induction l as [|x l IH]; simpl; [reflexivity|].
  destruct (String.eqb (user_id x) id) eqn:Ex.
  - rewrite Hid. apply String.eqb_eq in Ex. rewrite Ex.
    rewrite String.eqb_sym, Hne. assumption.
  - destruct (String.eqb (user_id x) other); [reflexivity | assumption].
Qed.

(** A write to one user row leaves every other row and table alone. *)
Lemma user_update_frame (db : Db) (id other : string) (data : User -> User) (now : Z) :
  String.eqb other id = false ->
  (forall u, user_id (data u) = user_id u) ->
  UserService.getUserById (fst (UserService.user_update db id data now)) other
  = UserService.getUserById db other
  /\ milestoneRewards (fst (UserService.user_update db id data now)) = milestoneRewards db
  /\ xpMultiplierEvents (fst (UserService.user_update db id data now))
     = xpMultiplierEvents db.
Proof.
  intros Hne Hid. unfold UserService.user_update.
  destruct (UserService.getUserById db id); simpl; [|auto].
  split; [|auto]. unfold UserService.getUserById. simpl.
  apply (find_map_other id other (fun x => UserService.set_updatedAt now (data x)));
    [assumption | intros x; simpl; apply Hid].
Qed.

(** X11. Energy operations on a well-formed user row keep it well formed:
    after a successful [consumeEnergy] or [regenerateEnergy] the stored
    energy is not negative and the maximum is unchanged; after
    [regenerateEnergy] the energy is moreover within the maximum, so the row
    is never in the overflow state. *)
Theorem energy_operations_keep_rows_well_formed
    (db : Db) (userId : string) (user : User) (amount : Q) (now : Z) :
  UserService.getUserById db userId = Some user ->
  0 <= user_currentEnergy user ->
  0 < user_maxEnergy user ->
  (forall db' user',
      UserService.consumeEnergy userId amount now db = (db', Ok user') ->
      UserService.getUserById db' userId = Some user'
      /\ 0 <= user_currentEnergy user'
      /\ user_maxEnergy user' = user_maxEnergy user)
  /\ (forall db' user',
        UserService.regenerateEnergy userId amount now db = (db', Ok user') ->
        UserService.getUserById db' userId = Some user'
        /\ 0 <= user_currentEnergy user'
        /\ user_currentEnergy user' <= user_maxEnergy user'
        /\ user_maxEnergy user' = user_maxEnergy user
        /\ EnergyManagerExt.isInOverflowState (user_currentEnergy user')
             (user_maxEnergy user') = Done false).
Proof.
  intros Hfind Hc Hm.
  destruct (user_reconcile_ok user now Hc Hm) as (r & Hr & Hle).
  split; intros db' user'.
  - unfold UserService.consumeEnergy.
    destruct (Qleb amount 0) eqn:Ea; [discriminate|]. rewrite Hfind, Hr.
    destruct (Qltb r amount) eqn:Elt; [discriminate|]. apply Qltb_false in Elt.
    destruct (user_update_found db userId (UserService.set_currentEnergy (r - amount))
                now user Hfind eq_refl) as (d & Hupd & Hget & _).
    rewrite Hupd. intros H. injection H as <- <-.
    split; [assumption|]. simpl. split; [lra | reflexivity].
  - unfold UserService.regenerateEnergy.
    destruct (Qltb amount 0) eqn:Ea; [discriminate|]. apply Qltb_false in Ea.
    rewrite Hfind, Hr.
    set (newEnergy := Qmin (r + amount) (user_maxEnergy user)).
    destruct (user_update_found db userId (UserService.set_currentEnergy newEnergy)
                now user Hfind eq_refl) as (d & Hupd & Hget & _).
    rewrite Hupd. intros H. injection H as <- <-.
    split; [assumption|]. simpl.
    assert (Hhigh : newEnergy <= user_maxEnergy user) by apply Q.le_min_r.
    assert (Hlow : 0 <= newEnergy) by (apply Q.min_glb; lra).
    split; [assumption|]. split; [assumption|]. split; [reflexivity|].
    unfold EnergyManagerExt.isInOverflowState.
    destruct (Qleb (user_maxEnergy user) 0) eqn:E0; [apply Qleb_true in E0; lra|].
    destruct (Qltb (user_maxEnergy user) newEnergy) eqn:E1;
      [apply Qltb_true in E1; lra | reflexivity].
Qed.

Lemma energy_operations_keep_rows_well_formed_witness :
  exists db' user',
    UserService.regenerateEnergy "u" 500 Examples.tenMinutes (Examples.dbOf Examples.rested)
      = (db', Ok user')
    /\ 0 <= user_currentEnergy user'
    /\ user_currentEnergy user' <= user_maxEnergy user'.
Proof.
  assert (Hc : 0 <= user_currentEnergy Examples.rested) by (simpl; lra).
  assert (Hm : 0 < user_maxEnergy Examples.rested) by (simpl; lra).
  destruct (energy_operations_keep_rows_well_formed (Examples.dbOf Examples.rested) "u"
              Examples.rested 500 Examples.tenMinutes eq_refl Hc Hm) as [_ Hregen].
  destruct (UserService.regenerateEnergy "u" 500 Examples.tenMinutes
              (Examples.dbOf Examples.rested)) as [db' r] eqn:Hrun.
  pose proof Hrun as Hvalue. vm_compute in Hvalue. injection Hvalue as <- <-.
  destruct (Hregen _ _ Hrun) as (_ & Hlow & Hhigh & _).
  eexists. eexists. split; [reflexivity|]. split; assumption.
Defined.

(** X12. Spending an amount and granting it back at the same instant
    returns the reconciled energy, cut to the maximum: the pair is the
    identity on energies within the maximum and discards any overflow. *)
Theorem consume_then_regenerate
    (db : Db) (userId : string) (user : User) (amount : Q) (now : Z) (reconciled : Q) :
  UserService.getUserById db userId = Some user ->
  EnergyManager.calculateRegeneratedEnergy
    (user_currentEnergy user) (user_maxEnergy user) (user_updatedAt user) 1 false now
  = Ok reconciled ->
  0 < amount -> amount <= reconciled ->
  exists db1 user1 db2 user2,
    UserService.consumeEnergy userId amount now db = (db1, Ok user1)
    /\ UserService.regenerateEnergy userId amount now db1 = (db2, Ok user2)
    /\ UserService.getUserById db2 userId = Some user2
    /\ user_currentEnergy user2 == Qmin reconciled (user_maxEnergy user).
Proof.
  intros Hfind Hr Hpos Hle.
  destruct (calculateRegeneratedEnergy_valid _ _ _ _ _ _ _ Hr) as (Hc & Hm & _).
  unfold UserService.consumeEnergy.
  destruct (Qleb amount 0) eqn:Ea; [apply Qleb_true in Ea; lra|].
  rewrite Hfind, Hr.
  destruct (Qltb reconciled amount) eqn:Elt; [apply Qltb_true in Elt; lra|].
  destruct (user_update_found db userId (UserService.set_currentEnergy (reconciled - amount))
              now user Hfind eq_refl) as (db1 & Hupd & Hget & _).
  set (user1 := UserService.set_updatedAt now
                  (UserService.set_currentEnergy (reconciled - amount) user)) in *.
  exists db1, user1. rewrite Hupd.
  assert (Hc1 : 0 <= user_currentEnergy user1) by (simpl; lra).
  assert (Hm1 : 0 < user_maxEnergy user1) by (simpl; assumption).
  assert (H1 : 0 <= 1) by lra.
  destruct (calculateRegeneratedEnergy_formula (user_currentEnergy user1)
              (user_maxEnergy user1) (user_updatedAt user1) 1 false now Hc1 Hm1 H1)
    as (r1 & Hr1 & Hval).
  unfold UserService.regenerateEnergy.
  destruct (Qltb amount 0) eqn:Eb; [apply Qltb_true in Eb; lra|].
  rewrite Hget, Hr1.
  set (newEnergy := Qmin (r1 + amount) (user_maxEnergy user1)).
  destruct (user_update_found db1 userId (UserService.set_currentEnergy newEnergy)
              now user1 Hget eq_refl) as (db2 & Hupd2 & Hget2 & _).
  exists db2, (UserService.set_updatedAt now (UserService.set_currentEnergy newEnergy user1)).
  split; [reflexivity|]. split; [assumption|]. split; [assumption|].
  simpl. subst newEnergy.
  assert (Hgain : energyGained (user_updatedAt user1) 1 false now = 0%Z)
    by (apply energyGained_skew; simpl; lia).
  rewrite Hgain in Hval. simpl in Hval. change (inject_Z 0) with 0 in Hval.
  assert (Hr1' : r1 == reconciled - amount).
  { rewrite Hval. rewrite Q.min_l; [ring|].
    apply Qle_trans with (reconciled - amount); [lra | apply Q.le_max_l]. }
  simpl. apply Q.min_compat; [rewrite Hr1'; ring | reflexivity].
Qed.

Lemma consume_then_regenerate_witness :
  exists db1 user1 db2 user2,
    UserService.consumeEnergy "u" 5 Examples.tenMinutes (Examples.dbOf Examples.rested)
      = (db1, Ok user1)
    /\ UserService.regenerateEnergy "u" 5 Examples.tenMinutes db1 = (db2, Ok user2)
    /\ UserService.getUserById db2 "u" = Some user2
    /\ user_currentEnergy user2 == Qmin 30 100.
Proof.
  assert (Hpos : 0 < 5) by lra.
  assert (Hle : 5 <= 30) by lra.
  exact (consume_then_regenerate (Examples.dbOf Examples.rested) "u" Examples.rested 5
           Examples.tenMinutes 30 eq_refl eq_refl Hpos Hle).
Defined.

(** ** The level curve *)

Lemma scaling_power_step (k : Z) :
  (0 <= k)%Z ->
  ExperienceCalculator.xpScalingFactor ^ (k + 1)
  == ExperienceCalculator.xpScalingFactor ^ k * (12 # 10).
Proof.
  intros Hk. rewrite Qpower_plus by (vm_compute; discriminate).
  rewrite Qpower_1_r. reflexivity.
Qed.

Lemma scaling_power_ge_1 (k : Z) :
  (0 <= k)%Z -> 1 <= ExperienceCalculator.xpScalingFactor ^ k.
Proof.
  intros Hk. apply Qpower_1_le; [vm_compute; discriminate | assumption].
Qed.

Lemma requiredXp_eq (level : Z) :
  (level < ExperienceCalculator.maxLevel)%Z ->
  ExperienceCalculator.getXpRequiredForNextLevel level
  = Fin (Qfloor (100 * ExperienceCalculator.xpScalingFactor ^ (level - 1))).
Proof.
  intros H. unfold ExperienceCalculator.getXpRequiredForNextLevel.
  assert (E : (ExperienceCalculator.maxLevel <=? level)%Z = false)
    by (apply Z.leb_gt; assumption).
  rewrite E. reflexivity.
Qed.

Lemma requiredXp_fin (level : Z) :
  (level < ExperienceCalculator.maxLevel)%Z ->
  ExperienceCalculator.getXpRequiredForNextLevel level = Fin (requiredXp level).
Proof.
  intros H. unfold requiredXp. rewrite (requiredXp_eq level H). reflexivity.
Qed.

Lemma requiredXp_step (level : Z) :
  (1 <= level)%Z -> (level + 1 < ExperienceCalculator.maxLevel)%Z ->
  (100 <= requiredXp level)%Z
  /\ (requiredXp level + 20 <= requiredXp (level + 1))%Z
  /\ (requiredXp (level + 1) <= 2 * requiredXp level)%Z.
Proof.
  intros Hlow Hhigh. unfold requiredXp.
  rewrite (requiredXp_eq level) by lia.
  rewrite (requiredXp_eq (level + 1)) by lia.
  replace (level + 1 - 1)%Z with (level - 1 + 1)%Z by lia.
  pose proof (scaling_power_step (level - 1) ltac:(lia)) as Hstep.
  pose proof (scaling_power_ge_1 (level - 1) ltac:(lia)) as Hge.
  set (p := ExperienceCalculator.xpScalingFactor ^ (level - 1)) in *.
  set (p' := ExperienceCalculator.xpScalingFactor ^ (level - 1 + 1)) in *.
  clearbody p p'.
  pose proof (Qfloor_le (100 * p)) as Hf1. pose proof (Qlt_floor (100 * p)) as Hf2.
  pose proof (Qfloor_le (100 * p')) as Hg1. pose proof (Qlt_floor (100 * p')) as Hg2.
  set (f := Qfloor (100 * p)) in *. set (g := Qfloor (100 * p')) in *.
  rewrite inject_Z_plus in Hf2, Hg2. change (inject_Z 1) with 1 in Hf2, Hg2.
  assert (H100 : (100 <= f)%Z).
  { subst f. apply (Z.le_trans _ (Qfloor 100)); [vm_compute; discriminate|].
    apply Qfloor_resp_le. lra. }
  split; [assumption|].
  assert (Hq100 : 100 <= inject_Z f)
    by (change 100 with (inject_Z 100); rewrite <- Zle_Qle; assumption).
  split.
  - assert (H : inject_Z (f + 20) < inject_Z (g + 1)).
    { rewrite !inject_Z_plus. change (inject_Z 20) with 20. change (inject_Z 1) with 1.
      clearbody f g. lra. }
    rewrite <- Zlt_Qlt in H. lia.
  - assert (H : inject_Z g <= inject_Z (2 * f)).
    { rewrite inject_Z_mult. change (inject_Z 2) with 2. clearbody f g. lra. }
    rewrite <- Zle_Qle in H. assumption.
Qed.

Lemma requiredXp_at_least_100 (level : Z) :
  (1 <= level < ExperienceCalculator.maxLevel)%Z -> (100 <= requiredXp level)%Z.
Proof.
  intros H. destruct (getXpRequiredForNextLevel_finite level H) as (r & Hr & Hle).
  unfold requiredXp. rewrite Hr. assumption.
Qed.

(** X13. Below the level cap the requirement of a level is finite, at least
    100, and from one level to the next it grows by at least 20 points and
    at most doubles; from the cap on it is [Infinity]. *)
Theorem required_xp_growth (level : Z) :
  ((1 <= level)%Z -> (level + 1 < ExperienceCalculator.maxLevel)%Z ->
   exists r r',
     ExperienceCalculator.getXpRequiredForNextLevel level = Fin r
     /\ ExperienceCalculator.getXpRequiredForNextLevel (level + 1) = Fin r'
     /\ (100 <= r)%Z /\ (r + 20 <= r')%Z /\ (r' <= 2 * r)%Z)
  /\ ((ExperienceCalculator.maxLevel <= level)%Z ->
      ExperienceCalculator.getXpRequiredForNextLevel level = Infinity).
Proof.
  split.
  - intros Hlow Hhigh.
    exists (requiredXp level), (requiredXp (level + 1)).
    split; [apply requiredXp_fin; lia|]. split; [apply requiredXp_fin; lia|].
    apply requiredXp_step; assumption.
  - intros H. unfold ExperienceCalculator.getXpRequiredForNextLevel.
    assert (E : (ExperienceCalculator.maxLevel <=? level)%Z = true)
      by (apply Z.leb_le; assumption).
    rewrite E. reflexivity.
Qed.

Lemma required_xp_growth_witness :
  exists r r',
    ExperienceCalculator.getXpRequiredForNextLevel 1 = Fin r
    /\ ExperienceCalculator.getXpRequiredForNextLevel 2 = Fin r'
    /\ (r + 20 <= r')%Z.
Proof.
  destruct (required_xp_growth 1) as [H _].
  assert (H1 : (1 <= 1)%Z) by lia.
  assert (H2 : (1 + 1 < ExperienceCalculator.maxLevel)%Z) by (vm_compute; reflexivity).
  destruct (H H1 H2) as (r & r' & Hr & Hr' & _ & Hgrow & _).
  exists r, r'. auto.
Defined.

Lemma getXpForLevel_loop_snoc (n : nat) :
  forall i acc,
    ExperienceCalculator.getXpForLevel_loop (S n) i acc
    = xadd (ExperienceCalculator.getXpForLevel_loop n i acc)
           (ExperienceCalculator.getXpRequiredForNextLevel (i + Z.of_nat n)).
Proof.
  induction n as [|n IH]; intros i acc.
  - simpl. rewrite Z.add_0_r. reflexivity.
  - change (ExperienceCalculator.getXpForLevel_loop (S (S n)) i acc)
      with (ExperienceCalculator.getXpForLevel_loop (S n) (i + 1)
              (xadd acc (ExperienceCalculator.getXpRequiredForNextLevel i))).
    rewrite IH.
    replace (i + 1 + Z.of_nat n)%Z with (i + Z.of_nat (S n))%Z by lia.
    reflexivity.
Qed.

Lemma getXpForLevel_unclamped (level : Z) :
  (1 <= level <= ExperienceCalculator.maxLevel)%Z ->
  ExperienceCalculator.getXpForLevel level
  = ExperienceCalculator.getXpForLevel_loop (Z.to_nat (level - 1)) 1 (Fin 0).
Proof.
  intros [Hlow Hhigh]. unfold ExperienceCalculator.getXpForLevel.
  destruct (level <=? 1)%Z eqn:E1.
  - apply Z.leb_le in E1. replace level with 1%Z by lia. reflexivity.
  - assert (E2 : (ExperienceCalculator.maxLevel <? level)%Z = false)
      by (apply Z.ltb_ge; assumption).
    rewrite E2. reflexivity.
Qed.

Lemma getXpForLevel_succ (level : Z) :
  (1 <= level < ExperienceCalculator.maxLevel)%Z ->
  ExperienceCalculator.getXpForLevel (level + 1)
  = xadd (ExperienceCalculator.getXpForLevel level)
         (ExperienceCalculator.getXpRequiredForNextLevel level).
Proof.
  intros [Hlow Hhigh].
  rewrite (getXpForLevel_unclamped (level + 1)) by lia.
  rewrite (getXpForLevel_unclamped level) by lia.
  replace (Z.to_nat (level + 1 - 1)) with (S (Z.to_nat (level - 1))) by lia.
  rewrite getXpForLevel_loop_snoc.
  replace (1 + Z.of_nat (Z.to_nat (level - 1)))%Z with level by lia.
  reflexivity.
Qed.

Lemma getXpForLevel_fin_nat (n : nat) :
  (1 + Z.of_nat n <= ExperienceCalculator.maxLevel)%Z ->
  ExperienceCalculator.getXpForLevel (1 + Z.of_nat n)
  = Fin (cumulativeXp (1 + Z.of_nat n)).
Proof.
  induction n as [|n IH]; intros Hcap.
  - reflexivity.
  - replace (1 + Z.of_nat (S n))%Z with (1 + Z.of_nat n + 1)%Z in * by lia.
    unfold cumulativeXp.
    rewrite getXpForLevel_succ by lia.
    rewrite IH by lia. rewrite requiredXp_fin by lia. reflexivity.
Qed.

Lemma getXpForLevel_fin (level : Z) :
  ExperienceCalculator.getXpForLevel level = Fin (cumulativeXp level).
Proof.
  destruct (Z_le_gt_dec level 1) as [Hlow | Hlow].
  - unfold cumulativeXp, ExperienceCalculator.getXpForLevel.
    assert (E : (level <=? 1)%Z = true) by (apply Z.leb_le; assumption).
    rewrite E. reflexivity.
  - destruct (Z_le_gt_dec level ExperienceCalculator.maxLevel) as [Hhigh | Hhigh].
    + replace level with (1 + Z.of_nat (Z.to_nat (level - 1)))%Z by lia.
      apply getXpForLevel_fin_nat. lia.
    + assert (Hclamp : ExperienceCalculator.getXpForLevel level
                       = ExperienceCalculator.getXpForLevel ExperienceCalculator.maxLevel).
      { unfold ExperienceCalculator.getXpForLevel.
        assert (E1 : (level <=? 1)%Z = false) by (apply Z.leb_gt; lia).
        assert (E2 : (ExperienceCalculator.maxLevel <? level)%Z = true)
          by (apply Z.ltb_lt; lia).
        rewrite E1, E2. reflexivity. }
      unfold cumulativeXp. rewrite Hclamp.
      pose proof (getXpForLevel_fin_nat 99 ltac:(vm_compute; discriminate)) as H.
      change (1 + Z.of_nat 99)%Z with ExperienceCalculator.maxLevel in H.
      rewrite H. reflexivity.
Qed.

Lemma cumulativeXp_succ (level : Z) :
  (1 <= level < ExperienceCalculator.maxLevel)%Z ->
  cumulativeXp (level + 1) = (cumulativeXp level + requiredXp level)%Z.
Proof.
  intros H. unfold cumulativeXp at 1.
  rewrite getXpForLevel_succ by assumption.
  rewrite getXpForLevel_fin, requiredXp_fin by lia. reflexivity.
Qed.

Lemma cumulativeXp_strict_nat (n : nat) :
  forall a,
    (1 <= a)%Z -> (a + Z.of_nat (S n) <= ExperienceCalculator.maxLevel)%Z ->
    (cumulativeXp a < cumulativeXp (a + Z.of_nat (S n)))%Z.
Proof.
  induction n as [|n IH]; intros a Ha Hcap.
  - change (Z.of_nat 1) with 1%Z in *. rewrite cumulativeXp_succ by lia.
    pose proof (requiredXp_at_least_100 a ltac:(lia)). lia.
  - replace (a + Z.of_nat (S (S n)))%Z with (a + Z.of_nat (S n) + 1)%Z in * by lia.
    rewrite cumulativeXp_succ by lia.
    specialize (IH a Ha ltac:(lia)).
    pose proof (requiredXp_at_least_100 (a + Z.of_nat (S n)) ltac:(lia)). lia.
Qed.

Lemma cumulativeXp_strict (a b : Z) :
  (1 <= a)%Z -> (a < b)%Z -> (b <= ExperienceCalculator.maxLevel)%Z ->
  (cumulativeXp a < cumulativeXp b)%Z.
Proof.
  intros Ha Hab Hb.
  replace b with (a + Z.of_nat (S (Z.to_nat (b - a - 1))))%Z by lia.
  apply cumulativeXp_strict_nat; lia.
Qed.

(** X14. The cumulative requirement [getXpForLevel] is never [Infinity]: it
    is 0 up to level 1, adds the requirement of each level below the cap,
    is strictly increasing up to the cap and constant above it. *)
Theorem cumulative_xp_curve (level : Z) :
  (exists x, ExperienceCalculator.getXpForLevel level = Fin x)
  /\ ((level <= 1)%Z -> ExperienceCalculator.getXpForLevel level = Fin 0)
  /\ ((1 <= level < ExperienceCalculator.maxLevel)%Z ->
      exists x r,
        ExperienceCalculator.getXpForLevel level = Fin x
        /\ ExperienceCalculator.getXpRequiredForNextLevel level = Fin r
        /\ ExperienceCalculator.getXpForLevel (level + 1) = Fin (x + r)
        /\ (x < x + r)%Z)
  /\ ((ExperienceCalculator.maxLevel <= level)%Z ->
      ExperienceCalculator.getXpForLevel level
      = ExperienceCalculator.getXpForLevel ExperienceCalculator.maxLevel).
Proof.
  split; [exists (cumulativeXp level); apply getXpForLevel_fin|].
  split.
  - intros H. unfold ExperienceCalculator.getXpForLevel.
    assert (E : (level <=? 1)%Z = true) by (apply Z.leb_le; assumption).
    rewrite E. reflexivity.
  - split.
    + intros H. exists (cumulativeXp level), (requiredXp level).
      split; [apply getXpForLevel_fin|]. split; [apply requiredXp_fin; lia|].
      split.
      * rewrite getXpForLevel_fin, cumulativeXp_succ by assumption. reflexivity.
      * pose proof (requiredXp_at_least_100 level H). lia.
    + intros H. rewrite !getXpForLevel_fin. f_equal.
      destruct (Z.eq_dec level ExperienceCalculator.maxLevel) as [-> | Hne];
        [reflexivity|].
      unfold cumulativeXp, ExperienceCalculator.getXpForLevel.
      assert (E1 : (level <=? 1)%Z = false)
        by (apply Z.leb_gt; unfold ExperienceCalculator.maxLevel in *; lia).
      assert (E2 : (ExperienceCalculator.maxLevel <? level)%Z = true)
        by (apply Z.ltb_lt; lia).
      rewrite E1, E2. reflexivity.
Qed.

(** [getXpForLevel(3) = 220 = getXpForLevel(2) + 120]. *)
Lemma cumulative_xp_curve_witness :
  exists x r,
    ExperienceCalculator.getXpForLevel 2 = Fin x
    /\ ExperienceCalculator.getXpRequiredForNextLevel 2 = Fin r
    /\ ExperienceCalculator.getXpForLevel (2 + 1) = Fin (x + r)
    /\ ExperienceCalculator.getXpForLevel (2 + 1) = Fin 220.
Proof.
  destruct (cumulative_xp_curve 2) as (_ & _ & H & _).
  assert (Hrange : (1 <= 2 < ExperienceCalculator.maxLevel)%Z)
    by (split; vm_compute; [discriminate | reflexivity]).
  destruct (H Hrange) as (x & r & Hx & Hr & Hnext & _).
  exists x, r. repeat split; assumption || reflexivity.
Defined.

Lemma getLevelFromXp_loop_spec (fuel : nat) :
  forall xp level total,
    (1 <= level <= ExperienceCalculator.maxLevel)%Z ->
    (ExperienceCalculator.maxLevel - level <= Z.of_nat fuel)%Z ->
    ((level < ExperienceCalculator.maxLevel)%Z -> total = Fin (cumulativeXp (level + 1))) ->
    (cumulativeXp level <= xp)%Z ->
    (level <= ExperienceCalculator.getLevelFromXp_loop fuel xp level total
     <= ExperienceCalculator.maxLevel)%Z
    /\ (cumulativeXp (ExperienceCalculator.getLevelFromXp_loop fuel xp level total) <= xp)%Z
    /\ ((ExperienceCalculator.getLevelFromXp_loop fuel xp level total
         < ExperienceCalculator.maxLevel)%Z ->
        (xp < cumulativeXp
                (ExperienceCalculator.getLevelFromXp_loop fuel xp level total + 1))%Z).
Proof.
  induction fuel as [|fuel IH]; intros xp level total Hlevel Hfuel Htotal Hcum.
  - simpl. simpl Z.of_nat in Hfuel. repeat split; try lia; assumption.
  - rewrite getLevelFromXp_loop_step.
    destruct (level <? ExperienceCalculator.maxLevel)%Z eqn:Hcap.
    + apply Z.ltb_lt in Hcap. rewrite (Htotal Hcap). cbn [xgeb].
      destruct (cumulativeXp (level + 1) <=? xp)%Z eqn:Hge; cbn [andb].
      * apply Z.leb_le in Hge.
        assert (Htotal' :
                  (level + 1 < ExperienceCalculator.maxLevel)%Z ->
                  xadd (Fin (cumulativeXp (level + 1)))
                       (ExperienceCalculator.getXpRequiredForNextLevel (level + 1)%Z)
                  = Fin (cumulativeXp (level + 1 + 1))).
        { intros Hnext. rewrite requiredXp_fin by assumption. cbn [xadd].
          rewrite (cumulativeXp_succ (level + 1)) by lia. reflexivity. }
        destruct (IH xp (level + 1)%Z _ ltac:(lia) ltac:(lia) Htotal' Hge)
          as (Hr & Hc & Hn).
        repeat split; try lia; assumption.
      * apply Z.leb_gt in Hge. repeat split; try lia; assumption.
    + rewrite andb_false_r. apply Z.ltb_ge in Hcap.
      repeat split; try lia; assumption.
Qed.

(** The level [getLevelFromXp] assigns to a non-negative total. *)
Lemma getLevelFromXp_spec (xp : Z) :
  (0 <= xp)%Z ->
  (1 <= ExperienceCalculator.getLevelFromXp xp <= ExperienceCalculator.maxLevel)%Z
  /\ (cumulativeXp (ExperienceCalculator.getLevelFromXp xp) <= xp)%Z
  /\ ((ExperienceCalculator.getLevelFromXp xp < ExperienceCalculator.maxLevel)%Z ->
      (xp < cumulativeXp (ExperienceCalculator.getLevelFromXp xp + 1))%Z).
Proof.
  intros Hxp. unfold ExperienceCalculator.getLevelFromXp.
  destruct (xp <=? 0)%Z eqn:E.
  - apply Z.leb_le in E. assert (xp = 0%Z) by lia. subst xp.
    repeat split; vm_compute; congruence.
  - apply Z.leb_gt in E.
    apply getLevelFromXp_loop_spec.
    + split; vm_compute; discriminate.
    + vm_compute. discriminate.
    + intros _. reflexivity.
    + change (cumulativeXp 1) with 0%Z. lia.
Qed.

(** A level whose cumulative requirement is met is at most the level
    [getLevelFromXp] answers. *)
Lemma getLevelFromXp_largest (xp level : Z) :
  (0 <= xp)%Z ->
  (1 <= level <= ExperienceCalculator.maxLevel)%Z ->
  (cumulativeXp level <= xp)%Z ->
  (level <= ExperienceCalculator.getLevelFromXp xp)%Z.
Proof.
  intros Hxp Hlevel Hcum.
  destruct (getLevelFromXp_spec xp Hxp) as (Hrange & _ & Hnext).
  destruct (Z_le_gt_dec level (ExperienceCalculator.getLevelFromXp xp)) as [|Hgt];
    [assumption|].
  assert (Hbelow : (ExperienceCalculator.getLevelFromXp xp < ExperienceCalculator.maxLevel)%Z)
    by lia.
  specialize (Hnext Hbelow).
  destruct (Z.eq_dec level (ExperienceCalculator.getLevelFromXp xp + 1)) as [Heq | Hne].
  - rewrite Heq in Hcum. lia.
  - pose proof (cumulativeXp_strict (ExperienceCalculator.getLevelFromXp xp + 1) level
                  ltac:(lia) ltac:(lia) ltac:(lia)).
    lia.
Qed.

(** X15. For a non-negative total, [getLevelFromXp] answers the largest
    level between 1 and the cap whose cumulative requirement is met: the
    total lies between the cumulative requirement of that level and, below
    the cap, that of the next one. *)
Theorem level_from_xp_is_largest (xp : Z) :
  (0 <= xp)%Z ->
  exists level start,
    ExperienceCalculator.getLevelFromXp xp = level
    /\ (1 <= level <= ExperienceCalculator.maxLevel)%Z
    /\ ExperienceCalculator.getXpForLevel level = Fin start
    /\ (start <= xp)%Z
    /\ ((level < ExperienceCalculator.maxLevel)%Z ->
        exists next,
          ExperienceCalculator.getXpForLevel (level + 1) = Fin next /\ (xp < next)%Z)
    /\ (forall other start',
          (1 <= other <= ExperienceCalculator.maxLevel)%Z ->
          ExperienceCalculator.getXpForLevel other = Fin start' ->
          (start' <= xp)%Z ->
          (other <= level)%Z).
Proof.
  intros Hxp.
  destruct (getLevelFromXp_spec xp Hxp) as (Hrange & Hcum & Hnext).
  exists (ExperienceCalculator.getLevelFromXp xp),
         (cumulativeXp (ExperienceCalculator.getLevelFromXp xp)).
  split; [reflexivity|]. split; [assumption|].
  split; [apply getXpForLevel_fin|]. split; [assumption|]. split.
  - intros Hbelow. eexists. split; [apply getXpForLevel_fin | auto].
  - intros other start' Hother Hstart Hle.
    rewrite getXpForLevel_fin in Hstart. injection Hstart as <-.
    apply getLevelFromXp_largest; assumption.
Qed.

(** The example of the specification: 250 points are level 3, between 220
    and 364. *)
Lemma level_from_xp_is_largest_witness :
  exists level start,
    ExperienceCalculator.getLevelFromXp 250 = level
    /\ level = 3%Z
    /\ ExperienceCalculator.getXpForLevel level = Fin start
    /\ (start <= 250)%Z.
Proof.
  assert (Hxp : (0 <= 250)%Z) by lia.
  destruct (level_from_xp_is_largest 250 Hxp) as (level & start & Hl & _ & Hs & Hle & _).
  exists level, start. repeat split; try assumption.
  rewrite <- Hl. reflexivity.
Defined.

Lemma cumulativeXp_nonneg (level : Z) :
  (1 <= level <= ExperienceCalculator.maxLevel)%Z -> (0 <= cumulativeXp level)%Z.
Proof.
  intros [Hlow Hhigh].
  destruct (Z.eq_dec level 1) as [-> | Hne]; [vm_compute; discriminate|].
  pose proof (cumulativeXp_strict 1 level ltac:(lia) ltac:(lia) Hhigh) as H.
  change (cumulativeXp 1) with 0%Z in H. lia.
Qed.

Lemma getLevelFromXp_nonpositive (x : Z) :
  (x <= 0)%Z -> ExperienceCalculator.getLevelFromXp x = 1%Z.
Proof.
  intros Hx. unfold ExperienceCalculator.getLevelFromXp.
  assert (E : (x <=? 0)%Z = true) by (apply Z.leb_le; assumption).
  rewrite E. reflexivity.
Qed.

Lemma getLevelFromXp_cumulative (level : Z) :
  (1 <= level <= ExperienceCalculator.maxLevel)%Z ->
  ExperienceCalculator.getLevelFromXp (cumulativeXp level) = level.
Proof.
  intros Hlevel.
  pose proof (cumulativeXp_nonneg level Hlevel) as Hxp.
  destruct (getLevelFromXp_spec _ Hxp) as (Hrange & Hcum & Hnext).
  pose proof (getLevelFromXp_largest _ level Hxp Hlevel (Z.le_refl _)) as Hle.
  destruct (Z.eq_dec (ExperienceCalculator.getLevelFromXp (cumulativeXp level)) level)
    as [|Hne]; [assumption|].
  pose proof (cumulativeXp_strict level
                (ExperienceCalculator.getLevelFromXp (cumulativeXp level))
                ltac:(lia) ltac:(lia) ltac:(lia)).
  lia.
Qed.

Lemma getLevelFromXp_monotone (x y : Z) :
  (x <= y)%Z ->
  (ExperienceCalculator.getLevelFromXp x <= ExperienceCalculator.getLevelFromXp y)%Z.
Proof.
  intros Hxy.
  destruct (Z_le_gt_dec x 0) as [Hx | Hx].
  - rewrite (getLevelFromXp_nonpositive x Hx).
    pose proof (getLevelFromXp_range y). lia.
  - destruct (getLevelFromXp_spec x ltac:(lia)) as (Hrange & Hcum & _).
    apply getLevelFromXp_largest; lia.
Qed.

(** X16. [getLevelFromXp] inverts [getXpForLevel] on the levels 1 to the
    cap, it is monotone, and any total at or below 0 is level 1. *)
Theorem level_curve_round_trip :
  (forall level start,
      (1 <= level <= ExperienceCalculator.maxLevel)%Z ->
      ExperienceCalculator.getXpForLevel level = Fin start ->
      ExperienceCalculator.getLevelFromXp start = level)
  /\ (forall x y,
        (x <= y)%Z ->
        (ExperienceCalculator.getLevelFromXp x <= ExperienceCalculator.getLevelFromXp y)%Z)
  /\ (forall x, (x <= 0)%Z -> ExperienceCalculator.getLevelFromXp x = 1%Z).
Proof.
  split; [|split].
  - intros level start Hlevel Hstart.
    rewrite getXpForLevel_fin in Hstart. injection Hstart as <-.
    apply getLevelFromXp_cumulative. assumption.
  - apply getLevelFromXp_monotone.
  - apply getLevelFromXp_nonpositive.
Qed.

Lemma level_curve_round_trip_witness :
  ExperienceCalculator.getXpForLevel 50 = Fin (cumulativeXp 50)
  /\ ExperienceCalculator.getLevelFromXp (cumulativeXp 50) = 50%Z.
Proof.
  destruct level_curve_round_trip as (Hinv & _ & _).
  assert (Hrange : (1 <= 50 <= ExperienceCalculator.maxLevel)%Z)
    by (split; vm_compute; discriminate).
  split; [reflexivity|].
  exact (Hinv 50%Z (cumulativeXp 50) Hrange eq_refl).
Defined.

(** X17. Below the cap, [getXpRemainingForNextLevel] is positive, at most
    the requirement of the current level, and exactly the number of points
    that moves [getLevelFromXp] to the next level: any smaller gain keeps
    the level.  At the cap it is 0. *)
Theorem remaining_xp_reaches_next_level (xp : Z) :
  (0 <= xp)%Z ->
  ((ExperienceCalculator.getLevelFromXp xp < ExperienceCalculator.maxLevel)%Z ->
   exists remaining required,
     ExperienceCalculatorExt.getXpRemainingForNextLevel xp = Fin remaining
     /\ ExperienceCalculator.getXpRequiredForNextLevel
          (ExperienceCalculator.getLevelFromXp xp) = Fin required
     /\ (0 < remaining <= required)%Z
     /\ ExperienceCalculator.getLevelFromXp (xp + remaining)
        = (ExperienceCalculator.getLevelFromXp xp + 1)%Z
     /\ (forall less, (0 <= less < remaining)%Z ->
           ExperienceCalculator.getLevelFromXp (xp + less)
           = ExperienceCalculator.getLevelFromXp xp))
  /\ ((ExperienceCalculator.getLevelFromXp xp = ExperienceCalculator.maxLevel)%Z ->
      ExperienceCalculatorExt.getXpRemainingForNextLevel xp = Fin 0).
Proof.
  intros Hxp.
  destruct (getLevelFromXp_spec xp Hxp) as (Hrange & Hcum & Hnext).
  unfold ExperienceCalculatorExt.getXpRemainingForNextLevel.
  set (L := ExperienceCalculator.getLevelFromXp xp) in *.
  split.
  - intros Hbelow. specialize (Hnext Hbelow).
    assert (E : (ExperienceCalculator.maxLevel <=? L)%Z = false)
      by (apply Z.leb_gt; assumption).
    rewrite E, getXpForLevel_fin.
    exists (cumulativeXp (L + 1) - xp)%Z, (requiredXp L).
    split; [reflexivity|]. split; [apply requiredXp_fin; assumption|].
    pose proof (cumulativeXp_succ L ltac:(lia)) as Hsucc.
    split; [lia|]. split.
    + replace (xp + (cumulativeXp (L + 1) - xp))%Z with (cumulativeXp (L + 1)) by lia.
      apply getLevelFromXp_cumulative. lia.
    + intros less Hless.
      pose proof (getLevelFromXp_monotone xp (xp + less) ltac:(lia)) as Hmono.
      fold L in Hmono.
      destruct (getLevelFromXp_spec (xp + less) ltac:(lia)) as (Hr' & Hc' & _).
      set (L' := ExperienceCalculator.getLevelFromXp (xp + less)) in *.
      destruct (Z.eq_dec L' L) as [|Hne]; [assumption|].
      destruct (Z.eq_dec L' (L + 1)) as [Heq | Hne'].
      * rewrite Heq in Hc'. lia.
      * pose proof (cumulativeXp_strict (L + 1) L' ltac:(lia) ltac:(lia) ltac:(lia)).
        lia.
  - intros Hcap.
    assert (E : (ExperienceCalculator.maxLevel <=? L)%Z = true)
      by (apply Z.leb_le; lia).
    rewrite E. reflexivity.
Qed.

(** At 250 points (level 3, next level at 364) 114 points remain. *)
Lemma remaining_xp_reaches_next_level_witness :
  exists remaining,
    ExperienceCalculatorExt.getXpRemainingForNextLevel 250 = Fin remaining
    /\ remaining = 114%Z
    /\ ExperienceCalculator.getLevelFromXp (250 + remaining) = 4%Z.
Proof.
  assert (Hxp : (0 <= 250)%Z) by lia.
  destruct (remaining_xp_reaches_next_level 250 Hxp) as [H _].
  assert (Hbelow : (ExperienceCalculator.getLevelFromXp 250
                    < ExperienceCalculator.maxLevel)%Z) by (vm_compute; reflexivity).
  destruct (H Hbelow) as (remaining & required & Hrem & _ & _ & Hnext & _).
  exists remaining. split; [assumption|].
  assert (Hval : remaining = 114%Z).
  { vm_compute in Hrem. injection Hrem as <-. reflexivity. }
  split; [assumption|]. rewrite Hnext. reflexivity.
Defined.

(** ** Experience grants *)

Lemma requiredXp_monotone_nat (n : nat) :
  forall a,
    (1 <= a)%Z -> (a + Z.of_nat n < ExperienceCalculator.maxLevel)%Z ->
    (requiredXp a <= requiredXp (a + Z.of_nat n))%Z.
Proof.
  induction n as [|n IH]; intros a Ha Hcap.
  - rewrite Z.add_0_r. lia.
  - replace (a + Z.of_nat (S n))%Z with (a + Z.of_nat n + 1)%Z in * by lia.
    specialize (IH a Ha ltac:(lia)).
    pose proof (requiredXp_step (a + Z.of_nat n) ltac:(lia) ltac:(lia)). lia.
Qed.

Lemma requiredXp_at_least_120 (level : Z) :
  (2 <= level < ExperienceCalculator.maxLevel)%Z -> (120 <= requiredXp level)%Z.
Proof.
  intros [Hlow Hhigh].
  pose proof (requiredXp_monotone_nat (Z.to_nat (level - 2)) 2 ltac:(lia)) as H.
  replace (2 + Z.of_nat (Z.to_nat (level - 2)))%Z with level in H by lia.
  specialize (H Hhigh). change (requiredXp 2) with 120%Z in H. assumption.
Qed.

Lemma cumulativeXp_covers_required_nat (n : nat) :
  (3 + Z.of_nat n < ExperienceCalculator.maxLevel)%Z ->
  (requiredXp (3 + Z.of_nat n) <= cumulativeXp (3 + Z.of_nat n))%Z.
Proof.
  induction n as [|n IH]; intros Hcap.
  - vm_compute. discriminate.
  - replace (3 + Z.of_nat (S n))%Z with (3 + Z.of_nat n + 1)%Z in * by lia.
    specialize (IH ltac:(lia)).
    rewrite cumulativeXp_succ by lia.
    pose proof (requiredXp_step (3 + Z.of_nat n) ltac:(lia) ltac:(lia)). lia.
Qed.

(** From level 3 on, the cumulative requirement of a level covers the
    requirement of the level itself. *)
Lemma cumulativeXp_covers_required (level : Z) :
  (3 <= level < ExperienceCalculator.maxLevel)%Z ->
  (requiredXp level <= cumulativeXp level)%Z.
Proof.
  intros [Hlow Hhigh].
  replace level with (3 + Z.of_nat (Z.to_nat (level - 3)))%Z by lia.
  apply cumulativeXp_covers_required_nat. lia.
Qed.

(** The requirement the loop of [addExperience] compares with. *)
Lemma nextLevelXp_eq (e : Z) :
  ExperienceCalculator.nextLevelXp (ExperienceCalculator.getRemainingXp e)
  = ExperienceCalculator.getXpRequiredForNextLevel (ExperienceCalculator.getLevelFromXp e).
Proof. reflexivity. Qed.

(** Whenever the loop levels up, it removes at least 120 points. *)
Lemma level_up_costs_120 (e required : Z) :
  ExperienceCalculator.nextLevelXp (ExperienceCalculator.getRemainingXp e) = Fin required ->
  (required <= e)%Z ->
  (120 <= required)%Z.
Proof.
  rewrite nextLevelXp_eq. intros Hnext Hle.
  pose proof (getLevelFromXp_range e) as Hrange.
  destruct (Z.eq_dec (ExperienceCalculator.getLevelFromXp e) ExperienceCalculator.maxLevel)
    as [Hcap | Hcap].
  - rewrite Hcap in Hnext. discriminate.
  - rewrite requiredXp_fin in Hnext by lia. injection Hnext as <-.
    pose proof (requiredXp_at_least_100 (ExperienceCalculator.getLevelFromXp e) ltac:(lia)).
    assert (H2 : (2 <= ExperienceCalculator.getLevelFromXp e)%Z).
    { apply getLevelFromXp_largest; [lia | split; vm_compute; discriminate |].
      change (cumulativeXp 2) with 100%Z. lia. }
    apply requiredXp_at_least_120. lia.
Qed.

Lemma levelUpLoop_accounting (fuel : nat) :
  forall e l b e' l' b',
    UserService.levelUpLoop fuel e l b = (e', l', b') ->
    (l <= l')%Z
    /\ (120 * (l' - l) <= e - e')%Z
    /\ ((0 <= e)%Z -> (0 <= e')%Z)
    /\ b' = (b || (l <? l')%Z)%bool.
Proof.
  induction fuel as [|fuel IH]; intros e l b e' l' b' H.
  - simpl in H. injection H as <- <- <-.
    rewrite Z.ltb_irrefl, orb_false_r. repeat split; lia.
  - rewrite levelUpLoop_step in H. cbv zeta in H.
    destruct (ExperienceCalculator.nextLevelXp (ExperienceCalculator.getRemainingXp e))
      as [required|] eqn:Hnext.
    + cbn [xgeb] in H. destruct (required <=? e)%Z eqn:Hge.
      * apply Z.leb_le in Hge.
        pose proof (level_up_costs_120 e required Hnext Hge) as Hcost.
        destruct (IH _ _ _ _ _ _ H) as (Hl & Hc & Hpos & Hb).
        split; [lia|]. split; [lia|]. split; [intros; apply Hpos; lia|].
        rewrite Hb. simpl.
        assert (E : (l <? l')%Z = true) by (apply Z.ltb_lt; lia).
        rewrite E, orb_true_r. reflexivity.
      * injection H as <- <- <-.
        rewrite Z.ltb_irrefl, orb_false_r. repeat split; lia.
    + cbn [xgeb] in H. injection H as <- <- <-.
      rewrite Z.ltb_irrefl, orb_false_r. repeat split; lia.
Qed.

Lemma levelUpLoop_exit (fuel : nat) :
  forall e l b e' l' b',
    (e <= Z.of_nat fuel)%Z ->
    UserService.levelUpLoop fuel e l b = (e', l', b') ->
    xgeb e' (ExperienceCalculator.nextLevelXp (ExperienceCalculator.getRemainingXp e'))
    = false.
Proof.
  induction fuel as [|fuel IH]; intros e l b e' l' b' Hfuel H.
  - simpl in H. injection H as <- <- <-. simpl Z.of_nat in Hfuel.
    destruct (nextLevelXp_cases e) as [-> | (required & -> & Hreq)]; [reflexivity|].
    cbn [xgeb]. apply Z.leb_gt. lia.
  - rewrite levelUpLoop_step in H. cbv zeta in H.
    destruct (nextLevelXp_cases e) as [Hinf | (required & Hfin & Hreq)].
    + rewrite Hinf in H. cbn [xgeb] in H. injection H as <- <- <-.
      rewrite Hinf. reflexivity.
    + rewrite Hfin in H. cbn [xgeb] in H.
      destruct (required <=? e)%Z eqn:Hge.
      * apply Z.leb_le in Hge. eapply IH; [|exact H]. lia.
      * injection H as <- <- <-. rewrite Hfin. cbn [xgeb]. assumption.
Qed.

(** Where the loop stops: below 120 points, or at a total that
    [getLevelFromXp] reads as the level cap. *)
Lemma loop_exit_residual (e : Z) :
  xgeb e (ExperienceCalculator.nextLevelXp (ExperienceCalculator.getRemainingXp e))
  = false ->
  (e < 120)%Z \/ (cumulativeXp ExperienceCalculator.maxLevel <= e)%Z.
Proof.
  rewrite nextLevelXp_eq. intros Hexit.
  destruct (Z_lt_le_dec e 0) as [Hneg | Hpos]; [left; lia|].
  destruct (getLevelFromXp_spec e Hpos) as (Hrange & Hcum & _).
  set (L := ExperienceCalculator.getLevelFromXp e) in *.
  destruct (Z.eq_dec L ExperienceCalculator.maxLevel) as [Hcap | Hcap].
  - right. rewrite <- Hcap. assumption.
  - left. rewrite requiredXp_fin in Hexit by lia. cbn [xgeb] in Hexit.
    apply Z.leb_gt in Hexit.
    destruct (Z_lt_le_dec L 3) as [Hsmall | Hbig].
    + assert (HL : L = 1%Z \/ L = 2%Z) by lia.
      destruct HL as [HL | HL]; rewrite HL in Hexit.
      * change (requiredXp 1) with 100%Z in Hexit. lia.
      * change (requiredXp 2) with 120%Z in Hexit. lia.
    + pose proof (cumulativeXp_covers_required L ltac:(lia)). lia.
Qed.

Lemma milestoneReward_create_users (db : Db) (row : MilestoneRewardRow) :
  users (fst (UserService.milestoneReward_create db row)) = users db.
Proof.
  unfold UserService.milestoneReward_create.
  destruct (existsb _ (milestoneRewards db)); reflexivity.
Qed.

Lemma storeRewards_users (userId : string) (level : Z) (rewards : list MilestoneReward) :
  forall db, users (fst (UserService.storeRewards db userId level rewards)) = users db.
Proof.
  induction rewards as [|reward rest IH]; intros db; simpl; [reflexivity|].
  pose proof (milestoneReward_create_users db (UserService.rowOfReward userId level reward))
    as Hu.
  destruct (UserService.milestoneReward_create db _) as [d r]. simpl in Hu.
  destruct r; [rewrite IH|]; assumption.
Qed.

Lemma processMilestoneRewards_users (userId : string) (level : Z) (db : Db) :
  users (fst (UserService.processMilestoneRewards userId level db)) = users db.
Proof.
  unfold UserService.processMilestoneRewards.
  destruct (filter _ (milestoneRewards db)); [|reflexivity].
  pose proof (storeRewards_users userId level (UserService.milestones userId level) db) as Hu.
  destruct (UserService.storeRewards db userId level _) as [d r]. simpl in Hu.
  destruct r; assumption.
Qed.

(** What a successful [addExperience] computed, in terms of the loop. *)
Lemma addExperience_inversion
    (userId : string) (baseAmount : Q) (zoneId : option string) (now : Z)
    (db db' : Db) (user : User) (gain : UserService.ExperienceGainResult) :
  UserService.getUserById db userId = Some user ->
  UserService.addExperience userId baseAmount zoneId now db = (db', Ok gain) ->
  let actualXp :=
    Qceiling (baseAmount
              * UserService.totalMultiplier (UserService.getCurrentXpMultipliers db userId now)) in
  let start := (user_experience user + actualXp)%Z in
  UserService.gain_actualXp gain = actualXp
  /\ UserService.gain_oldLevel gain = user_level user
  /\ UserService.levelUpLoop (Z.to_nat start) start (user_level user) false
     = (user_experience (UserService.gain_user gain), UserService.gain_newLevel gain,
        UserService.gain_leveledUp gain)
  /\ user_level (UserService.gain_user gain) = UserService.gain_newLevel gain
  /\ user_totalLifetimeExperience (UserService.gain_user gain)
     = (user_totalLifetimeExperience user + actualXp)%Z
  /\ UserService.getUserById db' userId = Some (UserService.gain_user gain).
Proof.
  intros Hfind. unfold UserService.addExperience. rewrite Hfind. cbv zeta.
  destruct (UserService.levelUpLoop _ _ _ _) as [[newExperience newLevel] leveledUp] eqn:Hloop.
  set (data := UserService.set_progress _ _ _).
  destruct (user_update_found db userId data now user Hfind eq_refl)
    as (db1 & Hupd & Hget & _).
  rewrite Hupd.
  assert (Husers : forall d, users d = users db1 ->
                             UserService.getUserById d userId
                             = Some (UserService.set_updatedAt now (data user))).
  { intros d Hd. unfold UserService.getUserById in *. rewrite Hd. assumption. }
  destruct leveledUp.
  - pose proof (processMilestoneRewards_users userId newLevel db1) as Hu.
    destruct (UserService.processMilestoneRewards userId newLevel db1) as [db2 r].
    destruct r; [|discriminate]. intros H. injection H as <- <-. simpl in *.
    repeat split; auto.
  - intros H. injection H as <- <-. simpl. repeat split; auto.
Qed.

(** X18. A successful [addExperience] never lowers the level, reports
    [leveledUp] exactly when the level rose, adds exactly the granted points
    to the lifetime total, never produces negative experience from a
    non-negative one, and removes at least 120 points from the experience
    for every level it adds, whatever the level. *)
Theorem addExperience_accounting
    (userId : string) (baseAmount : Q) (zoneId : option string) (now : Z)
    (db db' : Db) (user : User) (gain : UserService.ExperienceGainResult) :
  UserService.getUserById db userId = Some user ->
  UserService.addExperience userId baseAmount zoneId now db = (db', Ok gain) ->
  UserService.getUserById db' userId = Some (UserService.gain_user gain)
  /\ UserService.gain_oldLevel gain = user_level user
  /\ user_level (UserService.gain_user gain) = UserService.gain_newLevel gain
  /\ (UserService.gain_oldLevel gain <= UserService.gain_newLevel gain)%Z
  /\ UserService.gain_leveledUp gain
     = (UserService.gain_oldLevel gain <? UserService.gain_newLevel gain)%Z
  /\ user_totalLifetimeExperience (UserService.gain_user gain)
     = (user_totalLifetimeExperience user + UserService.gain_actualXp gain)%Z
  /\ (120 * (UserService.gain_newLevel gain - UserService.gain_oldLevel gain)
      <= user_experience user + UserService.gain_actualXp gain
         - user_experience (UserService.gain_user gain))%Z
  /\ ((0 <= user_experience user + UserService.gain_actualXp gain)%Z ->
      (0 <= user_experience (UserService.gain_user gain))%Z).
Proof.
  intros Hfind Hrun.
  destruct (addExperience_inversion _ _ _ _ _ _ _ _ Hfind Hrun)
    as (Hxp & Hold & Hloop & Hlevel & Htotal & Hget).
  destruct (levelUpLoop_accounting _ _ _ _ _ _ _ Hloop) as (Hl & Hc & Hpos & Hb).
  rewrite Hxp, Hold. repeat split; try assumption.
Qed.

Lemma addExperience_accounting_witness :
  exists db' gain,
    UserService.addExperience "u" 300 None 0 (Examples.dbOf Examples.level4) = (db', Ok gain)
    /\ UserService.gain_newLevel gain = 6%Z
    /\ (120 * (UserService.gain_newLevel gain - UserService.gain_oldLevel gain)
        <= user_experience Examples.level4 + UserService.gain_actualXp gain
           - user_experience (UserService.gain_user gain))%Z.
Proof.
  destruct (UserService.addExperience "u" 300 None 0 (Examples.dbOf Examples.level4))
    as [db' r] eqn:Hrun.
  pose proof Hrun as Hvalue. vm_compute in Hvalue. injection Hvalue as <- <-.
  destruct (addExperience_accounting "u" 300 None 0 (Examples.dbOf Examples.level4) _
              Examples.level4 _ eq_refl Hrun)
    as (_ & _ & _ & _ & _ & _ & Hcost & _).
  eexists. eexists. split; [reflexivity|]. split; [reflexivity | exact Hcost].
Defined.

(** X19. After a successful [addExperience] the stored experience is below
    120 points, unless it is at least the cumulative requirement of the
    level cap: the loop keeps levelling up while 120 points or more are
    left, independently of the player's level. *)
Theorem addExperience_residual
    (userId : string) (baseAmount : Q) (zoneId : option string) (now : Z)
    (db db' : Db) (user : User) (gain : UserService.ExperienceGainResult) :
  UserService.getUserById db userId = Some user ->
  UserService.addExperience userId baseAmount zoneId now db = (db', Ok gain) ->
  exists cap,
    ExperienceCalculator.getXpForLevel ExperienceCalculator.maxLevel = Fin cap
    /\ ((user_experience (UserService.gain_user gain) < 120)%Z
        \/ (cap <= user_experience (UserService.gain_user gain))%Z).
Proof.
  intros Hfind Hrun.
  destruct (addExperience_inversion _ _ _ _ _ _ _ _ Hfind Hrun)
    as (_ & _ & Hloop & _).
  exists (cumulativeXp ExperienceCalculator.maxLevel).
  split; [apply getXpForLevel_fin|].
  apply loop_exit_residual.
  eapply levelUpLoop_exit; [|exact Hloop]. lia.
Qed.

Lemma addExperience_residual_witness :
  exists db' gain,
    UserService.addExperience "u" 100000 None 0 (Examples.dbOf Examples.level4)
      = (db', Ok gain)
    /\ (user_experience (UserService.gain_user gain) < 120)%Z.
Proof.
  destruct (UserService.addExperience "u" 100000 None 0 (Examples.dbOf Examples.level4))
    as [db' r] eqn:Hrun.
  pose proof Hrun as Hvalue. vm_compute in Hvalue. injection Hvalue as <- <-.
  destruct (addExperience_residual "u" 100000 None 0 (Examples.dbOf Examples.level4) _
              Examples.level4 _ eq_refl Hrun)
    as (cap & Hcap & Hres).
  eexists. eexists. split; [reflexivity|].
  destruct Hres as [Hlt | Hge]; [exact Hlt|].
  vm_compute in Hcap. injection Hcap as <-. vm_compute in Hge. contradiction Hge. reflexivity.
Defined.

(** ** What the operations leave alone *)

Lemma getUserById_users (d d' : Db) (id : string) :
  users d = users d' -> UserService.getUserById d id = UserService.getUserById d' id.
Proof. intros H. unfold UserService.getUserById. rewrite H. reflexivity. Qed.

(** X20. An operation on one player never changes the row of another
    player, and an operation on a player who does not exist writes nothing. *)
Theorem operations_touch_one_user
    (db : Db) (userId other : string) (amount baseAmount : Q)
    (zoneId : option string) (now : Z) :
  (String.eqb other userId = false ->
   UserService.getUserById (fst (UserService.consumeEnergy userId amount now db)) other
   = UserService.getUserById db other
   /\ UserService.getUserById (fst (UserService.regenerateEnergy userId amount now db)) other
      = UserService.getUserById db other
   /\ UserService.getUserById
        (fst (UserService.addExperience userId baseAmount zoneId now db)) other
      = UserService.getUserById db other
   /\ UserService.getUserById (fst (UserService.prestigeUser userId now db)) other
      = UserService.getUserById db other)
  /\ (UserService.getUserById db userId = None ->
      fst (UserService.consumeEnergy userId amount now db) = db
      /\ fst (UserService.regenerateEnergy userId amount now db) = db
      /\ UserService.addExperience userId baseAmount zoneId now db = (db, Err UserNotFound)
      /\ UserService.prestigeUser userId now db = (db, Err UserNotFound)).
Proof.
  split.
  - intros Hne.
    assert (Hframe : forall data,
               (forall u, user_id (data u) = user_id u) ->
               UserService.getUserById (fst (UserService.user_update db userId data now)) other
               = UserService.getUserById db other).
    { intros data Hid. apply (user_update_frame db userId other data now Hne Hid). }
    split; [|split; [|split]].
    + unfold UserService.consumeEnergy.
      destruct (Qleb amount 0); [reflexivity|].
      destruct (UserService.getUserById db userId) as [user|]; [|reflexivity].
      destruct (EnergyManager.calculateRegeneratedEnergy _ _ _ _ _ _) as [r|]; [|reflexivity].
      destruct (Qltb r amount); [reflexivity|].
      apply Hframe. reflexivity.
    + unfold UserService.regenerateEnergy.
      destruct (Qltb amount 0); [reflexivity|].
      destruct (UserService.getUserById db userId) as [user|]; [|reflexivity].
      destruct (EnergyManager.calculateRegeneratedEnergy _ _ _ _ _ _) as [r|]; [|reflexivity].
      apply Hframe. reflexivity.
    + unfold UserService.addExperience.
      destruct (UserService.getUserById db userId) as [user|]; [|reflexivity].
      destruct (UserService.levelUpLoop _ _ _ _) as [[newExperience newLevel] leveledUp].
      set (data := UserService.set_progress _ _ _).
      pose proof (Hframe data ltac:(reflexivity)) as Hf.
      destruct (UserService.user_update db userId data now) as [db1 r1].
      simpl in Hf. destruct r1; [|exact Hf].
      destruct leveledUp.
      * pose proof (processMilestoneRewards_users userId newLevel db1) as Hu.
        destruct (UserService.processMilestoneRewards userId newLevel db1) as [db2 r2].
        simpl in Hu.
        assert (Hsame : UserService.getUserById db2 other = UserService.getUserById db1 other)
          by (apply getUserById_users; assumption).
        destruct r2; simpl; rewrite Hsame; exact Hf.
      * exact Hf.
    + unfold UserService.prestigeUser.
      destruct (UserService.getUserById db userId) as [user|]; [|reflexivity].
      destruct (user_level user <? UserService.MIN_PRESTIGE_LEVEL)%Z; [reflexivity|].
      set (data := UserService.set_prestige _ _).
      pose proof (Hframe data ltac:(reflexivity)) as Hf.
      destruct (UserService.user_update db userId data now) as [db1 r1].
      simpl in Hf. destruct r1; [|exact Hf].
      match goal with |- context [UserService.milestoneReward_create db1 ?row] =>
        pose proof (milestoneReward_create_users db1 row) as Hu;
        destruct (UserService.milestoneReward_create db1 row) as [db2 r2] end.
      simpl in Hu.
      assert (Hsame : UserService.getUserById db2 other = UserService.getUserById db1 other)
        by (apply getUserById_users; assumption).
      destruct r2; simpl; rewrite Hsame; exact Hf.
  - intros Hnone.
    unfold UserService.consumeEnergy, UserService.regenerateEnergy,
      UserService.addExperience, UserService.prestigeUser.
    rewrite Hnone.
    destruct (Qleb amount 0); destruct (Qltb amount 0); repeat split.
Qed.

Lemma operations_touch_one_user_witness :
  UserService.getUserById
    (fst (UserService.consumeEnergy "u" 5 Examples.tenMinutes MoreExamples.twoUsers)) "v"
  = Some MoreExamples.other
  /\ UserService.addExperience "w" 10 None 0 MoreExamples.twoUsers
     = (MoreExamples.twoUsers, Err UserNotFound).
Proof.
  destruct (operations_touch_one_user MoreExamples.twoUsers "u" "v" 5 10 None
              Examples.tenMinutes) as [Hframe _].
  destruct (operations_touch_one_user MoreExamples.twoUsers "w" "v" 5 10 None 0)
    as [_ Hmissing].
  split.
  - destruct (Hframe eq_refl) as (H & _). rewrite H. reflexivity.
  - destruct (Hmissing eq_refl) as (_ & _ & H & _). exact H.
Defined.

(** ** Prestige *)

(** X21. A player who has just prestiged cannot prestige again: the next
    call fails with [BelowMinimumLevel] and writes nothing.  A successful
    prestige appends exactly one MilestoneReward row, of level 0 and already
    claimed, which [processMilestoneRewards] never reads as unclaimed. *)
Theorem prestige_is_not_repeatable
    (db : Db) (userId : string) (user : User) (now later : Z) :
  UserService.getUserById db userId = Some user ->
  (50 <= user_level user)%Z ->
  UserService.prestigeUser userId later (fst (UserService.prestigeUser userId now db))
  = (fst (UserService.prestigeUser userId now db), Err BelowMinimumLevel)
  /\ (forall updated,
        snd (UserService.prestigeUser userId now db) = Ok updated ->
        exists row,
          milestoneRewards (fst (UserService.prestigeUser userId now db))
          = milestoneRewards db ++ [row]
          /\ row_userId row = userId
          /\ row_level row = 0%Z
          /\ row_claimed row = true
          /\ forall level, UserService.isUnclaimedFor userId level row = false).
Proof.
  intros Hfind Hlevel.
  unfold UserService.prestigeUser at 2 3 4 5. unfold UserService.MIN_PRESTIGE_LEVEL.
  rewrite Hfind.
  assert (E : (user_level user <? 50)%Z = false) by (apply Z.ltb_ge; assumption).
  rewrite E.
  set (data := UserService.set_prestige _ _).
  destruct (user_update_found db userId data now user Hfind eq_refl)
    as (db1 & Hupd & Hget & Hrows & _).
  rewrite Hupd.
  match goal with |- context [UserService.milestoneReward_create db1 ?r] =>
    set (row := r) end.
  pose proof (milestoneReward_create_users db1 row) as Hu.
  assert (Hcreate : snd (UserService.milestoneReward_create db1 row) = Ok tt ->
                    milestoneRewards (fst (UserService.milestoneReward_create db1 row))
                    = milestoneRewards db1 ++ [row]).
  { unfold UserService.milestoneReward_create.
    destruct (existsb _ (milestoneRewards db1)); [discriminate | reflexivity]. }
  destruct (UserService.milestoneReward_create db1 row) as [db2 r2].
  simpl in Hu, Hcreate.
  assert (Hget2 : UserService.getUserById db2 userId
                  = Some (UserService.set_updatedAt now (data user))).
  { rewrite (getUserById_users db2 db1) by assumption. assumption. }
  assert (Hagain : UserService.prestigeUser userId later db2 = (db2, Err BelowMinimumLevel)).
  { unfold UserService.prestigeUser. rewrite Hget2. reflexivity. }
  destruct r2 as [[]|e]; cbn [fst snd].
  - split; [assumption|]. intros updated _. exists row.
    rewrite (Hcreate eq_refl), Hrows. split; [reflexivity|].
    repeat split. intros level. unfold UserService.isUnclaimedFor. subst row. simpl.
    apply andb_false_r.
  - split; [assumption|]. intros updated H. discriminate.
Qed.

Lemma prestige_is_not_repeatable_witness :
  UserService.prestigeUser "u" 1
    (fst (UserService.prestigeUser "u" 0 (Examples.dbOf Examples.veteran)))
  = (fst (UserService.prestigeUser "u" 0 (Examples.dbOf Examples.veteran)),
     Err BelowMinimumLevel).
Proof.
  assert (Hlevel : (50 <= user_level Examples.veteran)%Z) by (simpl; lia).
  destruct (prestige_is_not_repeatable (Examples.dbOf Examples.veteran) "u"
              Examples.veteran 0 1 eq_refl Hlevel) as [H _].
  exact H.
Defined.

(** ** Multipliers *)

(** X22. The catch-up multiplier [getCurrentXpMultipliers] reports is either
    exactly 1 or lies above 1.25 and at most 1.5: it never takes a value
    between 1 and 1.25.  It is 1 for a player who does not exist, and the
    total multiplier is the product of the event and catch-up multipliers. *)
Theorem catchup_used_has_a_gap (db : Db) (userId : string) (now : Z) :
  (UserService.catchupMultiplier (UserService.getCurrentXpMultipliers db userId now) == 1
   \/ (125 # 100 < UserService.catchupMultiplier
                     (UserService.getCurrentXpMultipliers db userId now)
       /\ UserService.catchupMultiplier (UserService.getCurrentXpMultipliers db userId now)
          <= 15 # 10))
  /\ (UserService.getUserById db userId = None ->
      UserService.catchupMultiplier (UserService.getCurrentXpMultipliers db userId now) = 1)
  /\ UserService.totalMultiplier (UserService.getCurrentXpMultipliers db userId now)
     = UserService.eventMultiplier (UserService.getCurrentXpMultipliers db userId now)
       * UserService.catchupMultiplier (UserService.getCurrentXpMultipliers db userId now).
Proof.
  unfold UserService.getCurrentXpMultipliers.
  cbn [UserService.catchupMultiplier UserService.totalMultiplier UserService.eventMultiplier].
  split; [|split; [|reflexivity]].
  - destruct (UserService.getUserById db userId) as [user|]; [|left; reflexivity].
    unfold UserService.catchupFor.
    set (d := averageUserLevel db - inject_Z (user_level user)). clearbody d.
    destruct (Qltb 5 d) eqn:E; [|left; reflexivity].
    apply Qltb_true in E. right. split.
    + apply Q.min_glb_lt; lra.
    + apply Q.le_min_r.
  - intros ->. reflexivity.
Qed.

(** X23. [ExperienceCalculator.getCatchupMultiplier] always lies between 1
    and 1.5, is 1.5 exactly from a deficit of 5 levels on, and never grows
    when the player's level grows. *)
Theorem getCatchupMultiplier_range (averageLevel : Q) (level1 level2 : Z) :
  (level1 <= level2)%Z ->
  1 <= ExperienceCalculator.getCatchupMultiplier averageLevel level1
  /\ ExperienceCalculator.getCatchupMultiplier averageLevel level1 <= 15 # 10
  /\ (ExperienceCalculator.getCatchupMultiplier averageLevel level1 == 15 # 10
      <-> 5 <= averageLevel - inject_Z level1)
  /\ ExperienceCalculator.getCatchupMultiplier averageLevel level2
     <= ExperienceCalculator.getCatchupMultiplier averageLevel level1.
Proof.
  intros Hlevels.
  assert (Hq : inject_Z level1 <= inject_Z level2) by (rewrite <- Zle_Qle; assumption).
  assert (Hform : forall l,
             (averageLevel <= inject_Z l
              /\ ExperienceCalculator.getCatchupMultiplier averageLevel l == 1)
             \/ (inject_Z l < averageLevel
                 /\ ExperienceCalculator.getCatchupMultiplier averageLevel l
                    == 1 + Qmin (averageLevel - inject_Z l) 5 * (1 # 10))).
  { intros l. unfold ExperienceCalculator.getCatchupMultiplier.
    unfold ExperienceCalculator.catchupThreshold, ExperienceCalculator.maxCatchupMultiplier.
    destruct (Qleb averageLevel (inject_Z l)) eqn:E.
    - apply Qleb_true in E. left. split; [assumption | reflexivity].
    - apply Qleb_false in E. right. split; [assumption|].
      unfold Qdiv. change (/ 5) with (1 # 5). ring. }
  pose proof (Hform level1) as H1. pose proof (Hform level2) as H2. clear Hform.
  set (m1 := ExperienceCalculator.getCatchupMultiplier averageLevel level1) in *.
  set (m2 := ExperienceCalculator.getCatchupMultiplier averageLevel level2) in *.
  set (q1 := inject_Z level1) in *. set (q2 := inject_Z level2) in *.
  clearbody m1 m2 q1 q2.
  destruct (Q.min_spec (averageLevel - q1) 5) as [[Ha1 Hb1] | [Ha1 Hb1]];
    destruct (Q.min_spec (averageLevel - q2) 5) as [[Ha2 Hb2] | [Ha2 Hb2]];
    rewrite Hb1 in H1; rewrite Hb2 in H2;
    destruct H1 as [[Hc1 Hm1] | [Hc1 Hm1]]; destruct H2 as [[Hc2 Hm2] | [Hc2 Hm2]];
    rewrite Hm1, Hm2;
    (split; [lra|]; split; [lra|]; split; [split; intros; lra | lra]).
Qed.

Lemma getCatchupMultiplier_range_witness :
  1 <= ExperienceCalculator.getCatchupMultiplier 10 3
  /\ ExperienceCalculator.getCatchupMultiplier 10 8
     <= ExperienceCalculator.getCatchupMultiplier 10 3.
Proof.
  assert (Hl : (3 <= 8)%Z) by lia.
  destruct (getCatchupMultiplier_range 10 3 8 Hl) as (H1 & _ & _ & H2).
  split; assumption.
Defined.

Lemma filter_length_lt {A : Type} (f : A -> bool) (l : list A) :
  (List.length (filter f l) <? List.length l)%nat = existsb (fun x => negb (f x)) l.
Proof.
  assert (Hle : forall l', (List.length (filter f l') <= List.length l')%nat).
  { induction l' as [|a l' IH]; simpl; [lia|]. destruct (f a); simpl; lia. }
  induction l as [|a l IH]; simpl; [reflexivity|].
  destruct (f a); simpl.
  - exact IH.
  - apply Nat.ltb_lt. specialize (Hle l). lia.
Qed.

(** X24. The registry of multiplier events: an event that has already ended
    is not added; removing reports [true] exactly when some registered event
    has the id, and leaves no event with that id; and adding a live event
    with a new id and removing it again restores the registry. *)
Theorem multiplier_event_registry
    (events : list XpMultiplierEvent) (event : XpMultiplierEvent)
    (eventId : string) (now : Z) :
  ((event_endTime event <= now)%Z ->
   ExperienceCalculatorExt.addXpMultiplierEvent event now events = events)
  /\ snd (ExperienceCalculatorExt.removeXpMultiplierEvent eventId events)
     = existsb (fun e => String.eqb (event_id e) eventId) events
  /\ (forall e,
        In e (fst (ExperienceCalculatorExt.removeXpMultiplierEvent eventId events)) ->
        In e events /\ event_id e <> eventId)
  /\ ((now < event_endTime event)%Z ->
      (forall e, In e events -> event_id e <> event_id event) ->
      ExperienceCalculatorExt.removeXpMultiplierEvent (event_id event)
        (ExperienceCalculatorExt.addXpMultiplierEvent event now events)
      = (events, true)).
Proof.
  split; [|split; [|split]].
  - intros Hended. unfold ExperienceCalculatorExt.addXpMultiplierEvent.
    assert (E : (event_endTime event <=? now)%Z = true) by (apply Z.leb_le; assumption).
    rewrite E. reflexivity.
  - unfold ExperienceCalculatorExt.removeXpMultiplierEvent. cbn [snd].
    rewrite filter_length_lt. induction events as [|a l IH]; simpl; [reflexivity|].
    rewrite negb_involutive, IH. reflexivity.
  - intros e He. unfold ExperienceCalculatorExt.removeXpMultiplierEvent in He.
    cbn [fst] in He. apply filter_In in He. destruct He as [Hin Hid].
    split; [assumption|]. intros Heq. apply String.eqb_eq in Heq.
    rewrite Heq in Hid. discriminate.
  - intros Hlive Hfresh. unfold ExperienceCalculatorExt.addXpMultiplierEvent.
    assert (E : (event_endTime event <=? now)%Z = false) by (apply Z.leb_gt; assumption).
    rewrite E. unfold ExperienceCalculatorExt.removeXpMultiplierEvent.
    rewrite filter_app. simpl. rewrite String.eqb_refl. simpl. rewrite app_nil_r.
    assert (Hkeep : filter (fun e => negb (String.eqb (event_id e) (event_id event))) events
                    = events).
    { apply filter_all. intros e He. apply negb_true_iff. apply String.eqb_neq.
      apply Hfresh. assumption. }
    rewrite Hkeep. f_equal. apply Nat.ltb_lt. rewrite length_app. simpl. lia.
Qed.

Lemma multiplier_event_registry_witness :
  ExperienceCalculatorExt.removeXpMultiplierEvent "triple"
    (ExperienceCalculatorExt.addXpMultiplierEvent Examples.tripleXp 0 [Examples.doubleXp])
  = ([Examples.doubleXp], true)
  /\ ExperienceCalculatorExt.addXpMultiplierEvent Examples.tripleXp 1000000
       [Examples.doubleXp]
     = [Examples.doubleXp].
Proof.
  destruct (multiplier_event_registry [Examples.doubleXp] Examples.tripleXp "triple" 0)
    as (_ & _ & _ & Hround).
  destruct (multiplier_event_registry [Examples.doubleXp] Examples.tripleXp "triple" 1000000)
    as (Hended & _).
  split.
  - apply Hround; [reflexivity|].
    intros e [<- | []]. discriminate.
  - apply Hended. simpl. lia.
Defined.

Lemma fold_left_multipliers (userId zoneId : option string) (l : list XpMultiplierEvent) :
  forall acc,
    fold_left
      (fun multiplier event =>
         if ExperienceCalculator.appliesTo event userId zoneId
         then multiplier * event_multiplier event
         else multiplier) l acc
    == acc * productOfMultipliers
               (filter (fun e => ExperienceCalculator.appliesTo e userId zoneId) l).
Proof.
  induction l as [|a l IH]; intros acc; simpl.
  - ring.
  - rewrite IH. destruct (ExperienceCalculator.appliesTo a userId zoneId); simpl; ring.
Qed.

(** X25. [getActiveXpMultiplier] is the product of the multipliers of all
    registered events that have not ended and are in scope, whether or not
    they have started; with no such event it is 1. *)
Theorem getActiveXpMultiplier_is_product
    (events : list XpMultiplierEvent) (now : Z) (userId zoneId : option string) :
  ExperienceCalculator.getActiveXpMultiplier events now userId zoneId
  == productOfMultipliers
       (filter (fun e => (now <? event_endTime e)%Z
                         && ExperienceCalculator.appliesTo e userId zoneId)
               events).
Proof.
  unfold ExperienceCalculator.getActiveXpMultiplier, ExperienceCalculator.activeMultipliers.
  assert (Hfuse : filter (fun e => ExperienceCalculator.appliesTo e userId zoneId)
                         (filter (fun event => (now <? event_endTime event)%Z) events)
                  = filter (fun e => (now <? event_endTime e)%Z
                                     && ExperienceCalculator.appliesTo e userId zoneId)
                           events).
  { induction events as [|a l IH]; simpl; [reflexivity|].
    destruct (now <? event_endTime a)%Z; simpl; [|assumption].
    destruct (ExperienceCalculator.appliesTo a userId zoneId); rewrite IH; reflexivity. }
  rewrite <- Hfuse.
  destruct (filter (fun event => (now <? event_endTime event)%Z) events) as [|a l] eqn:E.
  - reflexivity.
  - rewrite fold_left_multipliers. ring.
Qed.

(** ** Recovery zones *)

(** X26. Inside a recovery zone the reconciliation never yields less than
    outside it, on the same state and clock. *)
Theorem recovery_zone_never_hurts
    (c m : Q) (last : Z) (mult : Q) (now : Z) (plain rested : Q) :
  EnergyManager.calculateRegeneratedEnergy c m last mult false now = Ok plain ->
  EnergyManager.calculateRegeneratedEnergy c m last mult true now = Ok rested ->
  plain <= rested.
Proof.
  intros Hplain Hrested.
  destruct (calculateRegeneratedEnergy_valid _ _ _ _ _ _ _ Hplain) as (Hc & Hm & Hmult).
  destruct (calculateRegeneratedEnergy_formula c m last mult false now Hc Hm Hmult)
    as (a & Ha & Hva).
  destruct (calculateRegeneratedEnergy_formula c m last mult true now Hc Hm Hmult)
    as (b & Hb & Hvb).
  rewrite Hplain in Ha. injection Ha as <-. rewrite Hrested in Hb. injection Hb as <-.
  rewrite Hva, Hvb. apply Q.min_le_compat_r.
  assert (Hg : (energyGained last mult false now <= energyGained last mult true now)%Z).
  { unfold energyGained. apply Qfloor_resp_le.
    pose proof (minutesPassed_nonneg last now) as Hmin.
    unfold EnergyManager.baseRegenerationRate, EnergyManager.recoveryZoneMultiplier.
    generalize dependent (Qmax 0 (inject_Z (now - last) / inject_Z (1000 * 60))).
    intros t Ht. nra. }
  rewrite Zle_Qle in Hg. lra.
Qed.

Lemma recovery_zone_never_hurts_witness :
  EnergyManager.calculateRegeneratedEnergy 20 100 0 1 false Examples.tenMinutes = Ok 30
  /\ EnergyManager.calculateRegeneratedEnergy 20 100 0 1 true Examples.tenMinutes = Ok 45
  /\ 30 <= 45.
Proof.
  split; [reflexivity|]. split; [reflexivity|].
  exact (recovery_zone_never_hurts 20 100 0 1 Examples.tenMinutes 30 45 eq_refl eq_refl).
Defined.

Lemma find_energyState_update (userId : string) (f : UserEnergyState -> UserEnergyState)
    (l : list UserEnergyState) (st : UserEnergyState) :
  find (fun x => String.eqb (es_userId x) userId) l = Some st ->
  es_userId (f st) = es_userId st ->
  find (fun x => String.eqb (es_userId x) userId)
       (map (fun x => if String.eqb (es_userId x) userId then f x else x) l)
  = Some (f st).
Proof.
  intros Hfind Hid. induction l as [|x l IH]; simpl in *; [discriminate|].
  destruct (String.eqb (es_userId x) userId) eqn:Ex.
  - injection Hfind as ->. simpl. rewrite Hid, Ex. reflexivity.
  - simpl. rewrite Ex. auto.
Qed.

(** What a successful [enterRecoveryZone] has checked and written. *)
Lemma enterRecoveryZone_inversion
    (userId zoneId : string) (now : Z) (w w' : World) (st' : UserEnergyState) :
  ZoneService.enterRecoveryZone userId zoneId now w = (w', Done st') ->
  exists st user zone maxEnergy energy,
    ZoneService.findEnergyState w userId = Some st
    /\ UserService.getUserById (world_db w) userId = Some user
    /\ ZoneService.getZoneById w zoneId = Some zone
    /\ (zone_requiredLevel zone <= user_level user)%Z
    /\ ZoneService.isRecoveryZone w zoneId = true
    /\ EnergyManagerExt.getMaxEnergyForLevel (user_level user) (es_passiveMaxEnergyBonus st)
       = Done maxEnergy
    /\ EnergyManager.calculateRegeneratedEnergy (es_currentEnergy st) (inject_Z maxEnergy)
         (es_lastEnergyUpdate st) (es_regenRateMultiplier st) false now = Ok energy
    /\ st' = ZoneService.set_recovery energy now (Some zoneId) (Some now) st
    /\ w' = ZoneService.energyState_update w userId
              (ZoneService.set_recovery energy now (Some zoneId) (Some now)).
Proof.
  unfold ZoneService.enterRecoveryZone, ZoneService.userCanAccessZone.
  destruct (ZoneService.getZoneById w zoneId) as [zone|] eqn:Hz; [|discriminate].
  destruct (UserService.getUserById (world_db w) userId) as [user|] eqn:Hu; [|discriminate].
  destruct (user_level user <? zone_requiredLevel zone)%Z eqn:Hlevel; [discriminate|].
  cbn [ZoneService.canAccess negb].
  destruct (ZoneService.isRecoveryZone w zoneId) eqn:Hzone; [|discriminate].
  cbn [negb].
  destruct (ZoneService.findEnergyState w userId) as [st|] eqn:Hst; [|discriminate].
  destruct (EnergyManagerExt.getMaxEnergyForLevel _ _) as [maxEnergy|] eqn:Hmax;
    [|discriminate].
  destruct (EnergyManager.calculateRegeneratedEnergy _ _ _ _ _ _) as [energy|] eqn:Hcalc;
    [|discriminate].
  intros H. injection H as <- <-.
  apply Z.ltb_ge in Hlevel.
  exists st, user, zone, maxEnergy, energy. repeat split; auto.
Qed.

(** X27. A successful [enterRecoveryZone] was made by a player of sufficient
    level into a registered recovery zone; it stores a state that is in that
    zone since [now], with the clock at [now] and an energy between the old
    energy and the lazy cap, and writes nothing else.  A failed call writes
    nothing at all. *)
Theorem enterRecoveryZone_effect (userId zoneId : string) (now : Z) (w : World) :
  (forall w' st',
      ZoneService.enterRecoveryZone userId zoneId now w = (w', Done st') ->
      exists st user zone maxEnergy,
        ZoneService.findEnergyState w userId = Some st
        /\ UserService.getUserById (world_db w) userId = Some user
        /\ ZoneService.getZoneById w zoneId = Some zone
        /\ (zone_requiredLevel zone <= user_level user)%Z
        /\ ZoneService.isRecoveryZone w zoneId = true
        /\ EnergyManagerExt.getMaxEnergyForLevel (user_level user)
             (es_passiveMaxEnergyBonus st) = Done maxEnergy
        /\ ZoneService.findEnergyState w' userId = Some st'
        /\ es_currentRecoveryZoneId st' = Some zoneId
        /\ es_recoveryZoneEntryTime st' = Some now
        /\ es_lastEnergyUpdate st' = now
        /\ es_currentEnergy st <= es_currentEnergy st'
        /\ es_currentEnergy st' <= Qmax (es_currentEnergy st) (inject_Z maxEnergy)
        /\ es_regenRateMultiplier st' = es_regenRateMultiplier st
        /\ world_db w' = world_db w
        /\ world_zones w' = world_zones w
        /\ world_recoveryZones w' = world_recoveryZones w)
  /\ (forall w' f,
        ZoneService.enterRecoveryZone userId zoneId now w = (w', Fail f) -> w' = w).
Proof.
  split.
  - intros w' st' Hrun.
    destruct (enterRecoveryZone_inversion _ _ _ _ _ _ Hrun)
      as (st & user & zone & maxEnergy & energy
          & Hst & Huser & Hzone & Hlevel & Hrec & Hmax & Hcalc & -> & ->).
    destruct (calculateRegeneratedEnergy_valid _ _ _ _ _ _ _ Hcalc) as (Hc & Hm & Hmult).
    destruct (calculateRegeneratedEnergy_ok _ _ (es_lastEnergyUpdate st) _ false now
                Hc Hm Hmult) as (r & Hr & Hlow & Hhigh).
    rewrite Hcalc in Hr. injection Hr as <-.
    exists st, user, zone, maxEnergy.
    split; [assumption|]. split; [assumption|]. split; [assumption|].
    split; [assumption|]. split; [assumption|]. split; [assumption|].
    split.
    + unfold ZoneService.findEnergyState in *. simpl.
      apply (find_energyState_update userId
               (ZoneService.set_recovery energy now (Some zoneId) (Some now)));
        [assumption | reflexivity].
    + simpl. repeat split; assumption.
  - intros w' f. unfold ZoneService.enterRecoveryZone.
    destruct (negb (ZoneService.canAccess _)); [intros H; injection H as <- _; reflexivity|].
    destruct (negb (ZoneService.isRecoveryZone w zoneId));
      [intros H; injection H as <- _; reflexivity|].
    destruct (ZoneService.findEnergyState w userId) as [st|];
      [|intros H; injection H as <- _; reflexivity].
    destruct (UserService.getUserById (world_db w) userId) as [user|];
      [|intros H; injection H as <- _; reflexivity].
    destruct (EnergyManagerExt.getMaxEnergyForLevel _ _) as [maxEnergy|];
      [|intros H; injection H as <- _; reflexivity].
    destruct (EnergyManager.calculateRegeneratedEnergy _ _ _ _ _ _) as [energy|];
      [discriminate | intros H; injection H as <- _; reflexivity].
Qed.

Lemma enterRecoveryZone_effect_witness :
  exists w' st',
    ZoneService.enterRecoveryZone "u" "spa" Examples.tenMinutes MoreExamples.world
      = (w', Done st')
    /\ es_currentRecoveryZoneId st' = Some "spa"%string
    /\ es_currentEnergy MoreExamples.idle <= es_currentEnergy st'.
Proof.
  destruct (enterRecoveryZone_effect "u" "spa" Examples.tenMinutes MoreExamples.world)
    as [Hok _].
  destruct (ZoneService.enterRecoveryZone "u" "spa" Examples.tenMinutes MoreExamples.world)
    as [w' r] eqn:Hrun.
  pose proof Hrun as Hvalue. vm_compute in Hvalue. injection Hvalue as <- <-.
  destruct (Hok _ _ eq_refl) as (st & user & zone & maxEnergy & Hst & _ & _ & _ & _ & _
                                 & _ & Hzone & _ & _ & Hlow & _).
  vm_compute in Hst. injection Hst as <-.
  eexists. eexists. split; [reflexivity|]. split; [exact Hzone | exact Hlow].
Defined.

(** X28. Leaving right after entering: once [enterRecoveryZone] succeeded
    for a zone with a non-empty id, [leaveRecoveryZone] succeeds, clears the
    zone, never lowers the energy, keeps it unchanged when no time has
    passed since the entry, and a second [leaveRecoveryZone] then fails with
    [NotInRecoveryZone], writing nothing. *)
Theorem leave_after_enter
    (userId zoneId : string) (entered left again : Z) (w w1 : World)
    (st1 : UserEnergyState) :
  ZoneService.enterRecoveryZone userId zoneId entered w = (w1, Done st1) ->
  zoneId <> ""%string ->
  exists w2 st2,
    ZoneService.leaveRecoveryZone userId left w1 = (w2, Done st2)
    /\ ZoneService.findEnergyState w2 userId = Some st2
    /\ es_currentRecoveryZoneId st2 = None
    /\ es_recoveryZoneEntryTime st2 = None
    /\ es_lastEnergyUpdate st2 = left
    /\ es_currentEnergy st1 <= es_currentEnergy st2
    /\ ((left <= entered)%Z -> es_currentEnergy st2 == es_currentEnergy st1)
    /\ ZoneService.leaveRecoveryZone userId again w2 = (w2, Fail NotInRecoveryZone).
Proof.
  intros Henter Hid.
  destruct (enterRecoveryZone_inversion _ _ _ _ _ _ Henter)
    as (st & user & zone & maxEnergy & energy
        & Hst & Huser & Hzone & Hlevel & Hrec & Hmax & Hcalc & -> & ->).
  destruct (calculateRegeneratedEnergy_valid _ _ _ _ _ _ _ Hcalc) as (Hc & Hm & Hmult).
  destruct (calculateRegeneratedEnergy_ok _ _ (es_lastEnergyUpdate st) _ false entered
              Hc Hm Hmult) as (r & Hr & Hlow & _).
  rewrite Hcalc in Hr. injection Hr as <-.
  set (data1 := ZoneService.set_recovery energy entered (Some zoneId) (Some entered)) in *.
  set (w1 := ZoneService.energyState_update w userId data1) in *.
  assert (Hst1 : ZoneService.findEnergyState w1 userId = Some (data1 st)).
  { unfold ZoneService.findEnergyState in *. simpl.
    apply (find_energyState_update userId data1); [assumption | reflexivity]. }
  assert (He : 0 <= energy) by lra.
  destruct (calculateRegeneratedEnergy_formula energy (inject_Z maxEnergy) entered
              (es_regenRateMultiplier st) true left He Hm Hmult) as (r2 & Hr2 & Hval).
  destruct (calculateRegeneratedEnergy_ok energy (inject_Z maxEnergy) entered
              (es_regenRateMultiplier st) true left He Hm Hmult) as (r2' & Hr2' & Hlow2 & _).
  rewrite Hr2 in Hr2'. injection Hr2' as <-.
  set (data2 := ZoneService.set_recovery r2 left None None) in *.
  set (w2 := ZoneService.energyState_update w1 userId data2) in *.
  assert (Hst2 : ZoneService.findEnergyState w2 userId = Some (data2 (data1 st))).
  { unfold ZoneService.findEnergyState in *. simpl.
    apply (find_energyState_update userId data2); [assumption | reflexivity]. }
  assert (Hne : String.eqb zoneId "" = false) by (apply String.eqb_neq; assumption).
  exists w2, (data2 (data1 st)).
  split.
  - unfold ZoneService.leaveRecoveryZone. rewrite Hst1.
    cbn [data1 ZoneService.set_recovery es_currentRecoveryZoneId es_passiveMaxEnergyBonus
         es_currentEnergy es_lastEnergyUpdate es_regenRateMultiplier].
    rewrite Hne.
    change (ZoneService.getZoneById w1 zoneId) with (ZoneService.getZoneById w zoneId).
    rewrite Hzone.
    change (world_db w1) with (world_db w). rewrite Huser, Hmax, Hr2. reflexivity.
  - split; [assumption|]. simpl.
    split; [reflexivity|]. split; [reflexivity|]. split; [reflexivity|].
    split; [assumption|]. split.
    + intros Hskew. rewrite Hval.
      rewrite (energyGained_skew entered (es_regenRateMultiplier st) true left Hskew).
      change (inject_Z 0) with 0. rewrite Q.min_l; [ring|].
      apply Qle_trans with energy; [lra | apply Q.le_max_l].
    + unfold ZoneService.leaveRecoveryZone. rewrite Hst2. reflexivity.
Qed.

Lemma leave_after_enter_witness :
  exists w1 st1 w2 st2,
    ZoneService.enterRecoveryZone "u" "spa" Examples.tenMinutes MoreExamples.world
      = (w1, Done st1)
    /\ ZoneService.leaveRecoveryZone "u" (Examples.tenMinutes + 240000) w1 = (w2, Done st2)
    /\ es_currentEnergy st1 <= es_currentEnergy st2
    /\ es_currentRecoveryZoneId st2 = None.
Proof.
  destruct (ZoneService.enterRecoveryZone "u" "spa" Examples.tenMinutes MoreExamples.world)
    as [w1 r] eqn:Hrun.
  pose proof Hrun as Hvalue. vm_compute in Hvalue. injection Hvalue as <- <-.
  assert (Hid : "spa"%string <> ""%string) by discriminate.
  destruct (leave_after_enter "u" "spa" Examples.tenMinutes (Examples.tenMinutes + 240000) 0
              MoreExamples.world _ _ Hrun Hid)
    as (w2 & st2 & Hleave & _ & Hzone & _ & _ & Hlow & _).
  eexists. eexists. exists w2, st2.
  split; [reflexivity|]. split; [exact Hleave|]. split; [exact Hlow | exact Hzone].
Defined.

(** ** Milestone rows *)

(** X29. [processMilestoneRewards] only appends: the rows already stored
    stay where they are, the rows it adds are unclaimed rows of the given
    player and level, no user row changes, and for a level other than 5, 10,
    25 and 50 the table is left as it was. *)
Theorem processMilestoneRewards_only_appends (userId : string) (level : Z) (db : Db) :
  exists extra,
    milestoneRewards (fst (UserService.processMilestoneRewards userId level db))
    = milestoneRewards db ++ extra
    /\ (forall row, In row extra ->
          row_userId row = userId /\ row_level row = level /\ row_claimed row = false)
    /\ users (fst (UserService.processMilestoneRewards userId level db)) = users db
    /\ (level <> 5%Z -> level <> 10%Z -> level <> 25%Z -> level <> 50%Z -> extra = []).
Proof.
  assert (Hstore : forall rewards d,
             exists extra,
               milestoneRewards (fst (UserService.storeRewards d userId level rewards))
               = milestoneRewards d ++ extra
               /\ (forall row, In row extra ->
                     row_userId row = userId /\ row_level row = level
                     /\ row_claimed row = false)
               /\ (rewards = [] -> extra = [])).
  { induction rewards as [|reward rest IH]; intros d; simpl.
    - exists []. split; [symmetry; apply app_nil_r|]. split; [intros row []|reflexivity].
    - unfold UserService.milestoneReward_create.
      destruct (existsb _ (milestoneRewards d)).
      + exists []. split; [symmetry; apply app_nil_r|].
        split; [intros row [] | reflexivity].
      + match goal with |- context [UserService.storeRewards ?d' _ _ _] =>
          destruct (IH d') as (extra & Hrows & Hall & _) end.
        exists (UserService.rowOfReward userId level reward :: extra).
        split; [rewrite Hrows; simpl; rewrite <- app_assoc; reflexivity|].
        split; [|discriminate].
        intros row [<- | Hin]; [repeat split | apply Hall; assumption]. }
  pose proof (processMilestoneRewards_users userId level db) as Husers.
  unfold UserService.processMilestoneRewards in *.
  destruct (filter _ (milestoneRewards db)).
  - destruct (Hstore (UserService.milestones userId level) db) as (extra & Hrows & Hall & Hnil).
    destruct (UserService.storeRewards db userId level _) as [d r].
    exists extra. simpl in Hrows.
    assert (Hother : level <> 5%Z -> level <> 10%Z -> level <> 25%Z -> level <> 50%Z ->
                     extra = []).
    { intros H5 H10 H25 H50. apply Hnil. unfold UserService.milestones.
      assert (E5 : (level =? 5)%Z = false) by (apply Z.eqb_neq; assumption).
      assert (E10 : (level =? 10)%Z = false) by (apply Z.eqb_neq; assumption).
      assert (E25 : (level =? 25)%Z = false) by (apply Z.eqb_neq; assumption).
      assert (E50 : (level =? 50)%Z = false) by (apply Z.eqb_neq; assumption).
      rewrite E5, E10, E25, E50. reflexivity. }
    destruct r; cbn [fst] in *; repeat split; assumption || (apply Hall; assumption).
  - exists []. simpl. split; [symmetry; apply app_nil_r|].
    split; [intros row []|]. split; reflexivity.
Qed.

Lemma processMilestoneRewards_only_appends_witness :
  milestoneRewards
    (fst (UserService.processMilestoneRewards "u" 7 (Examples.dbOf Examples.rested)))
  = milestoneRewards (Examples.dbOf Examples.rested).
Proof.
  destruct (processMilestoneRewards_only_appends "u" 7 (Examples.dbOf Examples.rested))
    as (extra & Hrows & _ & _ & Hnil).
  rewrite Hrows, Hnil by discriminate. reflexivity.
Defined.

Lemma catchup_used_has_a_gap_witness :
  UserService.catchupMultiplier
    (UserService.getCurrentXpMultipliers (Examples.dbWithAverage 8) "nobody" 0) = 1.
Proof.
  destruct (catchup_used_has_a_gap (Examples.dbWithAverage 8) "nobody" 0) as (_ & H & _).
  apply H. reflexivity.
Defined.

(** ** Formatted waiting time *)

Lemma string_of_Z_not_Full (z : Z) (rest : string) :
  (UserService.string_of_Z z ++ rest)%string <> "Full"%string.
Proof.
  unfold UserService.string_of_Z.
  destruct (Z.to_int z) as [u | u]; destruct u; simpl; discriminate.
Qed.

(** X30. For a well-formed state with a positive effective multiplier, the
    formatted waiting time is the word ["Full"] exactly when the energy has
    reached the maximum. *)
Theorem formatted_time_is_Full_iff (c m mult : Q) (zone : bool) :
  0 <= c -> 0 < m -> 0 < mult ->
  exists text,
    EnergyManagerExt.getFormattedTimeUntilFullEnergy c m mult zone = Done text
    /\ (text = "Full"%string <-> m <= c).
Proof.
  intros Hc Hm Hmult.
  unfold EnergyManagerExt.getFormattedTimeUntilFullEnergy,
    EnergyManagerExt.calculateTimeUntilFullEnergy.
  destruct (Qltb c 0) eqn:E1; [apply Qltb_true in E1; lra|].
  destruct (Qleb m 0) eqn:E2; [apply Qleb_true in E2; lra|].
  destruct (Qleb m c) eqn:E3.
  - apply Qleb_true in E3. exists "Full"%string. split; [reflexivity|].
    split; [intros _; assumption | reflexivity].
  - apply Qleb_false in E3.
    set (eff := if zone then mult * EnergyManager.recoveryZoneMultiplier else mult).
    assert (Heff : 0 < eff).
    { subst eff. destruct zone; [|assumption].
      unfold EnergyManager.recoveryZoneMultiplier. nra. }
    destruct (Qleb eff 0) eqn:E4; [apply Qleb_true in E4; lra|].
    unfold EnergyManager.baseRegenerationRate.
    set (x := (m - c) / (1 * eff)).
    assert (Hx : 0 < x).
    { assert (Hmul : x * eff == m - c) by (unfold x; field; lra).
      destruct (Qlt_le_dec 0 x) as [|Hneg]; [assumption | nra]. }
    assert (Hminutes : (1 <= Qceiling x)%Z).
    { pose proof (Qle_ceiling x) as Hceil.
      destruct (Z_lt_le_dec (Qceiling x) 1) as [Hlt|]; [|assumption].
      assert (Hq : inject_Z (Qceiling x) <= 0)
        by (change 0 with (inject_Z 0); rewrite <- Zle_Qle; lia).
      lra. }
    assert (E5 : (Qceiling x <=? 0)%Z = false) by (apply Z.leb_gt; lia).
    rewrite E5.
    destruct (0 <? Qceiling x / 60)%Z; eexists; (split; [reflexivity|]);
      (split; [intros Hfull; exfalso; revert Hfull; apply string_of_Z_not_Full
              | intros Hle; lra]).
Qed.

(** From 20 of 100 energy at the plain rate: 80 minutes, ["1h 20m"]. *)
Lemma formatted_time_is_Full_iff_witness :
  EnergyManagerExt.getFormattedTimeUntilFullEnergy 20 100 1 false = Done "1h 20m"%string
  /\ exists text,
       EnergyManagerExt.getFormattedTimeUntilFullEnergy 100 100 1 false = Done text
       /\ text = "Full"%string.
Proof.
  split; [reflexivity|].
  assert (Hc : 0 <= 100) by lra.
  assert (Hm : 0 < 100) by lra.
  assert (Hmult : 0 < 1) by lra.
  destruct (formatted_time_is_Full_iff 100 100 1 false Hc Hm Hmult) as (text & Ht & Hiff).
  exists text. split; [assumption|]. apply Hiff. lra.
Defined.
